(** * Procastify storage service: a shallow embedding and its properties

    The module embedded here is the dual-mode persistence layer
    ([StorageService]): guest sessions keep their records in the browser's
    [localStorage], authenticated sessions keep them in a remote document
    store under [users/{uid}/...].

    Conventions of the embedding.
    - The numbers held in the records (minutes, counters, streaks) are
      whole numbers, modelled by [Z]; they are added as doubles are
      ([number_add]): exactly up to [2 ^ 53] in magnitude, rounded to the
      nearest double beyond.
    - A record of one of the five entity collections is modelled by its
      [id], its [userId] and the JSON text of its remaining fields, which
      the storage layer never inspects.
    - [new Date()] reads a clock and every request to the remote store may
      be rejected; both are oracles of the environment ([clock], [net]),
      consumed in order, with the number of reads kept in the state.
    - Local calendar dates ([toDateString]) are day numbers given by the
      host's zone ([local_day]); the [YYYY-MM-DD] keys of the activity
      histogram are UTC dates ([toISOString]) and are computed.
    - Calls run one after the other, as in a single tab that awaits each
      call.
    - Document ids and user ids are taken to be valid path segments of the
      remote store (non-empty, without a slash).
    - The user directory, an object used as a map, is a finite map
      together with the members every object inherits from
      [Object.prototype].
    - The object literal used as the name table in [loadCollection] is
      modelled by its own five properties.
    - A name handed to [collection(db, 'users', uid, name)] is cut into
      path segments as the store's client does; a user id is one
      segment. *)

From Stdlib Require Import ZArith String Ascii List Bool Lia.
From stdpp Require Import base option list strings pretty gmap fin_maps.

Local Open Scope string_scope.
Local Open Scope Z_scope.

(** ** Dates *)

Definition MS_PER_DAY : Z := 86400000.

(** Number of the UTC calendar day on which the instant [t] (milliseconds
    since the epoch) falls. *)
Definition utc_day (t : Z) : Z := t / MS_PER_DAY.

(** Year, month and day of month of a day number (proleptic Gregorian
    calendar, day 0 = 1970-01-01). *)
Definition civil_from_days (days : Z) : Z * Z * Z :=
  let z := days + 719468 in
  let era := z / 146097 in
  let doe := z - era * 146097 in
  let yoe := (doe - doe / 1460 + doe / 36524 - doe / 146096) / 365 in
  let doy := doe - (365 * yoe + yoe / 4 - yoe / 100) in
  let mp := (5 * doy + 2) / 153 in
  let d := doy - (153 * mp + 2) / 5 + 1 in
  let m := if mp <? 10 then mp + 3 else mp - 9 in
  let y := yoe + era * 400 + (if m <=? 2 then 1 else 0) in
  (y, m, d).

(** The last [width] decimal digits of [n], most significant first. *)
Fixpoint digits (width : nat) (n : Z) : string :=
  match width with
  | O => ""
  | S w => digits w (n / 10) +:+ String (ascii_of_nat (48 + Z.to_nat (n mod 10))) ""
  end.

Definition iso_year (y : Z) : string :=
  if (0 <=? y) && (y <=? 9999) then digits 4 y
  else if y <? 0 then "-" +:+ digits 6 (- y)
  else "+" +:+ digits 6 y.

(** [new Date(t).toISOString().split('T')[0]] *)
Definition iso_date (t : Z) : string :=
  let '(y, m, d) := civil_from_days (utc_day t) in
  iso_year y +:+ "-" +:+ digits 2 m +:+ "-" +:+ digits 2 d.

(** The day number of a calendar date, and the instants a [Date] can
    hold. *)
Definition days_from_civil (y m d : Z) : Z :=
  let y' := if m <=? 2 then y - 1 else y in
  let era := y' / 400 in
  let yoe := y' - era * 400 in
  let mp := if 2 <? m then m - 3 else m + 9 in
  let doy := (153 * mp + 2) / 5 + d - 1 in
  let doe := yoe * 365 + yoe / 4 - yoe / 100 + doy in
  era * 146097 + doe - 719468.

Definition date_range (t : Z) : Prop := - 8640000000000000 ≤ t ≤ 8640000000000000.

(** ** Numbers

    A number is an IEEE 754 double.  Every whole number up to [2 ^ 53] in
    magnitude is a double; a larger one is a double when it is a multiple
    of the power of two that leaves it 53 significant bits. *)

Definition MAX_EXACT : Z := 2 ^ 53.

(** The double nearest to the whole number [z], ties going to the even
    significand (magnitudes below [2 ^ 1024], which do not overflow). *)
Definition round_to_double (z : Z) : Z :=
  let a := Z.abs z in
  if a <=? MAX_EXACT then z
  else
    let ulp := 2 ^ (Z.log2 a - 52) in
    let q := a / ulp in
    let r := a mod ulp in
    let up := if 2 * r <? ulp then false else if ulp <? 2 * r then true else Z.odd q in
    Z.sgn z * ((if up then q + 1 else q) * ulp).

(** [x + y] on two whole numbers. *)
Definition number_add (x y : Z) : Z := round_to_double (x + y).

(** The string kept in [lastLoginDate], seen through [new Date(...)]: either
    it denotes an instant, as every string written by [toISOString] does, or
    [Date] cannot parse it. *)
Inductive DateString :=
  | IsoInstant (ms : Z)
  | Unparseable.

(** ** Records (types.ts) *)

Record UserStats := mkStats {
  stats_id : string;
  stats_userId : string;
  totalTimeStudiedMinutes : Z;
  notesCreated : Z;
  quizzesTaken : Z;
  loginStreak : Z;
  lastLoginDate : DateString;
  dailyActivity : gmap string Z;
  highScore : Z
}.

(** Note, Summary, QueueItem, RoutineTask and Quiz as the storage layer sees
    them ([T extends { userId: string }], with an [id]). *)
Record Item := mkItem {
  item_id : string;
  item_userId : string;
  item_rest : string
}.

Inductive UserRole := student | teacher.
Inductive EnergyPeak := morning | afternoon | night.
Inductive DistractionLevel := low | medium | high.

Record UserPreferences := mkUser {
  user_id : string;
  isGuest : bool;
  user_name : string;
  role : option UserRole;
  freeTimeHours : Z;
  energyPeak : EnergyPeak;
  goal : string;
  distractionLevel : DistractionLevel
}.

Global Instance DateString_eq_dec : EqDecision DateString.
Proof. solve_decision. Defined.

Global Instance UserStats_eq_dec : EqDecision UserStats.
Proof. solve_decision. Defined.

Global Instance Item_eq_dec : EqDecision Item.
Proof. solve_decision. Defined.

(** ** The two stores *)

Module LOCAL_KEYS.
Definition USER_SESSION := "procastify_session".
Definition USERS_DB := "procastify_users_db".
Definition STATS := "procastify_stats".
Definition NOTES := "procastify_notes".
Definition SUMMARIES := "procastify_summaries".
Definition QUEUE := "procastify_queue".
Definition TASKS := "procastify_tasks".
Definition QUIZZES := "procastify_quizzes".
End LOCAL_KEYS.

(** [localStorage], one field per kind of value the module keeps in it.  An
    absent item reads as the empty array (or the empty object), as
    [getLocalDB] and [setSession] read it. *)
Record LocalStorage := mkLocal {
  ls_session : option string;               (* USER_SESSION *)
  ls_users : gmap string UserPreferences;   (* USERS_DB *)
  ls_stats : list UserStats;                (* STATS *)
  ls_tables : gmap string (list Item)       (* the keys holding item arrays *)
}.

(** The remote document store below [users/]: the entity documents
    [users/{uid}/{collection}/{id}] and the singleton
    [users/{uid}/data/stats].  [fs_items] is keyed by the user id and the
    path of the subcollection below [users/{uid}], a single name for the
    collections the module writes.  The subcollection [data] holds the
    stats document and nothing else; [fs_items] is never consulted for
    it. *)
Record Firestore := mkRemote {
  fs_items : gmap (string * string) (gmap string Item);
  fs_stats : gmap string UserStats
}.

(** A document as a query hands it back ([d.data() as T]). *)
Inductive Doc :=
  | ItemDoc (i : Item)
  | StatsDoc (st : UserStats).

(** One [batch.set(ref, data)]. *)
Inductive BatchWrite :=
  | SetItem (uid collection : string) (i : Item)
  | SetStats (uid : string) (st : UserStats).

(** ** Program state *)

Record State := mkState {
  localStorage : LocalStorage;
  db : Firestore;
  currentUserId : option string;
  isGuestMode : bool;
  ticks : nat;     (* clock reads made so far *)
  calls : nat      (* requests sent to the remote store so far *)
}.

Definition set_local (f : LocalStorage → LocalStorage) (s : State) : State :=
  mkState (f (localStorage s)) (db s) (currentUserId s) (isGuestMode s) (ticks s) (calls s).

Definition set_db (f : Firestore → Firestore) (s : State) : State :=
  mkState (localStorage s) (f (db s)) (currentUserId s) (isGuestMode s) (ticks s) (calls s).

(** The state after one more clock read, and after one more request. *)
Definition tick (s : State) : State :=
  mkState (localStorage s) (db s) (currentUserId s) (isGuestMode s) (S (ticks s)) (calls s).

Definition bump (s : State) : State :=
  mkState (localStorage s) (db s) (currentUserId s) (isGuestMode s) (ticks s) (S (calls s)).

Definition set_ls_stats (l : list UserStats) (ls : LocalStorage) : LocalStorage :=
  mkLocal (ls_session ls) (ls_users ls) l (ls_tables ls).

Definition set_ls_table (key : string) (l : list Item) (ls : LocalStorage) : LocalStorage :=
  mkLocal (ls_session ls) (ls_users ls) (ls_stats ls) (<[key := l]> (ls_tables ls)).

(** [setDoc(doc(db, 'users', uid, 'data', 'stats'), st)] once it reached
    the store. *)
Definition put_stats (uid : string) (st : UserStats) (r : Firestore) : Firestore :=
  mkRemote (fs_items r) (<[uid := st]> (fs_stats r)).

(** [setDoc(doc(db, 'users', uid, collection, id), i)] once it reached the
    store: the document at that path is created or overwritten. *)
Definition put_item (uid collection : string) (i : Item) (r : Firestore) : Firestore :=
  mkRemote
    (<[(uid, collection) := <[item_id i := i]> (default ∅ (fs_items r !! (uid, collection)))]>
       (fs_items r))
    (fs_stats r).

Definition apply_write (r : Firestore) (w : BatchWrite) : Firestore :=
  match w with
  | SetItem uid c i => put_item uid c i r
  | SetStats uid st => put_stats uid st r
  end.

(** A committed batch: its writes in the order they were added. *)
Definition apply_batch (batch : list BatchWrite) (r : Firestore) : Firestore :=
  foldl apply_write r batch.

(** The documents of [users/{uid}/{collection}], as [getDocs] returns them,
    [collection] being the path of a subcollection below [users/{uid}].
    Their order is the one of [map_to_list]; the statements below only use
    membership. *)
Definition collection_docs (uid collection : string) (r : Firestore) : list Doc :=
  if decide (collection = "data")
  then match fs_stats r !! uid with Some st => [StatsDoc st] | None => [] end
  else ItemDoc <$> (map_to_list (default ∅ (fs_items r !! (uid, collection)))).*2.

(** [collection(db, 'users', uid, name)] of the store's client.  The name
    is cut at its slashes and the empty pieces are dropped; the call throws
    when the name contains two slashes in a row, or when the pieces left do
    not end on a collection, that is when their number is even. *)
Fixpoint split_slash (name : string) : list string :=
  match name with
  | EmptyString => [EmptyString]
  | String c rest =>
    if Ascii.eqb c "/" then EmptyString :: split_slash rest
    else match split_slash rest with
         | seg :: segs => String c seg :: segs
         | [] => [String c EmptyString]
         end
  end.

Fixpoint has_double_slash (name : string) : bool :=
  match name with
  | EmptyString => false
  | String c rest =>
    (Ascii.eqb c "/" && match rest with
                        | String c' _ => Ascii.eqb c' "/"
                        | EmptyString => false
                        end)
    || has_double_slash rest
  end.

Definition path_segments (name : string) : list string :=
  filter (λ seg, seg ≠ "") (split_slash name).

(** The subcollection of [users/{uid}] the name denotes, [None] when the
    call throws. *)
Definition subcollection (name : string) : option string :=
  if has_double_slash name then None
  else if Nat.odd (length (path_segments name))
       then Some (String.concat "/" (path_segments name))
       else None.

(** ** Promises: an operation either fulfils with a value or rejects; the
    effects made before a rejection stay. *)

Inductive Outcome (A : Type) :=
  | Fulfilled (a : A)
  | Rejected.
Arguments Fulfilled {A} a.
Arguments Rejected {A}.

Definition Op (A : Type) : Type := State → Outcome A * State.

Definition ret {A} (a : A) : Op A := λ s, (Fulfilled a, s).

Definition bind {A B} (m : Op A) (k : A → Op B) : Op B :=
  λ s, match m s with
       | (Fulfilled a, s') => k a s'
       | (Rejected, s') => (Rejected, s')
       end.

Notation "'let*' x ':=' m 'in' k" := (bind m (λ x, k))
  (at level 10, x name, m at level 100, k at level 200).

Definition modify (f : State → State) : Op unit := λ s, (Fulfilled tt, f s).

(** Truthiness of [currentUserId]: [null] and the empty string both count
    as no user. *)
Definition active (s : State) : option string :=
  match currentUserId s with
  | Some u => if decide (u = "") then None else Some u
  | None => None
  end.

Definition toDateString_of (local_day : Z → Z) (d : DateString) : option Z :=
  match d with
  | IsoInstant ms => Some (local_day ms)
  | Unparseable => None
  end.

(** ** Profile documents

    The profile documents [users/{uid}] of the remote store sit beside the
    state of the accessors above, none of which reads or writes them. *)

Record World := mkWorld {
  service : State;
  user_docs : gmap string UserPreferences     (* users/{uid} *)
}.

Definition WOp (A : Type) : Type := World → Outcome A * World.

Definition wret {A} (a : A) : WOp A := λ w, (Fulfilled a, w).

Definition wbind {A B} (m : WOp A) (k : A → WOp B) : WOp B :=
  λ w, match m w with
       | (Fulfilled a, w') => k a w'
       | (Rejected, w') => (Rejected, w')
       end.

(** An operation of the accessors, run beside the profile documents. *)
Definition wlift {A} (op : Op A) : WOp A :=
  λ w, let '(o, s') := op (service w) in (o, mkWorld s' (user_docs w)).

(** [try { ... } catch (e) { return fallback }] *)
Definition catch_with {A} (fallback : A) (m : WOp A) : WOp A :=
  λ w, match m w with
       | (Fulfilled a, w') => (Fulfilled a, w')
       | (Rejected, w') => (Fulfilled fallback, w')
       end.

(** The user directory is a plain object read from its JSON text.  Beside
    the profiles stored in it, it has the members every object inherits
    from [Object.prototype]. *)
Definition object_prototype_members : list string :=
  [ "__proto__"; "constructor"; "hasOwnProperty"; "isPrototypeOf";
    "propertyIsEnumerable"; "toLocaleString"; "toString"; "valueOf";
    "__defineGetter__"; "__defineSetter__"; "__lookupGetter__"; "__lookupSetter__" ].

(** What [users[id]] gives when it is truthy: a stored profile, or the
    inherited member of that name. *)
Inductive DirectoryEntry :=
  | Profile (p : UserPreferences)
  | Inherited (member : string).

(** [users[id]] *)
Definition read_user (id : string) (users : gmap string UserPreferences)
    : option DirectoryEntry :=
  match users !! id with
  | Some p => Some (Profile p)
  | None => if decide (id ∈ object_prototype_members) then Some (Inherited id) else None
  end.

(** [users[user.id] = user], as [JSON.stringify(users)] then shows it: the
    property is created or overwritten, except that an assignment to
    [__proto__] on an object without such a property of its own sets the
    prototype and stores nothing. *)
Definition assign_user (user : UserPreferences) (users : gmap string UserPreferences)
    : gmap string UserPreferences :=
  if decide (user_id user = "__proto__" ∧ users !! "__proto__" = None)
  then users
  else <[user_id user := user]> users.

(** [localStorage.setItem(USERS_DB, ...)] after [users[user.id] = user] *)
Definition put_local_user (user : UserPreferences) (ls : LocalStorage) : LocalStorage :=
  mkLocal (ls_session ls) (assign_user user (ls_users ls)) (ls_stats ls) (ls_tables ls).

(** [s.slice(-n)]: the last [n] characters, or all of [s] when it is shorter. *)
Definition slice_last (n : nat) (s : string) : string :=
  substring (String.length s - n) n s.

(** [email.split('@')[0]]: the text before the first [@]. *)
Fixpoint before_at (email : string) : string :=
  match email with
  | EmptyString => EmptyString
  | String c rest => if Ascii.eqb c "@" then EmptyString else String c (before_at rest)
  end.

(** [deriveName] of App.tsx; [None] is a [null] or [undefined] email. *)
Definition deriveName (email : option string) : string :=
  match email with
  | None => "User"
  | Some e => if decide (e = "") then "User" else before_at e
  end.

(** ** Sample data *)

(** A zone on UTC, a clock that advances by one hour per reading from
    2026-11-02T00:00:00Z, and a network that never fails. *)
Definition utc_zone (t : Z) : Z := t / MS_PER_DAY.
Definition hourly_clock (k : nat) : Z := 1793577600000 + 3600000 * Z.of_nat k.
Definition always_up (k : nat) : bool := true.
Definition always_down (k : nat) : bool := false.

Definition empty_local : LocalStorage := mkLocal None ∅ [] ∅.
Definition empty_remote : Firestore := mkRemote ∅ ∅.

(** A fresh authenticated session and a fresh guest session. *)
Definition auth_session : State := mkState empty_local empty_remote (Some "u1") false 0 0.
Definition guest_session : State := mkState empty_local empty_remote (Some "g1") true 0 0.

(** Two notes of the guest [g1], a note carrying the id of the guest [g2],
    and two summaries. *)
Definition note1 : Item := mkItem "n1" "g1" "title: Algebra".
Definition note2 : Item := mkItem "n2" "g1" "title: Optics".
Definition foreign_note : Item := mkItem "n3" "g2" "title: Latin".
Definition summary_a : Item := mkItem "a" "u1" "summaryText: first".

Definition other_guest : UserPreferences :=
  mkUser "g2" true "Guest #0002" None 2 morning "Productivity" medium.

(** Stats of [g1], last touched on 2026-11-01 at 23:00 UTC with a streak of
    four days, and with twenty minutes already logged under 2026-11-02. *)
Definition returning_stats : UserStats :=
  mkStats "stats_g1" "g1" 120 3 1 4 (IsoInstant 1793574000000)
          {[ "2026-11-02" := 20 ]} 0.

(** The guest [g1] coming back, in guest mode and after signing in. *)
Definition returning_guest : State :=
  mkState (mkLocal (Some "g1") ∅ [returning_stats]
                   {[ LOCAL_KEYS.NOTES := [note1; foreign_note; note2] ]})
          empty_remote (Some "g1") true 0 0.

Definition returning_user : State :=
  mkState empty_local (mkRemote ∅ {[ "u1" := returning_stats ]}) (Some "u1") false 0 0.

(** A network whose first request fails and whose later ones go through. *)
Definition fails_first (k : nat) : bool :=
  match k with
  | O => false
  | S _ => true
  end.

(** The stored profile of the signed-in user [u1]. *)
Definition ada_profile : UserPreferences :=
  mkUser "u1" false "Ada" (Some student) 4 night "Exams" low.

Definition signed_in_world : World := mkWorld auth_session {[ "u1" := ada_profile ]}.

(** Two versions of one quiz of [g1], and another quiz. *)
Definition quiz1 : Item := mkItem "q1" "g1" "title: Cells".
Definition quiz1_replayed : Item := mkItem "q1" "g1" "title: Cells; highScore: 3".
Definition quiz2 : Item := mkItem "q2" "g1" "title: Verbs".

(** A device shared by the guests [g1] and [g2], [g1] being the session. *)
Definition shared_device : State :=
  mkState (mkLocal (Some "g1") ∅
                   [returning_stats;
                    mkStats "stats_g2" "g2" 30 0 0 1 (IsoInstant 1793490000000) ∅ 0]
                   {[ LOCAL_KEYS.NOTES := [note1; foreign_note; note2];
                      LOCAL_KEYS.QUIZZES := [quiz1; quiz2] ]})
          empty_remote (Some "g1") true 0 0.

(** The user [u1] with a summary already in the remote store. *)
Definition stocked_user : State :=
  mkState empty_local
          (mkRemote {[ ("u1", "summaries") := {[ "a" := summary_a ]};
                       ("u2", "notes") := {[ "n9" := mkItem "n9" "u2" "title: Maps" ]} ]}
                    {[ "u1" := returning_stats; "u2" := returning_stats ]})
          (Some "u1") false 0 0.

(** A zone two hours east of UTC, and a clock that advances by one hour
    per reading from 2026-11-01T23:30:00Z, half an hour before the UTC date
    changes. *)
Definition east_zone (t : Z) : Z := (t + 7200000) / MS_PER_DAY.
Definition late_clock (k : nat) : Z := 1793575800000 + 3600000 * Z.of_nat k.

(** The guest [g1] with a streak and a lifetime total of [2 ^ 53], last
    seen on 2026-11-01 at 23:00 UTC. *)
Definition veteran_stats : UserStats :=
  mkStats "stats_g1" "g1" 9007199254740992 0 0 9007199254740992
          (IsoInstant 1793574000000) ∅ 0.

Definition veteran_guest : State :=
  mkState (mkLocal (Some "g1") ∅ [veteran_stats] ∅) empty_remote (Some "g1") true 0 0.

(** A guest whose id is the name of the prototype accessor. *)
Definition proto_guest : UserPreferences :=
  mkUser "__proto__" true "Guest #0003" None 2 morning "Productivity" medium.

(** A state without a session, the user id being the empty string. *)
Definition no_session : State :=
  mkState (localStorage shared_device) (db stocked_user) (Some "") true 0 0.

Section StorageService.

(** The host's time zone: [local_day t] numbers the local calendar date on
    which the instant [t] falls, consecutive dates having consecutive
    numbers.  Two instants have the same [toDateString()] exactly when they
    have the same [local_day]. *)
Variable local_day : Z → Z.

(** The [k]-th reading of the clock, in milliseconds since the epoch. *)
Variable clock : nat → Z.

(** Whether the [k]-th request to the remote store goes through. *)
Variable net : nat → bool.

(** [new Date()] *)
Definition newDate : Op Z := λ s, (Fulfilled (clock (ticks s)), tick s).

(** One round trip to the remote store ([getDoc], [setDoc], [getDocs],
    [batch.commit]); the promise rejects when the request fails. *)
Definition request : Op unit :=
  λ s, (if net (calls s) then Fulfilled tt else Rejected, bump s).

(** [new Date(str).toDateString()]; [None] is the text "Invalid Date". *)
Definition toDateString (d : DateString) : option Z := toDateString_of local_day d.

(** *** Local helpers *)

(** [getLocalDB(key)] for the keys that hold item arrays; the array under
    [LOCAL_KEYS.STATS] is read as [ls_stats]. *)
Definition getLocalDB (key : string) (ls : LocalStorage) : list Item :=
  default [] (ls_tables ls !! key).

Definition saveLocalDB (key : string) (data : list Item) (ls : LocalStorage) : LocalStorage :=
  set_ls_table key data ls.

Definition getLocalUserItems (key userId : string) (ls : LocalStorage) : list Item :=
  filter (λ item, item_userId item = userId) (getLocalDB key ls).

Definition saveLocalUserItems (key userId : string) (items : list Item)
    (ls : LocalStorage) : LocalStorage :=
  let all := getLocalDB key ls in
  let others := filter (λ i, item_userId i ≠ userId) all in
  saveLocalDB key (others ++ items)%list ls.

(** *** Session *)

(** [setSession(user)]: a guest is remembered as the last session and put
    into the local user directory; otherwise the session pointer is
    removed. *)
Definition setSession (user : UserPreferences) : State → State :=
  λ s,
    let ls := localStorage s in
    let ls' :=
      if isGuest user
      then mkLocal (Some (user_id user)) (assign_user user (ls_users ls))
                   (ls_stats ls) (ls_tables ls)
      else mkLocal None (ls_users ls) (ls_stats ls) (ls_tables ls) in
    mkState ls' (db s) (Some (user_id user)) (isGuest user) (ticks s) (calls s).

(** *** Stats *)

(** The object literal of [createEmptyStats], [now] being the instant
    read by its [new Date()]. *)
Definition empty_stats (userId : string) (now : Z) : UserStats :=
  {| stats_id := "stats_" +:+ userId;
     stats_userId := userId;
     totalTimeStudiedMinutes := 0;
     notesCreated := 0;
     quizzesTaken := 0;
     loginStreak := 0;
     lastLoginDate := IsoInstant now;
     dailyActivity := ∅;
     highScore := 0 |}.

Definition createEmptyStats (userId : string) : Op UserStats :=
  let* now := newDate in
  ret (empty_stats userId now).

Definition owns_stats (userId : string) (st : UserStats) : Prop :=
  stats_userId st = userId.

Global Instance owns_stats_dec userId st : Decision (owns_stats userId st).
Proof. unfold owns_stats. apply _. Defined.

(** [getStats()]: [all.find] is the first record of the user; [all.push]
    appends. *)
Definition getStats : Op UserStats :=
  λ s,
    match active s with
    | None => createEmptyStats "unknown" s
    | Some uid =>
      if isGuestMode s then
        let all := ls_stats (localStorage s) in
        match list_find (owns_stats uid) all with
        | Some (_, stats) => ret stats s
        | None =>
          (let* stats := createEmptyStats uid in
           let* _ := modify (set_local (set_ls_stats (all ++ [stats])%list)) in
           ret stats) s
        end
      else
        (let* _ := request in                          (* getDoc *)
         λ s1,
           match fs_stats (db s1) !! uid with
           | Some st => ret st s1
           | None =>
             (let* newStats := createEmptyStats uid in
              let* _ := request in                     (* setDoc *)
              let* _ := modify (set_db (put_stats uid newStats)) in
              ret newStats) s1
           end) s
    end.

(** The second half of [updateStats]: [updated] goes where the mode of the
    session keeps the stats. *)
Definition persistStats (uid : string) (updated : UserStats) : Op unit :=
  λ s,
    if isGuestMode s then
      let all := ls_stats (localStorage s) in
      let all' :=
        match list_find (owns_stats uid) all with
        | Some (idx, _) => <[idx := updated]> all
        | None => (all ++ [updated])%list
        end in
      modify (set_local (set_ls_stats all')) s
    else
      (let* _ := request in                            (* setDoc *)
       modify (set_db (put_stats uid updated))) s.

(** [updateStats(updater)]; the updater may read the clock, as the one of
    [checkLoginStreak] does. *)
Definition updateStats (updater : UserStats → Op UserStats) : Op (option UserStats) :=
  λ s,
    match active s with
    | None => ret None s
    | Some uid =>
      (let* current := getStats in
       let* updated := updater current in
       let* _ := persistStats uid updated in
       ret (Some updated)) s
    end.

(** [{ ...s, loginStreak: newStreak, lastLoginDate: new Date().toISOString() }] *)
Definition with_login (newStreak : Z) (now : Z) (st : UserStats) : UserStats :=
  {| stats_id := stats_id st;
     stats_userId := stats_userId st;
     totalTimeStudiedMinutes := totalTimeStudiedMinutes st;
     notesCreated := notesCreated st;
     quizzesTaken := quizzesTaken st;
     loginStreak := newStreak;
     lastLoginDate := IsoInstant now;
     dailyActivity := dailyActivity st;
     highScore := highScore st |}.

(** [checkLoginStreak()].  [today] and [yesterday] come from two readings
    of the clock; [yesterday.setDate(yesterday.getDate() - 1)] moves the
    second one to the previous calendar date. *)
Definition checkLoginStreak : Op unit :=
  λ s,
    match active s with
    | None => ret tt s
    | Some _ =>
      (let* stats := getStats in
       let lastDate := toDateString (lastLoginDate stats) in
       let* now := newDate in
       let today := Some (local_day now) in
       if decide (lastDate ≠ today) then
         let* now' := newDate in
         let yesterday := Some (local_day now' - 1) in
         let newStreak :=
           if decide (lastDate = yesterday) then number_add (loginStreak stats) 1 else 1 in
         let* _ := updateStats (λ st, let* t := newDate in ret (with_login newStreak t st)) in
         ret tt
       else ret tt) s
    end.

(** The object returned by the updater of [logStudyTime];
    [s.dailyActivity[todayKey] || 0] is the entry, or zero without one. *)
Definition with_study (todayKey : string) (minutes : Z) (st : UserStats) : UserStats :=
  let currentDaily := default 0 (dailyActivity st !! todayKey) in
  {| stats_id := stats_id st;
     stats_userId := stats_userId st;
     totalTimeStudiedMinutes := number_add (totalTimeStudiedMinutes st) minutes;
     notesCreated := notesCreated st;
     quizzesTaken := quizzesTaken st;
     loginStreak := loginStreak st;
     lastLoginDate := lastLoginDate st;
     dailyActivity := <[todayKey := number_add currentDaily minutes]> (dailyActivity st);
     highScore := highScore st |}.

Definition logStudyTime (minutes : Z) : Op unit :=
  λ s,
    match active s with
    | None => ret tt s
    | Some _ =>
      (let* now := newDate in
       let todayKey := iso_date now in
       let* _ := updateStats (λ st, ret (with_study todayKey minutes st)) in
       ret tt) s
    end.

(** *** Collections *)

(** The five logical collection names with their storage keys: the
    entries of the name table of [loadCollection] (guest mode). *)
Definition recognized : list (string * string) :=
  [ ("notes", LOCAL_KEYS.NOTES);
    ("summaries", LOCAL_KEYS.SUMMARIES);
    ("queue", LOCAL_KEYS.QUEUE);
    ("tasks", LOCAL_KEYS.TASKS);
    ("quizzes", LOCAL_KEYS.QUIZZES) ].

Definition collection_keys : gmap string string := list_to_map recognized.

(** [loadCollection(collectionName)].  In authenticated mode
    [collection(...)] is evaluated before anything is awaited: when it
    throws, the promise rejects and no request was sent. *)
Definition loadCollection (collectionName : string) : Op (list Doc) :=
  λ s,
    match active s with
    | None => ret [] s
    | Some uid =>
      if isGuestMode s then
        match collection_keys !! collectionName with
        | None => ret [] s
        | Some key => ret (ItemDoc <$> getLocalUserItems key uid (localStorage s)) s
        end
      else
        match subcollection collectionName with
        | None => (Rejected, s)                        (* collection(...) throws *)
        | Some c =>
          (let* _ := request in                        (* getDocs *)
           λ s1, ret (collection_docs uid c (db s1)) s1) s
        end
    end.

(** [saveNotes], [saveSummaries], [saveQueue] and [saveTasks] are the same
    function up to the storage key and the subcollection name. *)
Definition save_list (key collection : string) (items : list Item) : Op unit :=
  λ s,
    match active s with
    | None => ret tt s
    | Some uid =>
      if isGuestMode s then
        modify (set_local (saveLocalUserItems key uid items)) s
      else
        (let batch := SetItem uid collection <$> items in
         let* _ := request in                          (* batch.commit *)
         modify (set_db (apply_batch batch))) s
    end.

Definition getNotes : Op (list Doc) := loadCollection "notes".
Definition saveNotes (notes : list Item) : Op unit :=
  save_list LOCAL_KEYS.NOTES "notes" notes.

Definition getSummaries : Op (list Doc) := loadCollection "summaries".
Definition saveSummaries (summaries : list Item) : Op unit :=
  save_list LOCAL_KEYS.SUMMARIES "summaries" summaries.

Definition getQueue : Op (list Doc) := loadCollection "queue".
Definition saveQueue (queue : list Item) : Op unit :=
  save_list LOCAL_KEYS.QUEUE "queue" queue.

Definition getTasks : Op (list Doc) := loadCollection "tasks".
Definition saveTasks (tasks : list Item) : Op unit :=
  save_list LOCAL_KEYS.TASKS "tasks" tasks.

Definition getQuizzes : Op (list Doc) := loadCollection "quizzes".

(** *** Migration *)

(** [{ ...item, userId: authId }] *)
Definition restamp (authId : string) (item : Item) : Item :=
  mkItem (item_id item) authId (item_rest item).

(** [{ ...guestStats, userId: authId, id: `stats_${authId}` }] *)
Definition restamp_stats (authId : string) (st : UserStats) : UserStats :=
  {| stats_id := "stats_" +:+ authId;
     stats_userId := authId;
     totalTimeStudiedMinutes := totalTimeStudiedMinutes st;
     notesCreated := notesCreated st;
     quizzesTaken := quizzesTaken st;
     loginStreak := loginStreak st;
     lastLoginDate := lastLoginDate st;
     dailyActivity := dailyActivity st;
     highScore := highScore st |}.

(** The [batch.set] calls of one storage key, in order. *)
Definition migrate_table (key collection guestId authId : string)
    (ls : LocalStorage) : list BatchWrite :=
  (λ item, SetItem authId collection (restamp authId item))
    <$> getLocalUserItems key guestId ls.

(** The writes [migrateData] adds to its batch, in the order of the source. *)
Definition migration_batch (guestId authId : string) (ls : LocalStorage) : list BatchWrite :=
  let guestStats := snd <$> list_find (owns_stats guestId) (ls_stats ls) in
  (migrate_table LOCAL_KEYS.NOTES "notes" guestId authId ls
   ++ migrate_table LOCAL_KEYS.SUMMARIES "summaries" guestId authId ls
   ++ migrate_table LOCAL_KEYS.QUEUE "queue" guestId authId ls
   ++ migrate_table LOCAL_KEYS.TASKS "tasks" guestId authId ls
   ++ migrate_table LOCAL_KEYS.QUIZZES "quizzes" guestId authId ls
   ++ match guestStats with
      | Some st => [SetStats authId (restamp_stats authId st)]
      | None => []
      end)%list.

Definition migrateData (guestId authId : string) : Op unit :=
  λ s,
    (let batch := migration_batch guestId authId (localStorage s) in
     let* _ := request in                              (* batch.commit *)
     modify (set_db (apply_batch batch))) s.

(** ** Observations used in the statements *)

(** The stats record the store of the session's mode holds for [uid]: the
    first one of that user in the local table, or the remote singleton. *)
Definition stored_stats (uid : string) (s : State) : option UserStats :=
  if isGuestMode s
  then snd <$> list_find (owns_stats uid) (ls_stats (localStorage s))
  else fs_stats (db s) !! uid.

(** The document at [users/{uid}/{collection}/{id}]. *)
Definition remote_item (uid collection id : string) (r : Firestore) : option Item :=
  fs_items r !! (uid, collection) ≫= (.!! id).

(** The record [getStats] hands back: the stored one, or the empty one
    made at the next clock reading. *)
Definition stats_or_empty (uid : string) (s : State) : UserStats :=
  default (empty_stats uid (clock (ticks s))) (stored_stats uid s).

(** The tick at which the first clock reading after [getStats] is made. *)
Definition ticks_after_getStats (uid : string) (s : State) : nat :=
  match stored_stats uid s with
  | Some _ => ticks s
  | None => S (ticks s)
  end.

(** The streak [checkLoginStreak] writes when the date of the last login
    differs from today's, [now'] being its second clock reading. *)
Definition next_streak (st : UserStats) (now' : Z) : Z :=
  if decide (toDateString (lastLoginDate st) = Some (local_day now' - 1))
  then number_add (loginStreak st) 1
  else 1.

(** An operation only moves the two counters forward. *)
Definition steady {A} (op : Op A) : Prop :=
  ∀ s, (ticks s ≤ ticks (snd (op s)))%nat ∧ (calls s ≤ calls (snd (op s)))%nat.

(** Every request made between two states went through. *)
Definition requests_ok (s s' : State) : Prop :=
  ∀ k, (calls s ≤ k < calls s')%nat → net k = true.

(** Every clock reading made between two states falls on the local
    calendar date [D]. *)
Definition readings_on (D : Z) (s s' : State) : Prop :=
  ∀ k, (ticks s ≤ k < ticks s')%nat → local_day (clock k) = D.

(** The fail-soft reading of [loadCollection], in the words of the
    specification: the empty list when no user is active, and the empty
    list when the name is not one of the five. *)
Definition loadCollection_fails_soft (name : string) (s : State) : Prop :=
  (active s = None → fst (loadCollection name s) = Fulfilled []) ∧
  (name ∉ recognized.*1 → fst (loadCollection name s) = Fulfilled []).

(** The reading of the specification for a last login dated yesterday:
    whatever the streak, the call stores the streak plus one. *)
Definition checkLoginStreak_adds_one (s : State) (uid : string) : Prop :=
  ∀ st, stored_stats uid s = Some st →
    toDateString (lastLoginDate st) = Some (local_day (clock (ticks s)) - 1) →
    loginStreak <$> stored_stats uid (snd (checkLoginStreak s))
    = Some (loginStreak st + 1).

(** The reading of the specification for [logStudyTime 30] followed by
    [logStudyTime 15] with every clock reading on one calendar day of the
    host: whatever the record, the lifetime total is greater by 45 and so
    is the entry of one key of the histogram. *)
Definition logStudyTime_adds_45 (s : State) (uid : string) : Prop :=
  let s1 := snd (logStudyTime 30 s) in
  let s2 := snd (logStudyTime 15 s1) in
  (∀ k, (ticks s ≤ k < ticks s2)%nat →
        local_day (clock k) = local_day (clock (ticks s))) →
  ∃ st2, stored_stats uid s2 = Some st2 ∧
    totalTimeStudiedMinutes st2
    = default 0 (totalTimeStudiedMinutes <$> stored_stats uid s) + 45 ∧
    ∃ key, dailyActivity st2 !! key
           = Some (default 0 (stored_stats uid s ≫= λ st, dailyActivity st !! key) + 45).

(** ** The other functions of the service *)

(** [getGuestSession()] *)
Definition getGuestSession (s : State) : option DirectoryEntry :=
  match ls_session (localStorage s) with
  | Some sessionId =>
    if decide (sessionId = "") then None
    else read_user sessionId (ls_users (localStorage s))
  | None => None
  end.

(** [setSession] handed an inherited member, which has neither an [id] nor
    an [isGuest]: both module variables become [undefined] and the session
    pointer is removed. *)
Definition setSession_member : State → State :=
  λ s,
    let ls := localStorage s in
    mkState (mkLocal None (ls_users ls) (ls_stats ls) (ls_tables ls))
            (db s) None false (ticks s) (calls s).

(** [createGuestUser()].  [Date.now()] is a reading of the clock; [suffix]
    stands for [Math.random().toString(36).substr(2, 9)]. *)
Definition createGuestUser (suffix : string) : Op UserPreferences :=
  let* timestamp := newDate in
  let shortId := slice_last 4 (pretty timestamp) in
  let guestId := "guest_" +:+ pretty timestamp +:+ "_" +:+ suffix in
  ret {| user_id := guestId;
         isGuest := true;
         user_name := "Guest #" +:+ shortId;
         role := None;
         freeTimeHours := 2;
         energyPeak := morning;
         goal := "Productivity";
         distractionLevel := medium |}.

(** [getUserProfile(userId)]: a failed fetch is logged and gives [null]. *)
Definition getUserProfile (userId : string) : WOp (option UserPreferences) :=
  catch_with None
    (wbind (wlift request)                               (* getDoc *)
           (λ _ w, wret (user_docs w !! userId) w)).

(** [saveUserProfile(user)] *)
Definition saveUserProfile (user : UserPreferences) : WOp unit :=
  if isGuest user then
    wlift (modify (set_local (put_local_user user)))
  else
    wbind (wlift request)                                (* setDoc *)
          (λ _ w, (Fulfilled tt, mkWorld (service w) (<[user_id user := user]> (user_docs w)))).

(** The array of [saveQuiz] after [findIndex]: the first quiz with the id
    of [quiz] is replaced, or [quiz] is pushed. *)
Definition upsert_by_id (quiz : Item) (quizzes : list Item) : list Item :=
  match list_find (λ q, item_id q = item_id quiz) quizzes with
  | Some (existingIndex, _) => <[existingIndex := quiz]> quizzes
  | None => (quizzes ++ [quiz])%list
  end.

(** [saveQuiz(quiz)] *)
Definition saveQuiz (quiz : Item) : Op unit :=
  λ s,
    match active s with
    | None => ret tt s
    | Some uid =>
      if isGuestMode s then
        let quizzes := getLocalUserItems LOCAL_KEYS.QUIZZES uid (localStorage s) in
        modify (set_local (saveLocalUserItems LOCAL_KEYS.QUIZZES uid
                             (upsert_by_id quiz quizzes))) s
      else
        (let* _ := request in                            (* setDoc *)
         modify (set_db (put_item uid "quizzes" quiz))) s
    end.

(** The exported [getQuizzes(userId)]: the argument is not used. *)
Definition exported_getQuizzes (userId : string) : Op (list Doc) := getQuizzes.

(** ** Callers in App.tsx *)

(** The profile the auth listener makes for a signed-in user without one. *)
Definition fresh_profile (uid : string) (email : option string) : UserPreferences :=
  {| user_id := uid;
     isGuest := false;
     user_name := deriveName email;
     role := None;
     freeTimeHours := 2;
     energyPeak := morning;
     goal := "Productivity";
     distractionLevel := medium |}.

(** The callback of [onAuthStateChanged] up to its [setSession]:
    [firebaseUser] is the uid and the email of the signed-in user, or [None];
    the result is the user the application goes on with, [None] leading to
    the landing page. *)
Definition authListener (firebaseUser : option (string * option string))
    : WOp (option DirectoryEntry) :=
  match firebaseUser with
  | Some (uid, email) =>
    wbind (getUserProfile uid) (λ found,
    wbind (match found with
           | Some profile => wret profile
           | None =>
             wbind (saveUserProfile (fresh_profile uid email))
                   (λ _, wret (fresh_profile uid email))
           end) (λ profile,
    wbind (wlift (modify (setSession profile))) (λ _,
    wret (Some (Profile profile)))))
  | None =>
    λ w,
      match getGuestSession (service w) with
      | Some (Profile guestUser) =>
        wbind (wlift (modify (setSession guestUser)))
              (λ _, wret (Some (Profile guestUser))) w
      | Some (Inherited member) =>
        wbind (wlift (modify setSession_member))
              (λ _, wret (Some (Inherited member))) w
      | None => wret None w
      end
  end.

(** [loadUserData()]: what it hands to the three state setters, [None] when
    a call rejected and the error was logged. *)
Definition loadUserData : Op (option (list Doc * list Doc * UserStats)) :=
  λ s,
    match (let* _ := checkLoginStreak in
           let* n := getNotes in
           let* su := getSummaries in
           let* st := getStats in
           ret (n, su, st)) s with
    | (Fulfilled loaded, s') => (Fulfilled (Some loaded), s')
    | (Rejected, s') => (Fulfilled None, s')
    end.

(** ** What a stats call may change *)

(** From [s] to [s'] nothing changed but the stats record of [uid], in the
    store of the session's mode. *)
Definition stats_step (uid : string) (s s' : State) : Prop :=
  currentUserId s' = currentUserId s ∧
  isGuestMode s' = isGuestMode s ∧
  ls_session (localStorage s') = ls_session (localStorage s) ∧
  ls_users (localStorage s') = ls_users (localStorage s) ∧
  ls_tables (localStorage s') = ls_tables (localStorage s) ∧
  fs_items (db s') = fs_items (db s) ∧
  (∀ other, other ≠ uid →
     list_find (owns_stats other) (ls_stats (localStorage s'))
     = list_find (owns_stats other) (ls_stats (localStorage s)) ∧
     fs_stats (db s') !! other = fs_stats (db s) !! other) ∧
  (isGuestMode s = true → db s' = db s ∧ calls s' = calls s) ∧
  (isGuestMode s = false → localStorage s' = localStorage s) ∧
  (NoDup (stats_userId <$> ls_stats (localStorage s)) →
   NoDup (stats_userId <$> ls_stats (localStorage s'))).

(** [s'] is the state after one of the three stats calls made at [s]. *)
Definition after_stats_call (s s' : State) : Prop :=
  s' = snd (getStats s) ∨ s' = snd (checkLoginStreak s) ∨
  ∃ minutes, s' = snd (logStudyTime minutes s).

(** [s'] is the state after one of the accessors called at [s]: a stats
    call, a list save, [saveQuiz] or [loadCollection]. *)
Definition after_accessor (s s' : State) : Prop :=
  after_stats_call s s' ∨
  (∃ key c items, s' = snd (save_list key c items s)) ∨
  (∃ quiz, s' = snd (saveQuiz quiz s)) ∨
  (∃ name, s' = snd (loadCollection name s)).

(** The updater of App.tsx after a note was created:
    [{ ...s, notesCreated: (s.notesCreated || 0) + 1 }]. *)
Definition with_note_created (st : UserStats) : UserStats :=
  {| stats_id := stats_id st;
     stats_userId := stats_userId st;
     totalTimeStudiedMinutes := totalTimeStudiedMinutes st;
     notesCreated := number_add (notesCreated st) 1;
     quizzesTaken := quizzesTaken st;
     loginStreak := loginStreak st;
     lastLoginDate := lastLoginDate st;
     dailyActivity := dailyActivity st;
     highScore := highScore st |}.

(** Two remote stores in which every path holds the same document. *)
Definition same_documents (r r' : Firestore) : Prop :=
  (∀ uid c id, remote_item uid c id r = remote_item uid c id r') ∧
  (∀ uid, fs_stats r !! uid = fs_stats r' !! uid).

(** The data of the last write of a batch to the item path
    [users/{uid}/{c}/{id}], and of its last write to the stats of [uid]. *)
Fixpoint last_item (uid c id : string) (batch : list BatchWrite) : option Item :=
  match batch with
  | [] => None
  | w :: rest =>
    match last_item uid c id rest with
    | Some i => Some i
    | None =>
      match w with
      | SetItem u c' i =>
        if decide ((u, c', item_id i) = (uid, c, id)) then Some i else None
      | SetStats _ _ => None
      end
    end
  end.

Fixpoint last_stats (uid : string) (batch : list BatchWrite) : option UserStats :=
  match batch with
  | [] => None
  | w :: rest =>
    match last_stats uid rest with
    | Some st => Some st
    | None =>
      match w with
      | SetStats u st => if decide (u = uid) then Some st else None
      | SetItem _ _ _ => None
      end
    end
  end.

(** ** Lists and tables *)

Lemma filter_owned_others (uid : string) (l : list Item) :
  filter (λ i, item_userId i = uid) (filter (λ i, item_userId i ≠ uid) l) = [].
Proof.
  induction l as [|x l IH]; [done|].
  rewrite (filter_cons (λ i, item_userId i ≠ uid)).
  destruct (decide (item_userId x ≠ uid)) as [Hne|Heq]; [|done].
  rewrite filter_cons. by destruct (decide (item_userId x = uid)).
Qed.

Lemma getLocalDB_saved (key : string) (data : list Item) (ls : LocalStorage) :
  getLocalDB key (saveLocalDB key data ls) = data.
Proof. unfold getLocalDB, saveLocalDB, set_ls_table. cbn. by rewrite lookup_insert_eq. Qed.

Lemma getLocalUserItems_saved (key uid : string) (items : list Item) (ls : LocalStorage) :
  getLocalUserItems key uid (saveLocalUserItems key uid items ls)
  = filter (λ i, item_userId i = uid) items.
Proof.
  unfold getLocalUserItems, saveLocalUserItems.
  rewrite getLocalDB_saved, filter_app, filter_owned_others. done.
Qed.

Lemma filter_all_owned (uid : string) (l : list Item) :
  Forall (λ i, item_userId i = uid) l → filter (λ i, item_userId i = uid) l = l.
Proof.
  induction 1 as [|x l Hx _ IH]; [done|].
  rewrite filter_cons. destruct (decide (item_userId x = uid)); [|done]. by rewrite IH.
Qed.

Lemma saveNotes_guest (s : State) (uid : string) (L : list Item) :
  active s = Some uid → isGuestMode s = true →
  saveNotes L s
  = (Fulfilled tt, set_local (saveLocalUserItems LOCAL_KEYS.NOTES uid L) s).
Proof. intros Hu Hg. unfold saveNotes, save_list. by rewrite Hu, Hg. Qed.

Lemma getNotes_guest (s : State) (uid : string) :
  active s = Some uid → isGuestMode s = true →
  getNotes s
  = (Fulfilled (ItemDoc <$> getLocalUserItems LOCAL_KEYS.NOTES uid (localStorage s)), s).
Proof. intros Hu Hg. unfold getNotes, loadCollection. by rewrite Hu, Hg. Qed.

Lemma getNotes_after_saveNotes (s : State) (uid : string) (L : list Item) :
  active s = Some uid → isGuestMode s = true →
  fst (getNotes (snd (saveNotes L s)))
  = Fulfilled (ItemDoc <$> filter (λ i, item_userId i = uid) L).
Proof.
  intros Hu Hg. rewrite (saveNotes_guest s uid L Hu Hg). cbn [snd].
  rewrite (getNotes_guest _ uid) by done. cbn [fst set_local localStorage].
  by rewrite getLocalUserItems_saved.
Qed.

(** C6. In guest mode [saveNotes L] replaces the current user's notes by
    [L], whatever was saved before: a following [getNotes] returns the
    records of [L] (all of them when they carry the user's id, as the
    records the application saves do), and after [saveNotes []] it returns
    the empty list, also when two notes had been saved just before. *)
Theorem saveNotes_guest_full_replacement (s : State) (uid : string) :
  active s = Some uid → isGuestMode s = true →
  (∀ L, fst (saveNotes L s) = Fulfilled tt ∧
        fst (getNotes (snd (saveNotes L s)))
        = Fulfilled (ItemDoc <$> filter (λ i, item_userId i = uid) L)) ∧
  (∀ L, Forall (λ i, item_userId i = uid) L →
        fst (getNotes (snd (saveNotes L s))) = Fulfilled (ItemDoc <$> L)) ∧
  (∀ n1 n2,
      fst (getNotes (snd (saveNotes [] (snd (saveNotes [n1; n2] s))))) = Fulfilled []).
Proof.
  intros Hu Hg. split; [|split].
  - intros L. split; [by rewrite (saveNotes_guest s uid L)|].
    by apply getNotes_after_saveNotes.
  - intros L HL. rewrite (getNotes_after_saveNotes s uid L Hu Hg).
    by rewrite filter_all_owned.
  - intros n1 n2. rewrite (saveNotes_guest s uid [n1; n2] Hu Hg). cbn [snd].
    by rewrite (getNotes_after_saveNotes _ uid []).
Qed.

Lemma active_setSession (user : UserPreferences) (s : State) :
  user_id user ≠ "" → active (setSession user s) = Some (user_id user).
Proof. intros Hne. unfold active, setSession. cbn. by destruct (decide (user_id user = "")). Qed.

Lemma foreign_record_kept (key uid : string) (items : list Item) (r : Item)
    (ls : LocalStorage) :
  item_userId r ≠ uid → r ∈ getLocalDB key ls →
  r ∈ getLocalDB key (saveLocalUserItems key uid items ls).
Proof.
  intros Hne Hin. unfold saveLocalUserItems. rewrite getLocalDB_saved.
  apply elem_of_app. left. by apply list_elem_of_filter.
Qed.

Lemma foreign_record_stored (key uid : string) (items : list Item) (r : Item)
    (ls : LocalStorage) :
  r ∈ items → r ∈ getLocalDB key (saveLocalUserItems key uid items ls).
Proof.
  intros Hin. unfold saveLocalUserItems. rewrite getLocalDB_saved.
  apply elem_of_app. by right.
Qed.

Lemma getNotes_other_guest (other : UserPreferences) (s : State) (r : Item) :
  isGuest other = true → user_id other ≠ "" → item_userId r = user_id other →
  r ∈ getLocalDB LOCAL_KEYS.NOTES (localStorage s) →
  ∃ docs, fst (getNotes (setSession other s)) = Fulfilled docs ∧ ItemDoc r ∈ docs.
Proof.
  intros Hg Hne Hr Hin.
  rewrite (getNotes_guest _ (user_id other)); [|by apply active_setSession|by cbn].
  eexists. split; [done|]. apply list_elem_of_fmap. exists r. split; [done|].
  unfold getLocalUserItems. apply list_elem_of_filter. split; [done|].
  unfold setSession. cbn. by rewrite Hg.
Qed.

(** C10. Guest-mode saves do not check ownership.  A record of the saved
    list that carries another user's id is stored verbatim in the shared
    notes table; once that other user is the (guest) session, [getNotes]
    returns it; and a later full-replace [saveNotes] by the first user
    leaves it in the table and in the other user's [getNotes]. *)
Theorem saveNotes_guest_stores_foreign_records
    (s : State) (uid : string) (other : UserPreferences) (L L' : list Item) (r : Item) :
  active s = Some uid → isGuestMode s = true →
  r ∈ L → item_userId r ≠ uid →
  item_userId r = user_id other → isGuest other = true → user_id other ≠ "" →
  let s1 := snd (saveNotes L s) in
  let s2 := snd (saveNotes L' s1) in
  r ∈ getLocalDB LOCAL_KEYS.NOTES (localStorage s1) ∧
  (∃ docs, fst (getNotes (setSession other s1)) = Fulfilled docs ∧ ItemDoc r ∈ docs) ∧
  r ∈ getLocalDB LOCAL_KEYS.NOTES (localStorage s2) ∧
  (∃ docs, fst (getNotes (setSession other s2)) = Fulfilled docs ∧ ItemDoc r ∈ docs).
Proof.
  intros Hu Hg Hin Hne Hr Hog Hoid s1 s2. subst s2 s1.
  rewrite (saveNotes_guest s uid L Hu Hg). cbn [snd].
  rewrite (saveNotes_guest _ uid L') by done. cbn [snd set_local localStorage].
  assert (H1 : r ∈ getLocalDB LOCAL_KEYS.NOTES
                 (saveLocalUserItems LOCAL_KEYS.NOTES uid L (localStorage s)))
    by by apply foreign_record_stored.
  assert (H2 : r ∈ getLocalDB LOCAL_KEYS.NOTES
                 (saveLocalUserItems LOCAL_KEYS.NOTES uid L'
                    (saveLocalUserItems LOCAL_KEYS.NOTES uid L (localStorage s))))
    by by apply foreign_record_kept.
  split; [done|]. split; [by apply getNotes_other_guest|].
  split; [done|]. by apply getNotes_other_guest.
Qed.

(** ** The remote store *)

Lemma remote_item_put_eq (uid c : string) (i : Item) (r : Firestore) :
  remote_item uid c (item_id i) (put_item uid c i r) = Some i.
Proof.
  unfold remote_item, put_item. cbn. rewrite lookup_insert_eq. cbn.
  by rewrite lookup_insert_eq.
Qed.

Lemma remote_item_put_ne (uid c id uid' c' : string) (i : Item) (r : Firestore) :
  (uid, c, id) ≠ (uid', c', item_id i) →
  remote_item uid c id (put_item uid' c' i r) = remote_item uid c id r.
Proof.
  intros Hne. unfold remote_item, put_item. cbn.
  destruct (decide ((uid', c') = (uid, c))) as [Heq|Hp].
  - injection Heq as -> ->. rewrite lookup_insert_eq. cbn.
    rewrite lookup_insert_ne by congruence.
    by destruct (fs_items r !! (uid, c)).
  - by rewrite lookup_insert_ne.
Qed.

Lemma remote_item_put_stats (uid c id uid' : string) (st : UserStats) (r : Firestore) :
  remote_item uid c id (put_stats uid' st r) = remote_item uid c id r.
Proof. done. Qed.

Lemma elem_of_collection_docs (uid c : string) (x : Item) (r : Firestore) :
  c ≠ "data" →
  ItemDoc x ∈ collection_docs uid c r ↔ ∃ id, remote_item uid c id r = Some x.
Proof.
  intros Hc. unfold collection_docs, remote_item.
  destruct (decide (c = "data")) as [|_]; [done|].
  rewrite list_elem_of_fmap. split.
  - intros (y & [= <-] & Hy). apply list_elem_of_fmap in Hy as ([id y'] & -> & Hy).
    apply elem_of_map_to_list in Hy. exists id. cbn.
    destruct (fs_items r !! (uid, c)); cbn in *; [done|]. by rewrite lookup_empty in Hy.
  - intros (id & Hid). exists x. split; [done|].
    apply list_elem_of_fmap. exists (id, x). split; [done|].
    apply elem_of_map_to_list.
    destruct (fs_items r !! (uid, c)); cbn in *; done.
Qed.

Lemma save_list_auth (key c : string) (items : list Item) (s : State) (uid : string) :
  active s = Some uid → isGuestMode s = false → net (calls s) = true →
  save_list key c items s
  = (Fulfilled tt, set_db (apply_batch (SetItem uid c <$> items)) (bump s)).
Proof.
  intros Hu Hg Hn. unfold save_list. rewrite Hu, Hg.
  unfold bind, request, modify. by rewrite Hn.
Qed.

Lemma loadCollection_auth (name c : string) (s : State) (uid : string) :
  active s = Some uid → isGuestMode s = false → subcollection name = Some c →
  net (calls s) = true →
  loadCollection name s = (Fulfilled (collection_docs uid c (db s)), bump s).
Proof.
  intros Hu Hg Hc Hn. unfold loadCollection. rewrite Hu, Hg, Hc.
  unfold bind, request, ret. by rewrite Hn.
Qed.

Lemma loadCollection_throws (name : string) (s : State) (uid : string) :
  active s = Some uid → isGuestMode s = false → subcollection name = None →
  loadCollection name s = (Rejected, s).
Proof. intros Hu Hg Hc. unfold loadCollection. by rewrite Hu, Hg, Hc. Qed.

Lemma collection_keys_unrecognized (name : string) :
  name ∉ recognized.*1 → collection_keys !! name = None.
Proof. apply not_elem_of_list_to_map_1. Qed.

(** A name without a slash is its own single piece. *)
Lemma split_slash_plain (name : string) :
  (∀ a b, name ≠ a +:+ String "/" b) → split_slash name = [name].
Proof.
  induction name as [|c name IH]; intros Hno; [done|]. cbn.
  destruct (Ascii.eqb c "/") eqn:Hc.
  - apply Ascii.eqb_eq in Hc as ->. by destruct (Hno "" name).
  - rewrite IH; [done|]. intros a b ->. by apply (Hno (String c a) b).
Qed.

Lemma has_double_slash_plain (name : string) :
  (∀ a b, name ≠ a +:+ String "/" b) → has_double_slash name = false.
Proof.
  induction name as [|c name IH]; intros Hno; [done|]. cbn.
  destruct (Ascii.eqb c "/") eqn:Hc.
  - apply Ascii.eqb_eq in Hc as ->. by destruct (Hno "" name).
  - cbn. apply IH. intros a b ->. by apply (Hno (String c a) b).
Qed.

Lemma subcollection_plain (name : string) :
  name ≠ "" → (∀ a b, name ≠ a +:+ String "/" b) → subcollection name = Some name.
Proof.
  intros Hne Hno. unfold subcollection, path_segments.
  rewrite has_double_slash_plain, split_slash_plain by done.
  rewrite filter_cons_True by done. cbn. done.
Qed.

(** C8, as the code has it.  [loadCollection] returns the empty list when
    no user is active, in both modes, and in guest mode when the name is
    not one of the five.  In authenticated mode the name is not looked up
    in any table but used as a path below [users/{uid}].  A name that does
    not denote a subcollection there (one with two slashes in a row, or
    with an even number of non-empty pieces between its slashes, such as
    the empty name and [a/b]) makes the call reject before any request is
    sent.  Any other name, when the request goes through, gives the content
    of the subcollection it denotes (the name itself when it is non-empty
    and without a slash), which is empty for a subcollection that holds no
    document and is the stats document for [data]. *)
Theorem loadCollection_soft_results (name : string) (s : State) :
  (active s = None → loadCollection name s = (Fulfilled [], s)) ∧
  (isGuestMode s = true → name ∉ recognized.*1 →
     loadCollection name s = (Fulfilled [], s)) ∧
  (∀ uid, active s = Some uid → isGuestMode s = false →
     (has_double_slash name = true ∨ Nat.even (length (path_segments name)) = true →
        loadCollection name s = (Rejected, s)) ∧
     loadCollection "" s = (Rejected, s) ∧
     loadCollection "a/b" s = (Rejected, s) ∧
     loadCollection "notes//x" s = (Rejected, s) ∧
     (has_double_slash name = false → Nat.odd (length (path_segments name)) = true →
      net (calls s) = true →
      let c := String.concat "/" (path_segments name) in
      (name ≠ "" → (∀ a b, name ≠ a +:+ String "/" b) → c = name) ∧
      loadCollection name s = (Fulfilled (collection_docs uid c (db s)), bump s) ∧
      (c ≠ "data" → (∀ id, remote_item uid c id (db s) = None) →
         fst (loadCollection name s) = Fulfilled []) ∧
      (∀ st, c = "data" → fs_stats (db s) !! uid = Some st →
         fst (loadCollection name s) = Fulfilled [StatsDoc st]))).
Proof.
  split; [|split].
  - intros Hu. unfold loadCollection. by rewrite Hu.
  - intros Hg Hname. unfold loadCollection.
    destruct (active s); [|done]. rewrite Hg.
    by rewrite collection_keys_unrecognized.
  - intros uid Hu Hg. split_and!.
    + intros Hbad. apply (loadCollection_throws name s uid Hu Hg).
      unfold subcollection. destruct Hbad as [->|Heven]; [done|].
      destruct (has_double_slash name); [done|].
      by rewrite <- Nat.negb_even, Heven.
    + by apply (loadCollection_throws "" s uid).
    + by apply (loadCollection_throws "a/b" s uid).
    + by apply (loadCollection_throws "notes//x" s uid).
    + intros Hslash Hodd Hn c.
      assert (Hc : subcollection name = Some c).
      { unfold subcollection. by rewrite Hslash, Hodd. }
      rewrite (loadCollection_auth name c s uid Hu Hg Hc Hn). cbn [fst].
      split_and!.
      * intros Hne Hno. pose proof (subcollection_plain name Hne Hno). congruence.
      * done.
      * intros Hname Hnone. unfold collection_docs.
        destruct (decide (c = "data")); [done|].
        replace (default ∅ (fs_items (db s) !! (uid, c))) with (∅ : gmap string Item).
        { by rewrite map_to_list_empty. }
        symmetry. apply map_empty. intros id. specialize (Hnone id).
        unfold remote_item in Hnone. by destruct (fs_items (db s) !! (uid, c)).
      * intros st Hdata Hst. unfold collection_docs. rewrite Hdata. cbn. by rewrite Hst.
Qed.


(** ** Batches *)

Lemma apply_batch_app (l1 l2 : list BatchWrite) (r : Firestore) :
  apply_batch (l1 ++ l2) r = apply_batch l2 (apply_batch l1 r).
Proof. apply foldl_app. Qed.

Lemma apply_batch_cons (w : BatchWrite) (l : list BatchWrite) (r : Firestore) :
  apply_batch (w :: l) r = apply_batch l (apply_write r w).
Proof. done. Qed.

(** After a batch, a path holds the data of one of the batch's writes to
    it, or what it held before when the batch has no write to it. *)
Lemma remote_item_apply_batch (uid c id : string) (batch : list BatchWrite) (r : Firestore) :
  (∃ i, SetItem uid c i ∈ batch ∧ item_id i = id ∧
        remote_item uid c id (apply_batch batch r) = Some i)
  ∨ ((∀ i, SetItem uid c i ∈ batch → item_id i ≠ id) ∧
     remote_item uid c id (apply_batch batch r) = remote_item uid c id r).
Proof.
  revert r. induction batch as [|w batch IH]; intros r.
  - right. split; [|done]. intros i Hi. by apply not_elem_of_nil in Hi.
  - rewrite apply_batch_cons.
    destruct (IH (apply_write r w)) as [(i & Hi & Hid & Hr)|[Hno Hr]].
    + left. exists i. split; [by apply list_elem_of_further|done].
    + destruct w as [u c' i|u st]; cbn [apply_write] in *.
      * destruct (decide ((uid, c, id) = (u, c', item_id i))) as [Heq|Hne].
        -- injection Heq as <- <- ->. left. exists i.
           split; [by apply list_elem_of_here|]. split; [done|].
           by rewrite Hr, remote_item_put_eq.
        -- right. split; [|by rewrite Hr, remote_item_put_ne].
           intros j Hj. apply elem_of_cons in Hj as [[= -> -> ->]|Hj]; [congruence|].
           by apply Hno.
      * right. split; [|done].
        intros j Hj. apply elem_of_cons in Hj as [?|Hj]; [done|]. by apply Hno.
Qed.

Lemma fs_stats_apply_items (batch : list BatchWrite) (r : Firestore) :
  (∀ uid st, SetStats uid st ∉ batch) → fs_stats (apply_batch batch r) = fs_stats r.
Proof.
  revert r. induction batch as [|w batch IH]; intros r Hno; [done|].
  rewrite apply_batch_cons, IH.
  - destruct w as [u c i|u st]; [done|]. exfalso. eapply Hno. apply list_elem_of_here.
  - intros uid st Hin. eapply Hno. by apply list_elem_of_further.
Qed.

Lemma in_migrate_table (key c g a : string) (ls : LocalStorage) (r : Item) :
  r ∈ getLocalDB key ls → item_userId r = g →
  SetItem a c (restamp a r) ∈ migrate_table key c g a ls.
Proof.
  intros Hin Hg. unfold migrate_table. apply list_elem_of_fmap. exists r.
  split; [done|]. unfold getLocalUserItems. by apply list_elem_of_filter.
Qed.

Lemma migrate_table_inv (key c g a u c' : string) (ls : LocalStorage) (i : Item) :
  SetItem u c' i ∈ migrate_table key c g a ls →
  u = a ∧ c' = c ∧
  ∃ r, r ∈ getLocalDB key ls ∧ item_userId r = g ∧ i = restamp a r.
Proof.
  unfold migrate_table, getLocalUserItems. intros Hin.
  apply list_elem_of_fmap in Hin as (r & [= -> -> ->] & Hr).
  apply list_elem_of_filter in Hr as [Hg Hr]. split; [done|]. split; [done|]. by exists r.
Qed.

Lemma migrate_table_no_stats (key c g a uid : string) (ls : LocalStorage) (st : UserStats) :
  SetStats uid st ∉ migrate_table key c g a ls.
Proof.
  unfold migrate_table. intros Hin. by apply list_elem_of_fmap in Hin as (r & [=] & _).
Qed.

Lemma migration_batch_has (g a c key : string) (ls : LocalStorage) (w : BatchWrite) :
  (c, key) ∈ recognized → w ∈ migrate_table key c g a ls → w ∈ migration_batch g a ls.
Proof.
  intros Hc Hw. unfold migration_batch. rewrite !elem_of_app.
  unfold recognized in Hc. rewrite !elem_of_cons in Hc.
  destruct Hc as [[= -> ->]|[[= -> ->]|[[= -> ->]|[[= -> ->]|[[= -> ->]|Hc]]]]]; eauto 10.
  by apply not_elem_of_nil in Hc.
Qed.

Lemma migration_batch_inv (g a u c : string) (ls : LocalStorage) (i : Item) :
  SetItem u c i ∈ migration_batch g a ls →
  ∃ key, (c, key) ∈ recognized ∧ SetItem u c i ∈ migrate_table key c g a ls.
Proof.
  unfold migration_batch. rewrite !elem_of_app.
  intros [H|[H|[H|[H|[H|H]]]]].
  6: { destruct (snd <$> _); [|by apply not_elem_of_nil in H].
       by apply list_elem_of_singleton in H. }
  all: destruct (migrate_table_inv _ _ _ _ _ _ _ _ H) as (Hu & Hc & Hr); subst c.
  all: eexists; split; [|exact H]; unfold recognized.
  all: repeat first [apply list_elem_of_here | apply list_elem_of_further].
Qed.

Lemma recognized_key_unique (c key key' : string) :
  (c, key) ∈ recognized → (c, key') ∈ recognized → key = key'.
Proof.
  unfold recognized. rewrite !elem_of_cons.
  intros [?|[?|[?|[?|[?|H]]]]] [?|[?|[?|[?|[?|H']]]]]; try congruence.
  all: first [by apply not_elem_of_nil in H | by apply not_elem_of_nil in H'].
Qed.

Lemma migration_batch_stats (g a : string) (ls : LocalStorage) (st : UserStats)
    (r : Firestore) :
  snd <$> list_find (owns_stats g) (ls_stats ls) = Some st →
  SetStats a (restamp_stats a st) ∈ migration_batch g a ls ∧
  fs_stats (apply_batch (migration_batch g a ls) r) !! a = Some (restamp_stats a st).
Proof.
  intros Hst. unfold migration_batch. rewrite Hst. split.
  - rewrite !elem_of_app. do 5 right. apply list_elem_of_here.
  - rewrite !app_assoc, apply_batch_app. cbn. apply lookup_insert_eq.
Qed.

Lemma same_id_same_record (l : list Item) (x y : Item) :
  NoDup (item_id <$> l) → x ∈ l → y ∈ l → item_id x = item_id y → x = y.
Proof.
  induction l as [|z l IH]; intros Hnd Hx Hy Hid; [by apply not_elem_of_nil in Hx|].
  rewrite fmap_cons in Hnd. apply NoDup_cons in Hnd as [Hz Hnd].
  apply elem_of_cons in Hx as [->|Hx]; apply elem_of_cons in Hy as [->|Hy].
  - done.
  - exfalso. apply Hz. rewrite Hid. by apply list_elem_of_fmap_2.
  - exfalso. apply Hz. rewrite <- Hid. by apply list_elem_of_fmap_2.
  - by apply IH.
Qed.

(** C1. [migrateData guestId authId] puts one write in its batch for every
    local record owned by [guestId] in the five tables and for the guest's
    stats record, and commits the batch in one request.  The write of a
    record goes to the path of its id under [authId] and carries the record
    with the user id [authId], its id and its remaining fields as they
    were; the write of the stats goes to the stats path of [authId] and
    carries the guest's stats with the user id [authId], the id
    ["stats_" ++ authId] and the seven other fields as they were.  When the
    commit goes through, the remote store is the old one with the whole
    batch applied: the path of each migrated record holds a re-stamped
    guest record with that id (the record itself when the ids of the
    guest's records in that table are distinct) and the stats path holds
    the re-stamped stats.  When the commit fails, the call rejects and the
    remote store is unchanged.  Local data is untouched either way. *)
Theorem migrateData_all_or_nothing (s : State) (guestId authId : string) :
  let ls := localStorage s in
  let batch := migration_batch guestId authId ls in
  let stamped (r : Item) := mkItem (item_id r) authId (item_rest r) in
  let stamped_stats (st : UserStats) :=
    mkStats ("stats_" +:+ authId) authId (totalTimeStudiedMinutes st) (notesCreated st)
            (quizzesTaken st) (loginStreak st) (lastLoginDate st) (dailyActivity st)
            (highScore st) in
  (∀ c key r, (c, key) ∈ recognized → r ∈ getLocalDB key ls → item_userId r = guestId →
      SetItem authId c (stamped r) ∈ batch) ∧
  (∀ st, snd <$> list_find (owns_stats guestId) (ls_stats ls) = Some st →
      SetStats authId (stamped_stats st) ∈ batch) ∧
  (net (calls s) = true →
     ∃ s1, migrateData guestId authId s = (Fulfilled tt, s1) ∧
       db s1 = apply_batch batch (db s) ∧ localStorage s1 = ls ∧
       (∀ c key r, (c, key) ∈ recognized → r ∈ getLocalDB key ls →
          item_userId r = guestId →
          (∃ r' d, r' ∈ getLocalDB key ls ∧ item_userId r' = guestId ∧
                   item_id r' = item_id r ∧
                   remote_item authId c (item_id r) (db s1) = Some d ∧
                   item_userId d = authId ∧ item_id d = item_id r ∧
                   item_rest d = item_rest r') ∧
          (NoDup (item_id <$> getLocalUserItems key guestId ls) →
           remote_item authId c (item_id r) (db s1) = Some (stamped r))) ∧
       (∀ st, snd <$> list_find (owns_stats guestId) (ls_stats ls) = Some st →
          ∃ st', fs_stats (db s1) !! authId = Some st' ∧
                 stats_userId st' = authId ∧ stats_id st' = "stats_" +:+ authId ∧
                 totalTimeStudiedMinutes st' = totalTimeStudiedMinutes st ∧
                 notesCreated st' = notesCreated st ∧
                 quizzesTaken st' = quizzesTaken st ∧
                 loginStreak st' = loginStreak st ∧
                 lastLoginDate st' = lastLoginDate st ∧
                 dailyActivity st' = dailyActivity st ∧
                 highScore st' = highScore st)) ∧
  (net (calls s) = false →
     ∃ s1, migrateData guestId authId s = (Rejected, s1) ∧
       db s1 = db s ∧ localStorage s1 = ls).
Proof.
  intros ls batch stamped stamped_stats.
  assert (Hwrites : ∀ c key r, (c, key) ∈ recognized → r ∈ getLocalDB key ls →
             item_userId r = guestId → SetItem authId c (stamped r) ∈ batch).
  { intros c key r Hc Hr Hg. eapply migration_batch_has; [done|].
    by apply in_migrate_table. }
  split; [done|]. split.
  { intros st Hst. exact (proj1 (migration_batch_stats _ authId ls st (db s) Hst)). }
  split.
  - intros Hnet. unfold migrateData, bind, request, modify. rewrite Hnet.
    eexists. split; [done|]. cbn [db set_db bump localStorage set_db].
    split; [done|]. split; [done|]. split.
    + intros c key r Hc Hr Hg.
      assert (Hex : ∃ r', r' ∈ getLocalDB key ls ∧ item_userId r' = guestId ∧
                 item_id r' = item_id r ∧
                 remote_item authId c (item_id r) (apply_batch batch (db s))
                 = Some (stamped r')).
      { destruct (remote_item_apply_batch authId c (item_id r) batch (db s))
          as [(i & Hi & Hid & Hri)|[Hno _]].
        - apply migration_batch_inv in Hi as (key' & Hc' & Hi).
          rewrite (recognized_key_unique c key' key Hc' Hc) in Hi.
          apply migrate_table_inv in Hi as (_ & _ & r' & Hr' & Hg' & ->).
          exists r'. by rewrite Hri.
        - exfalso. apply (Hno (stamped r)); [by apply (Hwrites c key)|done]. }
      destruct Hex as (r' & Hr' & Hg' & Hid & Hri). split.
      * exists r', (stamped r'). by split_and!.
      * intros Hnd. fold ls batch. rewrite Hri. do 2 f_equal. symmetry.
        apply (same_id_same_record _ _ _ Hnd); [| |done].
        all: unfold getLocalUserItems; by apply list_elem_of_filter.
    + intros st Hst. exists (stamped_stats st). split; [|by split_and!].
      exact (proj2 (migration_batch_stats _ authId ls st (db s) Hst)).
  - intros Hnet. unfold migrateData, bind, request, modify. rewrite Hnet.
    by eexists.
Qed.

(** ** Runs of operations *)

Lemma bind_fulfilled {A B} (m : Op A) (k : A → Op B) (s s1 : State) (a : A) :
  m s = (Fulfilled a, s1) → bind m k s = k a s1.
Proof. intros H. unfold bind. by rewrite H. Qed.

Lemma steady_ret {A} (a : A) : steady (ret a).
Proof. intros s. cbn. lia. Qed.

Lemma steady_newDate : steady newDate.
Proof. intros s. cbn. lia. Qed.

Lemma steady_request : steady request.
Proof. intros s. cbn. lia. Qed.

Lemma steady_modify_local (f : LocalStorage → LocalStorage) : steady (modify (set_local f)).
Proof. intros s. cbn. lia. Qed.

Lemma steady_modify_db (f : Firestore → Firestore) : steady (modify (set_db f)).
Proof. intros s. cbn. lia. Qed.

Lemma steady_bind {A B} (m : Op A) (k : A → Op B) :
  steady m → (∀ a, steady (k a)) → steady (bind m k).
Proof.
  intros Hm Hk s. unfold bind. specialize (Hm s).
  destruct (m s) as [[a|] s1]; cbn in *; [|done].
  specialize (Hk a s1). lia.
Qed.

Create HintDb steady.
#[local] Hint Resolve steady_ret steady_newDate steady_request steady_modify_local
  steady_modify_db : steady.

Ltac steady_steps :=
  repeat first
    [ apply steady_bind; [|intros ?]
    | solve [eauto with steady] ].

Lemma steady_createEmptyStats (userId : string) : steady (createEmptyStats userId).
Proof. unfold createEmptyStats. steady_steps. Qed.

Lemma steady_getStats : steady getStats.
Proof.
  intros s. unfold getStats. destruct (active s) as [uid|].
  - destruct (isGuestMode s).
    + destruct (list_find _ _) as [[i st]|]; [apply steady_ret|].
      apply steady_bind; [apply steady_createEmptyStats|]. intros ?. steady_steps.
    + apply steady_bind; [apply steady_request|]. intros _ s1.
      destruct (fs_stats (db s1) !! uid); [apply steady_ret|].
      apply steady_bind; [apply steady_createEmptyStats|]. intros ?. steady_steps.
  - apply steady_createEmptyStats.
Qed.

Lemma steady_persistStats (uid : string) (updated : UserStats) :
  steady (persistStats uid updated).
Proof.
  intros s. unfold persistStats. destruct (isGuestMode s).
  - apply steady_modify_local.
  - apply steady_bind; [apply steady_request|]. intros ?. apply steady_modify_db.
Qed.

Lemma steady_updateStats (updater : UserStats → Op UserStats) :
  (∀ st, steady (updater st)) → steady (updateStats updater).
Proof.
  intros Hupd s. unfold updateStats. destruct (active s) as [uid|]; [|apply steady_ret].
  apply steady_bind; [apply steady_getStats|]. intros st.
  apply steady_bind; [apply Hupd|]. intros upd.
  apply steady_bind; [apply steady_persistStats|]. intros ?. apply steady_ret.
Qed.

Lemma steady_login_updater (newStreak : Z) (st : UserStats) :
  steady (let* t := newDate in ret (with_login newStreak t st)).
Proof. steady_steps. Qed.

Lemma steady_checkLoginStreak : steady checkLoginStreak.
Proof.
  intros s. unfold checkLoginStreak. destruct (active s) as [uid|]; [|apply steady_ret].
  apply steady_bind; [apply steady_getStats|]. intros st.
  apply steady_bind; [apply steady_newDate|]. intros now.
  destruct (decide _); [|apply steady_ret].
  apply steady_bind; [apply steady_newDate|]. intros now'.
  apply steady_bind; [|intros ?; apply steady_ret].
  apply steady_updateStats. intros st'. apply steady_login_updater.
Qed.

Lemma steady_logStudyTime (minutes : Z) : steady (logStudyTime minutes).
Proof.
  intros s. unfold logStudyTime. destruct (active s) as [uid|]; [|apply steady_ret].
  apply steady_bind; [apply steady_newDate|]. intros now.
  apply steady_bind; [|intros ?; apply steady_ret].
  apply steady_updateStats. intros st'. apply steady_ret.
Qed.

Lemma requests_ok_narrow (s s2 s' : State) :
  requests_ok s s' → (calls s ≤ calls s2)%nat → requests_ok s2 s'.
Proof. intros H Hle k Hk. apply H. lia. Qed.

Lemma requests_ok_shorten (s s2 s' : State) :
  requests_ok s s' → (calls s2 ≤ calls s')%nat → requests_ok s s2.
Proof. intros H Hle k Hk. apply H. lia. Qed.

(** When the requests of a whole run went through, so did those of its
    first part. *)
Lemma bind_requests_ok {A B} (m : Op A) (k : A → Op B) (s0 s : State) :
  (∀ a, steady (k a)) → requests_ok s0 (snd (bind m k s)) → requests_ok s0 (snd (m s)).
Proof.
  intros Hk H. eapply requests_ok_shorten; [exact H|].
  unfold bind. destruct (m s) as [[a|] s1]; cbn; [|done]. apply Hk.
Qed.

Lemma list_find_replace (uid : string) (l : list UserStats) (i : nat) (x y : UserStats) :
  list_find (owns_stats uid) l = Some (i, x) → owns_stats uid y →
  list_find (owns_stats uid) (<[i := y]> l) = Some (i, y).
Proof.
  intros Hf Hy. apply list_find_Some in Hf as (Hi & Hx & Hleast).
  apply list_find_insert_Some. right. left.
  split; [done|]. split; [done|]. split; [by eapply lookup_lt_Some|]. split; [done|].
  intros j z Hj Hlt. by eapply Hleast.
Qed.

Lemma list_find_append (uid : string) (l : list UserStats) (y : UserStats) :
  list_find (owns_stats uid) l = None → owns_stats uid y →
  list_find (owns_stats uid) (l ++ [y]) = Some (length l, y).
Proof.
  intros Hf Hy. rewrite list_find_app_r by done. cbn.
  destruct (decide (owns_stats uid y)); [|done]. cbn. done.
Qed.

Lemma getStats_run (s : State) (uid : string) :
  active s = Some uid → requests_ok s (snd (getStats s)) →
  ∃ s1, getStats s = (Fulfilled (stats_or_empty uid s), s1) ∧
        active s1 = Some uid ∧ isGuestMode s1 = isGuestMode s ∧
        stored_stats uid s1 = Some (stats_or_empty uid s) ∧
        (isGuestMode s = true → stats_userId (stats_or_empty uid s) = uid) ∧
        ticks s1 = ticks_after_getStats uid s ∧
        (calls s ≤ calls s1)%nat.
Proof.
  intros Hu.
  unfold requests_ok, ticks_after_getStats, stats_or_empty, stored_stats, getStats,
    active in *.
  rewrite Hu.
  destruct s as [ls r cu g tk cl]. cbn in *. destruct g.
  - destruct (list_find (owns_stats uid) (ls_stats ls)) as [[i st]|] eqn:Hf; cbn.
    + intros _. eexists. split; [done|]. cbn. rewrite Hu, Hf. cbn.
      apply list_find_Some in Hf as (_ & Hown & _). done.
    + intros _. eexists. split; [done|]. cbn. rewrite Hu.
      by rewrite (list_find_append uid _ (empty_stats uid (clock tk)) Hf eq_refl).
  - unfold bind, request. cbn.
    destruct (net cl) eqn:Hn1; cbn.
    2: { intros Hok. rewrite (Hok cl) in Hn1 by lia. done. }
    destruct (fs_stats r !! uid) as [st|] eqn:Hst; cbn.
    + intros _. eexists. split; [done|]. cbn. rewrite Hu, Hst. split_and!; try done. lia.
    + destruct (net (S cl)) eqn:Hn2; cbn.
      2: { intros Hok. rewrite (Hok (S cl)) in Hn2 by lia. done. }
      intros _. eexists. split; [done|]. cbn. rewrite Hu, lookup_insert_eq.
      split_and!; try done. lia.
Qed.

Lemma persistStats_run (uid : string) (updated : UserStats) (s : State) :
  (isGuestMode s = true → stats_userId updated = uid) →
  requests_ok s (snd (persistStats uid updated s)) →
  ∃ s1, persistStats uid updated s = (Fulfilled tt, s1) ∧
        currentUserId s1 = currentUserId s ∧ isGuestMode s1 = isGuestMode s ∧
        stored_stats uid s1 = Some updated ∧
        ticks s1 = ticks s ∧ (calls s ≤ calls s1)%nat.
Proof.
  unfold requests_ok, persistStats, stored_stats.
  destruct s as [ls r cu g tk cl]. cbn. destruct g.
  - intros Hown _. specialize (Hown eq_refl). eexists. split; [done|]. cbn.
    split_and!; try done.
    destruct (list_find (owns_stats uid) (ls_stats ls)) as [[i st]|] eqn:Hf.
    + by rewrite (list_find_replace uid _ i st updated Hf Hown).
    + by rewrite (list_find_append uid _ updated Hf Hown).
  - intros _. unfold bind, request. cbn.
    destruct (net cl) eqn:Hn1; cbn.
    2: { intros Hok. rewrite (Hok cl) in Hn1 by lia. done. }
    intros _. eexists. split; [done|]. cbn. rewrite lookup_insert_eq.
    split_and!; try done. lia.
Qed.

Lemma iter_tick_frame (n : nat) (s : State) :
  Nat.iter n tick s
  = mkState (localStorage s) (db s) (currentUserId s) (isGuestMode s)
            (n + ticks s) (calls s).
Proof.
  induction n as [|n IH]; [by destruct s|].
  change (Nat.iter (S n) tick s) with (tick (Nat.iter n tick s)). by rewrite IH.
Qed.

Lemma updateStats_run (updater : UserStats → Op UserStats)
    (F : UserStats → nat → UserStats) (n : nat) (s : State) (uid : string) :
  (∀ st s', updater st s' = (Fulfilled (F st (ticks s')), Nat.iter n tick s')) →
  (∀ st k, stats_userId (F st k) = stats_userId st) →
  active s = Some uid →
  requests_ok s (snd (updateStats updater s)) →
  let updated := F (stats_or_empty uid s) (ticks_after_getStats uid s) in
  ∃ s1, updateStats updater s = (Fulfilled (Some updated), s1) ∧
        active s1 = Some uid ∧ isGuestMode s1 = isGuestMode s ∧
        stored_stats uid s1 = Some updated ∧
        ticks s1 = (n + ticks_after_getStats uid s)%nat ∧
        (calls s ≤ calls s1)%nat.
Proof.
  intros Hupd Hid Hu Hok updated. unfold updateStats in Hok |- *. rewrite Hu in Hok |- *.
  assert (Hsteady : ∀ st, steady (updater st)).
  { intros st s'. rewrite Hupd, iter_tick_frame. cbn. lia. }
  destruct (getStats_run s uid Hu) as (s1 & Hget & Hu1 & Hg1 & Hst1 & Hown & Htk & Hcl).
  { eapply bind_requests_ok; [|exact Hok]. intros st.
    apply steady_bind; [apply Hsteady|]. intros upd.
    apply steady_bind; [apply steady_persistStats|]. intros ?. apply steady_ret. }
  rewrite (bind_fulfilled _ _ _ _ _ Hget) in Hok |- *.
  rewrite (bind_fulfilled _ _ _ _ _ (Hupd _ s1)) in Hok |- *.
  rewrite Htk in *. fold updated in Hok |- *.
  destruct (persistStats_run uid updated (Nat.iter n tick s1))
    as (s2 & Hper & Hu2 & Hg2 & Hst2 & Htk2 & Hcl2).
  { rewrite iter_tick_frame. cbn. intros Hg. subst updated. rewrite Hid.
    apply Hown. congruence. }
  { eapply requests_ok_narrow.
    - eapply bind_requests_ok; [|exact Hok]. intros ?. apply steady_ret.
    - rewrite iter_tick_frame. cbn. done. }
  rewrite (bind_fulfilled _ _ _ _ _ Hper). exists s2. split; [done|].
  rewrite iter_tick_frame in *. cbn in *.
  split_and!; try done; try congruence.
  - unfold active in *. by rewrite Hu2.
  - lia.
Qed.

Ltac steady_auto :=
  repeat first
    [ apply steady_ret | apply steady_newDate | apply steady_request
    | apply steady_getStats | apply steady_persistStats
    | apply steady_bind; [|intros ?]
    | apply steady_updateStats; intros ?
    | match goal with |- steady (if ?c then _ else _) => destruct c end ].

Lemma stored_stats_tick (uid : string) (s : State) :
  stored_stats uid (tick s) = stored_stats uid s.
Proof. done. Qed.

Lemma stats_or_empty_stored (uid : string) (s : State) (st : UserStats) :
  stored_stats uid s = Some st →
  stats_or_empty uid s = st ∧ ticks_after_getStats uid s = ticks s.
Proof. intros H. unfold stats_or_empty, ticks_after_getStats. by rewrite H. Qed.

(** What a call of [checkLoginStreak] does when its requests go through. *)
Lemma checkLoginStreak_run (s : State) (uid : string) :
  active s = Some uid → requests_ok s (snd (checkLoginStreak s)) →
  let st0 := stats_or_empty uid s in
  let k := ticks_after_getStats uid s in
  ∃ s1, checkLoginStreak s = (Fulfilled tt, s1) ∧
        active s1 = Some uid ∧ isGuestMode s1 = isGuestMode s ∧
        (calls s ≤ calls s1)%nat ∧
        if decide (toDateString (lastLoginDate st0) ≠ Some (local_day (clock k)))
        then stored_stats uid s1
             = Some (with_login (next_streak st0 (clock (S k))) (clock (S (S k))) st0) ∧
             ticks s1 = S (S (S k))
        else stored_stats uid s1 = Some st0 ∧ ticks s1 = S k.
Proof.
  intros Hu Hok st0 k. unfold checkLoginStreak in Hok |- *. rewrite Hu in Hok |- *.
  destruct (getStats_run s uid Hu) as (s1 & Hget & Hu1 & Hg1 & Hst1 & _ & Htk & Hcl).
  { eapply bind_requests_ok; [|exact Hok]. intros st. steady_auto. }
  rewrite (bind_fulfilled _ _ _ _ _ Hget) in Hok |- *.
  rewrite (bind_fulfilled newDate _ s1 (tick s1) (clock (ticks s1)) eq_refl) in Hok |- *.
  fold st0 in Hok, Hst1 |- *. fold k in Htk. rewrite Htk in Hok |- *.
  destruct (decide (toDateString (lastLoginDate st0) ≠ Some (local_day (clock k))))
    as [Hdiff|Hsame].
  - rewrite (bind_fulfilled newDate _ (tick s1) (tick (tick s1))
               (clock (S (ticks s1))) eq_refl) in Hok |- *.
    rewrite Htk in Hok |- *.
    destruct (stats_or_empty_stored uid (tick (tick s1)) st0 Hst1) as [Hse Hta].
    destruct (updateStats_run
                (λ st, let* t := newDate in
                       ret (with_login (next_streak st0 (clock (S k))) t st))
                (λ st t, with_login (next_streak st0 (clock (S k))) (clock t) st)
                1 (tick (tick s1)) uid)
      as (s2 & Hupd & Hu2 & Hg2 & Hst2 & Htk2 & Hcl2); [done|done|done| |].
    { eapply bind_requests_ok; [|eapply requests_ok_narrow; [exact Hok|by cbn]].
      intros ?. apply steady_ret. }
    unfold next_streak in Hupd. rewrite (bind_fulfilled _ _ _ _ _ Hupd).
    exists s2. rewrite Hse, Hta in *. cbn in *.
    split_and!; try done; try congruence; try lia.
  - exists (tick s1). cbn. split_and!; try done. congruence.
Qed.

Lemma logStudyTime_run (minutes : Z) (s : State) (uid : string) :
  active s = Some uid → requests_ok s (snd (logStudyTime minutes s)) →
  ∃ s1, logStudyTime minutes s = (Fulfilled tt, s1) ∧
        active s1 = Some uid ∧ isGuestMode s1 = isGuestMode s ∧
        (calls s ≤ calls s1)%nat ∧ (S (ticks s) ≤ ticks s1)%nat ∧
        stored_stats uid s1
        = Some (with_study (iso_date (clock (ticks s))) minutes
                  (stats_or_empty uid (tick s))).
Proof.
  intros Hu Hok. unfold logStudyTime in Hok |- *. rewrite Hu in Hok |- *.
  rewrite (bind_fulfilled newDate _ s (tick s) (clock (ticks s)) eq_refl) in Hok |- *.
  destruct (updateStats_run
              (λ st, ret (with_study (iso_date (clock (ticks s))) minutes st))
              (λ st _, with_study (iso_date (clock (ticks s))) minutes st)
              0 (tick s) uid)
    as (s2 & Hupd & Hu2 & Hg2 & Hst2 & Htk2 & Hcl2); [done|done|done| |].
  { eapply bind_requests_ok; [|eapply requests_ok_narrow; [exact Hok|by cbn]].
    intros ?. apply steady_ret. }
  rewrite (bind_fulfilled _ _ _ _ _ Hupd). exists s2. cbn in *.
  split_and!; try done.
  unfold ticks_after_getStats in Htk2. rewrite stored_stats_tick in Htk2.
  destruct (stored_stats uid s); cbn in *; lia.
Qed.

Lemma readings_on_at (D : Z) (s s' : State) (k : nat) :
  readings_on D s s' → (ticks s ≤ k < ticks s')%nat → local_day (clock k) = D.
Proof. intros H Hk. by apply H. Qed.

(** ** Stats: lazy creation *)

(** C2. For an active user without a stats record, when the requests go
    through, [getStats] returns a record with every counter at zero and
    [lastLoginDate] at the instant its clock reading gave, the record is
    the one the store now holds, and a second [getStats] returns the same
    record and leaves it stored. *)
Theorem getStats_lazy_creation (s : State) (uid : string) :
  active s = Some uid → stored_stats uid s = None →
  let s1 := snd (getStats s) in
  let s2 := snd (getStats s1) in
  requests_ok s s2 →
  ∃ st, fst (getStats s) = Fulfilled st ∧
        totalTimeStudiedMinutes st = 0 ∧ notesCreated st = 0 ∧ quizzesTaken st = 0 ∧
        loginStreak st = 0 ∧ highScore st = 0 ∧
        lastLoginDate st = IsoInstant (clock (ticks s)) ∧
        stored_stats uid s1 = Some st ∧
        fst (getStats s1) = Fulfilled st ∧
        stored_stats uid s2 = Some st.
Proof.
  intros Hu Hnone s1 s2 Hok.
  destruct (getStats_run s uid Hu) as (s1' & Hget & Hu1 & Hg1 & Hst1 & _ & _ & Hcl).
  { eapply requests_ok_shorten; [exact Hok|]. apply steady_getStats. }
  assert (Hs1 : s1 = s1') by (subst s1; by rewrite Hget). subst s1'.
  destruct (getStats_run s1 uid Hu1) as (s2' & Hget2 & Hu2 & Hg2 & Hst2 & _).
  { eapply requests_ok_narrow; [exact Hok|done]. }
  assert (Hs2 : s2 = s2') by (subst s2; by rewrite Hget2). subst s2'.
  assert (Hsame : stats_or_empty uid s1 = stats_or_empty uid s).
  { by destruct (stats_or_empty_stored uid s1 _ Hst1). }
  rewrite Hsame in Hget2, Hst2.
  exists (stats_or_empty uid s). rewrite Hget, Hget2.
  unfold stats_or_empty in *. rewrite Hnone in *. cbn. done.
Qed.

(** ** Stats: login streak *)

Lemma number_add_exact (x y : Z) :
  - MAX_EXACT ≤ x + y ≤ MAX_EXACT → number_add x y = x + y.
Proof.
  intros H. unfold number_add, round_to_double.
  destruct (Z.leb_spec (Z.abs (x + y)) MAX_EXACT) as [_|Hgt]; [done|lia].
Qed.

(** C3, as the code has it.  For an active user whose stats record [st]
    was last touched on an earlier local date [d], a call of
    [checkLoginStreak] whose two date readings fall on the date [D] (and
    whose requests go through) stores the record with the streak
    [loginStreak st + 1] when [d] is the day before [D] and the streak is
    at least [- 2 ^ 53] and below [2 ^ 53], with the streak [1] when [d] is
    two or more days before [D], and in both cases with [lastLoginDate] at
    the instant of the third clock reading, the one made when the record
    is written; the other fields are those of [st].  A streak of [2 ^ 53]
    is left at [2 ^ 53]. *)
Theorem checkLoginStreak_advances (s : State) (uid : string) (st : UserStats) (D d : Z) :
  active s = Some uid → stored_stats uid s = Some st →
  requests_ok s (snd (checkLoginStreak s)) →
  local_day (clock (ticks s)) = D → local_day (clock (S (ticks s))) = D →
  toDateString (lastLoginDate st) = Some d → d < D →
  ∃ s1 st1,
    checkLoginStreak s = (Fulfilled tt, s1) ∧
    stored_stats uid s1 = Some st1 ∧
    (d = D - 1 → - 2 ^ 53 ≤ loginStreak st < 2 ^ 53 →
       loginStreak st1 = loginStreak st + 1) ∧
    (d = D - 1 → loginStreak st = 2 ^ 53 → loginStreak st1 = 2 ^ 53) ∧
    (d ≤ D - 2 → loginStreak st1 = 1) ∧
    lastLoginDate st1 = IsoInstant (clock (S (S (ticks s)))) ∧
    stats_id st1 = stats_id st ∧ stats_userId st1 = stats_userId st ∧
    totalTimeStudiedMinutes st1 = totalTimeStudiedMinutes st ∧
    notesCreated st1 = notesCreated st ∧ quizzesTaken st1 = quizzesTaken st ∧
    dailyActivity st1 = dailyActivity st ∧ highScore st1 = highScore st.
Proof.
  intros Hu Hst Hok Htoday Hyes Hd Hlt.
  destruct (checkLoginStreak_run s uid Hu Hok) as (s1 & Hrun & _ & _ & _ & Hres).
  destruct (stats_or_empty_stored uid s st Hst) as [Hse Hta].
  unfold next_streak in Hres. rewrite Hse, Hta, Hd, Htoday, Hyes in Hres.
  destruct (decide (Some d ≠ Some D)) as [_|Heq]; [|exfalso; apply Heq; intros [=]; lia].
  destruct Hres as [Hres _]. eexists s1, _. split; [done|]. split; [exact Hres|].
  cbn. split_and!; try done.
  - intros -> Hb. destruct (decide (Some (D - 1) = Some (D - 1))); [|done].
    apply number_add_exact. unfold MAX_EXACT. lia.
  - intros -> ->. by destruct (decide (Some (D - 1) = Some (D - 1))).
  - intros Hle. destruct (decide (Some d = Some (D - 1))) as [[=]|]; [lia|done].
Qed.

(** C4. Two calls of [checkLoginStreak] whose clock readings all fall on
    one local date (and whose requests go through) leave, after the second
    call, the record the first call left: the second call does not change
    the streak. *)
Theorem checkLoginStreak_twice_same_date (s : State) (uid : string) (D : Z) :
  active s = Some uid →
  let s1 := snd (checkLoginStreak s) in
  let s2 := snd (checkLoginStreak s1) in
  requests_ok s s2 → readings_on D s s2 →
  fst (checkLoginStreak s) = Fulfilled tt ∧
  fst (checkLoginStreak s1) = Fulfilled tt ∧
  ∃ st1 st2, stored_stats uid s1 = Some st1 ∧ stored_stats uid s2 = Some st2 ∧
             loginStreak st2 = loginStreak st1 ∧ st2 = st1.
Proof.
  intros Hu s1 s2 Hok Hday.
  pose proof (steady_checkLoginStreak s) as [Htk01 Hcl01]. fold s1 in Htk01, Hcl01.
  pose proof (steady_checkLoginStreak s1) as [Htk12 Hcl12]. fold s2 in Htk12, Hcl12.
  destruct (checkLoginStreak_run s uid Hu) as (s1' & Hrun1 & Hu1 & Hg1 & _ & Hres1).
  { eapply requests_ok_shorten; [exact Hok|done]. }
  assert (Hs1 : s1 = s1') by (subst s1; by rewrite Hrun1). subst s1'.
  destruct (checkLoginStreak_run s1 uid Hu1) as (s2' & Hrun2 & Hu2 & Hg2 & _ & Hres2).
  { eapply requests_ok_narrow; [exact Hok|done]. }
  assert (Hs2 : s2 = s2') by (subst s2; by rewrite Hrun2). subst s2'.
  rewrite Hrun1, Hrun2. split; [done|]. split; [done|].
  assert (Hk : (ticks s ≤ ticks_after_getStats uid s)%nat).
  { unfold ticks_after_getStats. destruct (stored_stats uid s); lia. }
  (* the record after the first call was last touched on [D] *)
  assert (H1 : ∃ st1, stored_stats uid s1 = Some st1 ∧
                      toDateString (lastLoginDate st1) = Some D ∧
                      (ticks s < ticks s1)%nat).
  { destruct (decide _) as [Hdiff|Hsame] in Hres1; destruct Hres1 as [Hst1 Htk1].
    - eexists. split; [exact Hst1|]. cbn. split; [|lia]. f_equal.
      apply (readings_on_at D s s2 _ Hday). lia.
    - eexists. split; [exact Hst1|].
      apply dec_stable in Hsame. rewrite Hsame. split; [|lia]. f_equal.
      apply (readings_on_at D s s2 _ Hday). lia. }
  destruct H1 as (st1 & Hst1 & Hlast & Hlt).
  destruct (stats_or_empty_stored uid s1 st1 Hst1) as [Hse Hta].
  rewrite Hse, Hta, Hlast in Hres2.
  destruct (decide _) as [Hdiff|Hsame] in Hres2; destruct Hres2 as [Hst2 Htk2].
  - exfalso. apply Hdiff. f_equal. symmetry.
    apply (readings_on_at D s s2 _ Hday). lia.
  - by exists st1, st1.
Qed.

(** C9. On the day a stats record is lazily created, [checkLoginStreak]
    leaves the streak at zero: whenever the stored record is the one
    [getStats] made at an instant of the local date [D] and the call reads
    today's date as [D], the record stays as it is; in particular so when
    the call follows the creating [getStats] and all clock readings fall
    on [D]. *)
Theorem checkLoginStreak_first_day (s : State) (uid : string) (D : Z) :
  active s = Some uid →
  (∀ t0, stored_stats uid s = Some (empty_stats uid t0) → local_day t0 = D →
         local_day (clock (ticks s)) = D →
         requests_ok s (snd (checkLoginStreak s)) →
         fst (checkLoginStreak s) = Fulfilled tt ∧
         loginStreak <$> stored_stats uid (snd (checkLoginStreak s)) = Some 0) ∧
  (stored_stats uid s = None →
   let s1 := snd (getStats s) in
   let s2 := snd (checkLoginStreak s1) in
   requests_ok s s2 → readings_on D s s2 →
   ∃ st, fst (getStats s) = Fulfilled st ∧
         loginStreak st = 0 ∧ lastLoginDate st = IsoInstant (clock (ticks s)) ∧
         fst (checkLoginStreak s1) = Fulfilled tt ∧
         stored_stats uid s2 = Some st).
Proof.
  intros Hu.
  assert (Hgen : ∀ s', active s' = Some uid →
            ∀ t0, stored_stats uid s' = Some (empty_stats uid t0) → local_day t0 = D →
            local_day (clock (ticks s')) = D →
            requests_ok s' (snd (checkLoginStreak s')) →
            fst (checkLoginStreak s') = Fulfilled tt ∧
            stored_stats uid (snd (checkLoginStreak s')) = Some (empty_stats uid t0)).
  { intros s' Hu' t0 Hst Ht0 Htoday Hok.
    destruct (checkLoginStreak_run s' uid Hu' Hok) as (s1 & Hrun & _ & _ & _ & Hres).
    destruct (stats_or_empty_stored uid s' _ Hst) as [Hse Hta].
    rewrite Hse, Hta, Htoday in Hres. cbn in Hres. rewrite Ht0 in Hres.
    destruct (decide (Some D ≠ Some D)) as [|_]; [done|].
    rewrite Hrun. by destruct Hres. }
  split.
  - intros t0 Hst Ht0 Htoday Hok.
    destruct (Hgen s Hu t0 Hst Ht0 Htoday Hok) as [Hf Hs]. by rewrite Hs.
  - intros Hnone s1 s2 Hok Hday.
    pose proof (steady_getStats s) as [Htk01 Hcl01]. fold s1 in Htk01, Hcl01.
    pose proof (steady_checkLoginStreak s1) as [Htk12 Hcl12]. fold s2 in Htk12, Hcl12.
    destruct (getStats_run s uid Hu) as (s1' & Hget & Hu1 & Hg1 & Hst1 & _ & Htk & _).
    { eapply requests_ok_shorten; [exact Hok|done]. }
    assert (Hs1 : s1 = s1') by (subst s1; by rewrite Hget). subst s1'.
    unfold stats_or_empty, ticks_after_getStats in Hget, Hst1, Htk.
    rewrite Hnone in Hget, Hst1, Htk. cbn in Hget, Hst1.
    assert (Hlater : (ticks s1 < ticks s2)%nat).
    { pose proof (requests_ok_narrow s s1 s2 Hok Hcl01) as Hok1.
      destruct (checkLoginStreak_run s1 uid Hu1 Hok1) as (s2' & Hrun & _ & _ & _ & Hres).
      assert (Hs2 : s2 = s2') by (subst s2; by rewrite Hrun). subst s2'.
      destruct (stats_or_empty_stored uid s1 _ Hst1) as [_ Hta]. rewrite Hta in Hres.
      destruct (decide _) in Hres; lia. }
    destruct (Hgen s1 Hu1 (clock (ticks s)) Hst1) as [Hf Hs].
    + apply (readings_on_at D s s2 _ Hday). lia.
    + apply (readings_on_at D s s2 _ Hday). lia.
    + eapply requests_ok_narrow; [exact Hok|done].
    + exists (empty_stats uid (clock (ticks s))). by rewrite Hget.
Qed.

(** ** Stats: study time *)

Lemma iso_date_same_day (t t' : Z) : utc_day t = utc_day t' → iso_date t = iso_date t'.
Proof. intros H. unfold iso_date. by rewrite H. Qed.

(** [civil_from_days] gives a month, a day of the month and the year of
    which the day number is the one it was given. *)
Lemma civil_from_days_spec (days : Z) :
  ∃ y m d, civil_from_days days = (y, m, d) ∧
           1 ≤ m ≤ 12 ∧ 1 ≤ d ≤ 31 ∧ days_from_civil y m d = days ∧
           (- 100000001 ≤ days ≤ 100000001 → - 999999 ≤ y ≤ 999999).
Proof.
  clear local_day clock net.
  unfold civil_from_days, days_from_civil. cbv zeta.
  set (z := days + 719468).
  set (era := z / 146097).
  set (doe := z - era * 146097).
  assert (Hdoe : 0 <= doe <= 146096) by (subst doe era; Z.to_euclidean_division_equations; lia).
  assert (Hz : z = era * 146097 + doe) by (subst doe; lia).
  clearbody doe era.
  set (yoe := (doe - doe / 1460 + doe / 36524 - doe / 146096) / 365).
  assert (Hyoe : 0 <= yoe <= 399) by (subst yoe; Z.to_euclidean_division_equations; lia).
  set (doy := doe - (365 * yoe + yoe / 4 - yoe / 100)).
  assert (Hdoy : 0 <= doy <= 365) by (subst doy yoe; Z.to_euclidean_division_equations; lia).
  assert (Hdoe' : doe = 365 * yoe + yoe / 4 - yoe / 100 + doy) by (subst doy; lia).
  clearbody doy yoe.
  set (mp := (5 * doy + 2) / 153).
  assert (Hmp : 0 <= mp <= 11) by (subst mp; Z.to_euclidean_division_equations; lia).
  set (d := doy - (153 * mp + 2) / 5 + 1).
  assert (Hd : 1 <= d <= 31) by (subst d mp; Z.to_euclidean_division_equations; lia).
  assert (Hdoy' : doy = (153 * mp + 2) / 5 + d - 1) by (subst d; lia).
  clearbody d mp.
  do 3 eexists. split; [reflexivity|].
  destruct (Z.ltb_spec mp 10); 
    repeat match goal with |- context [if ?b then _ else _] => 
      let H := fresh in destruct b eqn:H; 
      first [apply Z.leb_le in H | apply Z.leb_gt in H | apply Z.ltb_lt in H | apply Z.ltb_ge in H] end;
    try lia.
  all: split; [lia|]; split; [lia|].
  all: split; [Z.to_euclidean_division_equations; lia | intros Hr; subst z; lia].
Qed.

Lemma append_cons (c : ascii) (a b : string) : String c a +:+ b = String c (a +:+ b).
Proof. reflexivity. Qed.

Lemma append_nil (b : string) : "" +:+ b = b.
Proof. reflexivity. Qed.

Lemma string_cons_inj (c c' : ascii) (a b : string) :
  String c a = String c' b → c = c' ∧ a = b.
Proof. by intros [= -> ->]. Qed.

Lemma length_append (a b : string) :
  String.length (a +:+ b) = (String.length a + String.length b)%nat.
Proof.
  induction a as [|c a IH]; [done|]. rewrite append_cons. cbn. by rewrite IH.
Qed.

Lemma append_inj_suffix (x y s s' : string) :
  String.length s = String.length s' → x +:+ s = y +:+ s' → x = y ∧ s = s'.
Proof.
  revert y. induction x as [|c x IH]; intros [|c' y] Hlen Heq;
    rewrite ?append_cons, ?append_nil in Heq.
  - done.
  - apply (f_equal String.length) in Heq. cbn in Heq. rewrite length_append in Heq. lia.
  - apply (f_equal String.length) in Heq. cbn in Heq. rewrite length_append in Heq. lia.
  - injection Heq as -> Heq. destruct (IH y Hlen Heq) as [-> ->]. done.
Qed.

Lemma digit_char_inj (a b : Z) :
  0 ≤ a < 10 → 0 ≤ b < 10 →
  ascii_of_nat (48 + Z.to_nat a) = ascii_of_nat (48 + Z.to_nat b) → a = b.
Proof.
  intros Ha Hb Heq. apply (f_equal nat_of_ascii) in Heq.
  rewrite !nat_ascii_embedding in Heq by lia. lia.
Qed.

Lemma digits_length (w : nat) (n : Z) : String.length (digits w n) = w.
Proof.
  revert n. induction w as [|w IH]; intros n; cbn; [done|].
  rewrite length_append, IH. cbn. lia.
Qed.

Lemma digits_inj (w : nat) (a b : Z) :
  0 ≤ a < 10 ^ Z.of_nat w → 0 ≤ b < 10 ^ Z.of_nat w → digits w a = digits w b → a = b.
Proof.
  clear local_day clock net.
  revert a b. induction w as [|w IH]; intros a b Ha Hb Heq.
  - cbn in Ha, Hb. lia.
  - rewrite Nat2Z.inj_succ, Z.pow_succ_r in Ha, Hb by lia. cbn in Heq.
    apply append_inj_suffix in Heq as [Hhi Hlo]; [|done].
    injection Hlo as Hlo.
    apply digit_char_inj in Hlo; [|apply Z.mod_pos_bound; lia..].
    apply IH in Hhi; [|Z.to_euclidean_division_equations; lia..].
    Z.to_euclidean_division_equations; lia.
Qed.

Lemma iso_year_inj (y y' : Z) :
  - 999999 ≤ y ≤ 999999 → - 999999 ≤ y' ≤ 999999 → iso_year y = iso_year y' → y = y'.
Proof.
  intros Hy Hy'. unfold iso_year.
  destruct (Z.leb_spec 0 y), (Z.leb_spec y 9999), (Z.leb_spec 0 y'), (Z.leb_spec y' 9999);
    cbn [andb];
    repeat match goal with
           | |- context [?a <? ?b] => destruct (Z.ltb_spec a b); try lia
           end.
  all: rewrite ?append_cons, ?append_nil; intros Heq.
  all: lazymatch type of Heq with
       | digits 4 _ = digits 4 _ => apply (digits_inj 4) in Heq; [done|cbn; lia..]
       | String ?c (digits 6 _) = String ?c (digits 6 _) =>
         apply string_cons_inj in Heq as [_ Heq];
         apply (digits_inj 6) in Heq; [lia|cbn; lia..]
       | String "-" _ = String "+" _ => discriminate Heq
       | String "+" _ = String "-" _ => discriminate Heq
       | _ => apply (f_equal String.length) in Heq; cbn [String.length] in Heq;
              rewrite !digits_length in Heq; lia
       end.
Qed.

Lemma iso_date_inj (t t' : Z) :
  date_range t → date_range t' → iso_date t = iso_date t' → utc_day t = utc_day t'.
Proof.
  clear local_day clock net.
  unfold date_range. intros Ht Ht' Heq. unfold iso_date in Heq.
  destruct (civil_from_days_spec (utc_day t)) as (y & m & d & Hc & Hm & Hd & Hback & Hy).
  destruct (civil_from_days_spec (utc_day t')) as (y' & m' & d' & Hc' & Hm' & Hd' & Hback' & Hy').
  rewrite Hc, Hc' in Heq.
  assert (Hr : - 100000001 ≤ utc_day t ≤ 100000001)
    by (unfold utc_day, MS_PER_DAY; Z.to_euclidean_division_equations; lia).
  assert (Hr' : - 100000001 ≤ utc_day t' ≤ 100000001)
    by (unfold utc_day, MS_PER_DAY; Z.to_euclidean_division_equations; lia).
  apply append_inj_suffix in Heq as [Hyear Hrest].
  2: { rewrite ?append_cons, ?append_nil. cbn [String.length].
       by rewrite !length_append, !digits_length. }
  rewrite ?append_cons, ?append_nil in Hrest. apply string_cons_inj in Hrest as [_ Hrest].
  apply append_inj_suffix in Hrest as [Hmonth Hday].
  2: { rewrite ?append_cons, ?append_nil. cbn [String.length]. by rewrite !digits_length. }
  rewrite ?append_cons, ?append_nil in Hday. apply string_cons_inj in Hday as [_ Hday].
  apply iso_year_inj in Hyear; [|by auto..].
  apply (digits_inj 2) in Hmonth; [|cbn; lia..].
  apply (digits_inj 2) in Hday; [|cbn; lia..].
  congruence.
Qed.

(** The key of an instant is the year, the month and the day of its UTC
    date, zero-padded. *)
Lemma iso_date_is_utc_date (t : Z) :
  ∃ y m d, iso_date t = iso_year y +:+ "-" +:+ digits 2 m +:+ "-" +:+ digits 2 d ∧
           1 ≤ m ≤ 12 ∧ 1 ≤ d ≤ 31 ∧ days_from_civil y m d = utc_day t.
Proof.
  destruct (civil_from_days_spec (utc_day t)) as (y & m & d & Hc & Hm & Hd & Hback & _).
  exists y, m, d. unfold iso_date. by rewrite Hc.
Qed.

Lemma with_study_twice (key : string) (m1 m2 : Z) (st : UserStats) :
  let entry := default 0 (dailyActivity st !! key) in
  let st2 := with_study key m2 (with_study key m1 st) in
  dailyActivity st2 = <[key := number_add (number_add entry m1) m2]> (dailyActivity st) ∧
  totalTimeStudiedMinutes st2
  = number_add (number_add (totalTimeStudiedMinutes st) m1) m2 ∧
  stats_id st2 = stats_id st ∧ stats_userId st2 = stats_userId st ∧
  notesCreated st2 = notesCreated st ∧ quizzesTaken st2 = quizzesTaken st ∧
  loginStreak st2 = loginStreak st ∧ lastLoginDate st2 = lastLoginDate st ∧
  highScore st2 = highScore st.
Proof.
  cbn. rewrite !lookup_insert_eq. cbn. by rewrite insert_insert_eq.
Qed.

Lemma number_add_30_15 (x : Z) :
  - 2 ^ 53 ≤ x → x + 45 ≤ 2 ^ 53 → number_add (number_add x 30) 15 = x + 45.
Proof.
  intros Hlo Hhi. rewrite (number_add_exact x 30) by (unfold MAX_EXACT; lia).
  rewrite number_add_exact by (unfold MAX_EXACT; lia). lia.
Qed.

(** C5, as the code has it.  [logStudyTime 30] followed by
    [logStudyTime 15], both reading the clock on the same UTC calendar day
    and with their requests going through, leave the stored record with the
    entry of that day's key at its prior value plus 45 and with
    [totalTimeStudiedMinutes] greater by 45, provided the prior value is
    at least [- 2 ^ 53] and at most [2 ^ 53 - 45] (both are at 45 when the
    record was absent).  The key is the zero-padded year, month and day of
    the UTC date of the reading, and no instant of another UTC day has the
    same key.  The entries of the other keys and the other fields of the
    record are not changed. *)
Theorem logStudyTime_30_then_15 (s : State) (uid : string) :
  active s = Some uid →
  let s1 := snd (logStudyTime 30 s) in
  let s2 := snd (logStudyTime 15 s1) in
  let t := clock (ticks s) in
  let todayKey := iso_date t in
  requests_ok s s2 →
  utc_day (clock (ticks s1)) = utc_day t →
  fst (logStudyTime 30 s) = Fulfilled tt ∧
  fst (logStudyTime 15 s1) = Fulfilled tt ∧
  (∃ y m d, todayKey = iso_year y +:+ "-" +:+ digits 2 m +:+ "-" +:+ digits 2 d ∧
            1 ≤ m ≤ 12 ∧ 1 ≤ d ≤ 31 ∧ days_from_civil y m d = utc_day t) ∧
  (∀ t', date_range t → date_range t' → iso_date t' = todayKey → utc_day t' = utc_day t) ∧
  ∃ st2, stored_stats uid s2 = Some st2 ∧
    (∀ st, stored_stats uid s = Some st →
       let entry := default 0 (dailyActivity st !! todayKey) in
       let total := totalTimeStudiedMinutes st in
       (- 2 ^ 53 ≤ entry → entry + 45 ≤ 2 ^ 53 →
          dailyActivity st2 !! todayKey = Some (entry + 45)) ∧
       (- 2 ^ 53 ≤ total → total + 45 ≤ 2 ^ 53 →
          totalTimeStudiedMinutes st2 = total + 45) ∧
       (∀ key, key ≠ todayKey → dailyActivity st2 !! key = dailyActivity st !! key) ∧
       stats_id st2 = stats_id st ∧ stats_userId st2 = stats_userId st ∧
       notesCreated st2 = notesCreated st ∧ quizzesTaken st2 = quizzesTaken st ∧
       loginStreak st2 = loginStreak st ∧ lastLoginDate st2 = lastLoginDate st ∧
       highScore st2 = highScore st) ∧
    (stored_stats uid s = None →
       dailyActivity st2 = {[ todayKey := 45 ]} ∧ totalTimeStudiedMinutes st2 = 45).
Proof.
  intros Hu s1 s2 t todayKey Hok Hday.
  pose proof (steady_logStudyTime 30 s) as [_ Hcl01]. fold s1 in Hcl01.
  pose proof (steady_logStudyTime 15 s1) as [_ Hcl12]. fold s2 in Hcl12.
  destruct (logStudyTime_run 30 s uid Hu) as (s1' & Hrun1 & Hu1 & _ & _ & _ & Hst1).
  { eapply requests_ok_shorten; [exact Hok|done]. }
  assert (Hs1 : s1 = s1') by (subst s1; by rewrite Hrun1). subst s1'.
  destruct (logStudyTime_run 15 s1 uid Hu1) as (s2' & Hrun2 & _ & _ & _ & _ & Hst2).
  { eapply requests_ok_narrow; [exact Hok|done]. }
  assert (Hs2 : s2 = s2') by (subst s2; by rewrite Hrun2). subst s2'.
  rewrite Hrun1, Hrun2. split; [done|]. split; [done|].
  split; [apply iso_date_is_utc_date|].
  split. { intros t' Ht Ht' Heq. by apply iso_date_inj. }
  destruct (stats_or_empty_stored uid (tick s1) _ Hst1) as [Hse _].
  rewrite Hse, (iso_date_same_day _ _ Hday) in Hst2. fold t todayKey in Hst2.
  eexists. split; [exact Hst2|].
  pose proof (with_study_twice todayKey 30 15 (stats_or_empty uid (tick s)))
    as (Hd & Ht & Hid & Hui & Hnc & Hqt & Hls & Hll & Hhs).
  cbn zeta in Hd, Ht, Hid, Hui, Hnc, Hqt, Hls, Hll, Hhs.
  rewrite Hd, Ht, Hid, Hui, Hnc, Hqt, Hls, Hll, Hhs.
  unfold stats_or_empty. rewrite stored_stats_tick.
  split.
  - intros st Hst. rewrite Hst. cbn [default]. split_and!; try done.
    + intros Hlo Hhi. rewrite lookup_insert_eq. f_equal. by apply number_add_30_15.
    + intros Hlo Hhi. by apply number_add_30_15.
    + intros key Hne. by rewrite lookup_insert_ne.
  - intros Hnone. rewrite Hnone. cbn. rewrite lookup_empty. cbn.
    split; [|done]. by rewrite insert_empty.
Qed.

(** ** Sessions and profiles *)

Lemma assign_user_stored (user : UserPreferences) (users : gmap string UserPreferences) :
  user_id user ≠ "__proto__" → assign_user user users !! user_id user = Some user.
Proof.
  intros Hne. unfold assign_user.
  destruct (decide _) as [[He _]|_]; [done|]. apply lookup_insert_eq.
Qed.

Lemma assign_user_others (user : UserPreferences) (users : gmap string UserPreferences)
    (id : string) :
  id ≠ user_id user → assign_user user users !! id = users !! id.
Proof.
  intros Hne. unfold assign_user. destruct (decide _); [done|]. by apply lookup_insert_ne.
Qed.

Lemma assign_user_proto (user : UserPreferences) (users : gmap string UserPreferences) :
  user_id user = "__proto__" → users !! "__proto__" = None → assign_user user users = users.
Proof.
  intros He Hnone. unfold assign_user. destruct (decide _) as [_|Hn]; [done|].
  by destruct Hn.
Qed.

(** X1. A guest session is found again: after [setSession] of a guest whose
    id is neither empty nor [__proto__], [getGuestSession] returns that
    guest's profile; after [setSession] of a signed-in user, or of a guest
    whose id is empty, it returns nothing.  For a guest with the id
    [__proto__] (the directory having no entry of that name) nothing is
    put into the directory and [getGuestSession] returns the member the
    directory inherits under that name, not the profile.  In no case does
    [setSession] drop a profile from the local directory. *)
Theorem guest_session_round_trip (user : UserPreferences) (s : State) :
  (isGuest user = true → user_id user ≠ "" → user_id user ≠ "__proto__" →
     getGuestSession (setSession user s) = Some (Profile user)) ∧
  (isGuest user = true → user_id user = "__proto__" →
     ls_users (localStorage s) !! "__proto__" = None →
     getGuestSession (setSession user s) = Some (Inherited "__proto__") ∧
     ls_users (localStorage (setSession user s)) = ls_users (localStorage s)) ∧
  (isGuest user = true → user_id user = "" →
     getGuestSession (setSession user s) = None) ∧
  (isGuest user = false → getGuestSession (setSession user s) = None) ∧
  (∀ id p, id ≠ user_id user → ls_users (localStorage s) !! id = Some p →
     ls_users (localStorage (setSession user s)) !! id = Some p).
Proof.
  unfold getGuestSession, setSession. split_and!.
  - intros Hg Hne Hnp. rewrite Hg. cbn. destruct (decide (user_id user = "")); [done|].
    unfold read_user. by rewrite assign_user_stored.
  - intros Hg He Hnone. rewrite Hg. cbn. rewrite He.
    rewrite (assign_user_proto user _ He Hnone).
    split; [|done]. unfold read_user. rewrite Hnone.
    destruct (decide ("__proto__" = "")); [done|].
    destruct (decide _) as [_|Hn]; [done|]. destruct Hn. apply list_elem_of_here.
  - intros Hg He. rewrite Hg. cbn. by destruct (decide (user_id user = "")).
  - intros Hg. by rewrite Hg.
  - intros id p Hne Hp. destruct (isGuest user); cbn; [|done].
    by rewrite assign_user_others.
Qed.

Lemma guest_id_not_empty (t : Z) (suffix : string) :
  "guest_" +:+ pretty t +:+ "_" +:+ suffix ≠ "".
Proof. cbn. discriminate. Qed.

Lemma guest_id_not_proto (t : Z) (suffix : string) :
  "guest_" +:+ pretty t +:+ "_" +:+ suffix ≠ "__proto__".
Proof. cbn. discriminate. Qed.

(** X2. The guest entry of the landing page ([createGuestUser], then
    [saveUserProfile], then [setSession]) always ends in an active guest
    session that [getGuestSession] finds again; it sends no request and
    leaves the remote store, the profile documents and the local tables as
    they were. *)
Theorem guest_access_establishes_session (suffix : string) (w : World) :
  ∃ guest s1 w2,
    createGuestUser suffix (service w) = (Fulfilled guest, s1) ∧
    saveUserProfile guest (mkWorld s1 (user_docs w)) = (Fulfilled tt, w2) ∧
    let s3 := setSession guest (service w2) in
    isGuest guest = true ∧
    active s3 = Some (user_id guest) ∧ isGuestMode s3 = true ∧
    getGuestSession s3 = Some (Profile guest) ∧
    calls s3 = calls (service w) ∧ db s3 = db (service w) ∧
    user_docs w2 = user_docs w ∧
    ls_tables (localStorage s3) = ls_tables (localStorage (service w)) ∧
    ls_stats (localStorage s3) = ls_stats (localStorage (service w)).
Proof.
  do 3 eexists. split; [reflexivity|]. split; [reflexivity|].
  cbn. split_and!; try done.
  destruct (decide _) as [He|]; [by apply guest_id_not_empty in He|].
  unfold read_user, assign_user.
  destruct (decide _) as [[He _]|_]; [by apply guest_id_not_proto in He|].
  destruct (decide _) as [[He _]|_]; [by apply guest_id_not_proto in He|].
  by rewrite insert_insert_eq, lookup_insert_eq.
Qed.

(** X3. [getUserProfile] never rejects: when the fetch goes through it returns
    the stored profile, or nothing when there is none; when the fetch fails
    it returns nothing as well.  It changes no document. *)
Theorem getUserProfile_never_rejects (userId : string) (w : World) :
  ∃ found w1,
    getUserProfile userId w = (Fulfilled found, w1) ∧
    user_docs w1 = user_docs w ∧ service w1 = bump (service w) ∧
    (net (calls (service w)) = true → found = user_docs w !! userId) ∧
    (net (calls (service w)) = false → found = None).
Proof.
  unfold getUserProfile, catch_with, wbind, wlift, request, wret. cbn.
  destruct (net (calls (service w))); cbn; do 2 eexists; split_and!; done.
Qed.

(** X4. [saveUserProfile] and the two reads.  A signed-in user's profile saved
    with a request that goes through is what [getUserProfile] then returns,
    and the device's local storage is not touched; when the request fails
    the call rejects and no document changes.  A guest's profile goes to
    the local directory without any request (under its id, unless the id is
    [__proto__], for which a directory without an entry of that name stays
    as it is), and does not by itself become the remembered session. *)
Theorem saveUserProfile_round_trip (user : UserPreferences) (w : World) :
  (isGuest user = false → net (calls (service w)) = true →
     net (S (calls (service w))) = true →
     ∃ w1 w2, saveUserProfile user w = (Fulfilled tt, w1) ∧
              getUserProfile (user_id user) w1 = (Fulfilled (Some user), w2) ∧
              localStorage (service w1) = localStorage (service w)) ∧
  (isGuest user = false → net (calls (service w)) = false →
     ∃ w1, saveUserProfile user w = (Rejected, w1) ∧ user_docs w1 = user_docs w ∧
           localStorage (service w1) = localStorage (service w)) ∧
  (isGuest user = true →
     ∃ w1, saveUserProfile user w = (Fulfilled tt, w1) ∧
           (user_id user ≠ "__proto__" →
              ls_users (localStorage (service w1)) !! user_id user = Some user) ∧
           (user_id user = "__proto__" →
              ls_users (localStorage (service w)) !! "__proto__" = None →
              ls_users (localStorage (service w1)) = ls_users (localStorage (service w))) ∧
           (∀ id, id ≠ user_id user →
              ls_users (localStorage (service w1)) !! id
              = ls_users (localStorage (service w)) !! id) ∧
           ls_session (localStorage (service w1)) = ls_session (localStorage (service w)) ∧
           ls_tables (localStorage (service w1)) = ls_tables (localStorage (service w)) ∧
           ls_stats (localStorage (service w1)) = ls_stats (localStorage (service w)) ∧
           user_docs w1 = user_docs w ∧ calls (service w1) = calls (service w)).
Proof.
  unfold saveUserProfile, getUserProfile, catch_with, wbind, wlift, request, wret.
  split_and!.
  - intros Hg Hn1 Hn2. rewrite Hg. cbn. rewrite Hn1.
    do 2 eexists. split; [reflexivity|]. cbn. rewrite Hn2. cbn.
    by rewrite lookup_insert_eq.
  - intros Hg Hn1. rewrite Hg. cbn. rewrite Hn1. by eexists.
  - intros Hg. rewrite Hg. cbn. eexists. split; [done|]. cbn. split_and!; try done.
    + apply assign_user_stored.
    + apply assign_user_proto.
    + intros id Hne. by apply assign_user_others.
Qed.

(** ** The auth listener *)

(** X5. Sign-in when the profile fetch goes through.  A stored profile becomes
    the session and nothing is written.  Without a stored profile a fresh
    one (named after the email, with the default preferences) is saved and
    becomes the session.  When that save fails the listener rejects and the
    session, the profile documents and the local storage stay as they
    were. *)
Theorem authListener_signed_in (uid : string) (email : option string) (w : World) :
  net (calls (service w)) = true →
  (∀ p, user_docs w !! uid = Some p →
     authListener (Some (uid, email)) w
     = (Fulfilled (Some (Profile p)),
        mkWorld (setSession p (bump (service w))) (user_docs w))) ∧
  (user_docs w !! uid = None → net (S (calls (service w))) = true →
     authListener (Some (uid, email)) w
     = (Fulfilled (Some (Profile (fresh_profile uid email))),
        mkWorld (setSession (fresh_profile uid email) (bump (bump (service w))))
                (<[uid := fresh_profile uid email]> (user_docs w)))) ∧
  (user_docs w !! uid = None → net (S (calls (service w))) = false →
     ∃ w1, authListener (Some (uid, email)) w = (Rejected, w1) ∧
           currentUserId (service w1) = currentUserId (service w) ∧
           isGuestMode (service w1) = isGuestMode (service w) ∧
           localStorage (service w1) = localStorage (service w) ∧
           user_docs w1 = user_docs w).
Proof.
  intros Hn1.
  unfold authListener, getUserProfile, saveUserProfile, catch_with, wbind, wlift,
    request, wret, modify. cbn. rewrite Hn1. cbn.
  split_and!.
  - intros p Hp. by rewrite Hp.
  - intros Hnone Hn2. rewrite Hnone. cbn. by rewrite Hn2.
  - intros Hnone Hn2. rewrite Hnone. cbn. rewrite Hn2. by eexists.
Qed.

(** X6. Sign-in when the profile fetch fails: the failure reads as "no profile",
    so when the following save goes through, the profile stored for the user
    is replaced by a fresh one with the default preferences, and the session
    runs on the fresh one. *)
Theorem authListener_failed_fetch_replaces_profile
    (uid : string) (email : option string) (w : World) (p : UserPreferences) :
  user_docs w !! uid = Some p →
  net (calls (service w)) = false → net (S (calls (service w))) = true →
  ∃ w1, authListener (Some (uid, email)) w
        = (Fulfilled (Some (Profile (fresh_profile uid email))), w1) ∧
        user_docs w1 !! uid = Some (fresh_profile uid email) ∧
        currentUserId (service w1) = Some uid ∧ isGuestMode (service w1) = false.
Proof.
  intros Hp Hn1 Hn2.
  unfold authListener, getUserProfile, saveUserProfile, catch_with, wbind, wlift,
    request, wret, modify. cbn. rewrite Hn1. cbn. rewrite Hn2.
  eexists. split; [done|]. cbn. by rewrite lookup_insert_eq.
Qed.

(** X7. Without a signed-in user the listener works from local storage alone.
    A guest whose session was set earlier, with an id that is neither empty
    nor [__proto__], is found again and made the session, whatever the
    module's variables held in between (a reload).  For a guest with the
    id [__proto__] (the directory having no entry of that name) the
    listener goes on with the member the directory inherits under that
    name: no user is active then and the session pointer is removed.
    After a sign-in the remembered guest is forgotten: the listener then
    finds no one, while the local tables still hold the guest's records.
    The listener sends no request and writes no profile document. *)
Theorem authListener_signed_out (w : World) :
  (∀ s0 guest, isGuest guest = true → user_id guest ≠ "" →
     user_id guest ≠ "__proto__" →
     localStorage (service w) = localStorage (setSession guest s0) →
     ∃ w1, authListener None w = (Fulfilled (Some (Profile guest)), w1) ∧
           active (service w1) = Some (user_id guest) ∧
           isGuestMode (service w1) = true ∧
           calls (service w1) = calls (service w) ∧ user_docs w1 = user_docs w) ∧
  (∀ s0 guest, isGuest guest = true → user_id guest = "__proto__" →
     ls_users (localStorage s0) !! "__proto__" = None →
     localStorage (service w) = localStorage (setSession guest s0) →
     ∃ w1, authListener None w = (Fulfilled (Some (Inherited "__proto__")), w1) ∧
           active (service w1) = None ∧
           ls_session (localStorage (service w1)) = None ∧
           ls_users (localStorage (service w1)) = ls_users (localStorage s0) ∧
           calls (service w1) = calls (service w) ∧ user_docs w1 = user_docs w) ∧
  (∀ s0 user, isGuest user = false →
     localStorage (service w) = localStorage (setSession user s0) →
     authListener None w = (Fulfilled None, w) ∧
     ls_tables (localStorage (service w)) = ls_tables (localStorage s0) ∧
     ls_users (localStorage (service w)) = ls_users (localStorage s0)).
Proof.
  split_and!.
  - intros s0 guest Hg Hne Hnp Hls.
    unfold authListener, getGuestSession. rewrite Hls.
    unfold setSession at 1 2. rewrite Hg. cbn [localStorage ls_session ls_users].
    destruct (decide (user_id guest = "")) as [|_]; [done|].
    unfold read_user. rewrite assign_user_stored by done.
    eexists. split; [reflexivity|]. cbn.
    split_and!; try done.
    unfold active. cbn. by destruct (decide (user_id guest = "")).
  - intros s0 guest Hg He Hnone Hls.
    unfold authListener, getGuestSession. rewrite Hls.
    unfold setSession. rewrite Hg. cbn [localStorage ls_session ls_users].
    rewrite (assign_user_proto guest _ He Hnone), He.
    destruct (decide ("__proto__" = "")) as [|_]; [done|].
    unfold read_user. rewrite Hnone.
    destruct (decide _) as [_|Hn]; [|destruct Hn; apply list_elem_of_here].
    eexists. split; [reflexivity|]. cbn. rewrite Hls. cbn. rewrite Hg. cbn.
    by rewrite (assign_user_proto guest _ He Hnone).
  - intros s0 user Hg Hls. unfold authListener, getGuestSession.
    rewrite Hls. unfold setSession. rewrite Hg. cbn. done.
Qed.

(** X8. [deriveName]: a missing or empty email gives ["User"]; otherwise the
    name is the text of the email before its first [@] (the whole email when
    it has none, the empty text when it starts with one), and so contains
    no [@]. *)
Theorem deriveName_is_local_part :
  deriveName None = "User" ∧ deriveName (Some "") = "User" ∧
  (∀ e, e ≠ "" →
     (∃ rest, e = deriveName (Some e) +:+ rest ∧
              (rest = "" ∨ ∃ rest', rest = String "@" rest')) ∧
     (∀ a b, deriveName (Some e) ≠ a +:+ String "@" b)).
Proof.
  split; [done|]. split; [done|]. intros e He. unfold deriveName.
  destruct (decide (e = "")) as [|_]; [done|]. clear He. split.
  - induction e as [|c e IH]; cbn.
    + exists "". by split; [|left].
    + destruct (Ascii.eqb c "@") eqn:Hc.
      * apply Ascii.eqb_eq in Hc as ->. exists (String "@" e). split; [done|]. right. by eexists.
      * destruct IH as (rest & Heq & Hrest). exists rest. split; [|done].
        rewrite Heq at 1. reflexivity.
  - induction e as [|c e IH]; intros a b; cbn.
    + by destruct a.
    + destruct (Ascii.eqb c "@") eqn:Hc; [by destruct a|].
      destruct a as [|c' a]; cbn.
      * intros [= -> _]. by rewrite Ascii.eqb_refl in Hc.
      * intros [= _ H]. by apply IH in H.
Qed.

(** ** Quizzes *)

Lemma collection_keys_recognized (c key : string) :
  (c, key) ∈ recognized → collection_keys !! c = Some key.
Proof.
  intros Hin. apply elem_of_list_to_map_1; [|done]. compute_done.
Qed.

Lemma loadCollection_guest (c key : string) (s : State) (uid : string) :
  (c, key) ∈ recognized → active s = Some uid → isGuestMode s = true →
  loadCollection c s
  = (Fulfilled (ItemDoc <$> getLocalUserItems key uid (localStorage s)), s).
Proof.
  intros Hc Hu Hg. unfold loadCollection.
  by rewrite Hu, Hg, (collection_keys_recognized c key Hc).
Qed.

Lemma upsert_by_id_cases (quiz : Item) (l : list Item) :
  (∃ i y, l !! i = Some y ∧ item_id y = item_id quiz ∧
          upsert_by_id quiz l = <[i := quiz]> l ∧
          list_find (λ q, item_id q = item_id quiz) (<[i := quiz]> l) = Some (i, quiz))
  ∨ (Forall (λ q, item_id q ≠ item_id quiz) l ∧
     upsert_by_id quiz l = (l ++ [quiz])%list ∧
     list_find (λ q, item_id q = item_id quiz) (l ++ [quiz])%list = Some (length l, quiz)).
Proof.
  unfold upsert_by_id.
  destruct (list_find (λ q, item_id q = item_id quiz) l) as [[i y]|] eqn:Hf.
  - left. exists i, y. pose proof Hf as (Hi & Hy & Hleast)%list_find_Some.
    split; [done|]. split; [done|]. split; [done|].
    apply list_find_insert_Some. right. left.
    split; [done|]. split; [done|]. split; [by eapply lookup_lt_Some|]. split; [done|].
    intros j z Hj Hlt. by eapply Hleast.
  - right. pose proof Hf as Hall%list_find_None. split; [done|]. split; [done|].
    rewrite list_find_app_r by done. cbn.
    destruct (decide (item_id quiz = item_id quiz)); [|done]. cbn.
    done.
Qed.

Lemma upsert_by_id_ids (quiz : Item) (l : list Item) (i : nat) (y : Item) :
  l !! i = Some y → item_id y = item_id quiz →
  item_id <$> <[i := quiz]> l = item_id <$> l.
Proof.
  intros Hi Hy. rewrite list_fmap_insert. apply list_insert_id.
  by rewrite list_lookup_fmap, Hi, <- Hy.
Qed.

Lemma upsert_by_id_idempotent (quiz : Item) (l : list Item) :
  upsert_by_id quiz (upsert_by_id quiz l) = upsert_by_id quiz l.
Proof.
  destruct (upsert_by_id_cases quiz l) as [(i & y & Hi & Hy & -> & Hf)|(Hall & -> & Hf)].
  - unfold upsert_by_id. rewrite Hf. apply list_insert_insert_eq.
  - unfold upsert_by_id. rewrite Hf. apply list_insert_id.
    by rewrite lookup_app_r, Nat.sub_diag.
Qed.

Lemma upsert_by_id_owned (uid : string) (quiz : Item) (l : list Item) :
  item_userId quiz = uid → Forall (λ i, item_userId i = uid) l →
  Forall (λ i, item_userId i = uid) (upsert_by_id quiz l).
Proof.
  intros Hq Hl.
  destruct (upsert_by_id_cases quiz l) as [(i & y & Hi & Hy & -> & _)|(_ & -> & _)].
  - by apply Forall_insert.
  - apply Forall_app. split; [done|]. by apply Forall_singleton.
Qed.

Lemma getLocalUserItems_owned (key uid : string) (ls : LocalStorage) :
  Forall (λ i, item_userId i = uid) (getLocalUserItems key uid ls).
Proof.
  unfold getLocalUserItems. apply Forall_forall. intros x Hx.
  by apply list_elem_of_filter in Hx as [? _].
Qed.

Lemma saveQuiz_guest (quiz : Item) (s : State) (uid : string) :
  active s = Some uid → isGuestMode s = true → item_userId quiz = uid →
  ∃ s1, saveQuiz quiz s = (Fulfilled tt, s1) ∧
        active s1 = Some uid ∧ isGuestMode s1 = true ∧
        getLocalUserItems LOCAL_KEYS.QUIZZES uid (localStorage s1)
        = upsert_by_id quiz (getLocalUserItems LOCAL_KEYS.QUIZZES uid (localStorage s)).
Proof.
  intros Hu Hg Hq. unfold saveQuiz. rewrite Hu, Hg. eexists. split; [reflexivity|].
  cbn [set_local localStorage isGuestMode]. split; [done|]. split; [done|].
  rewrite getLocalUserItems_saved. apply filter_all_owned.
  apply upsert_by_id_owned; [done|]. apply getLocalUserItems_owned.
Qed.

(** X9. [saveQuiz] in guest mode, for a quiz that carries the user's id: the
    quizzes the user reads afterwards (also through the exported wrapper,
    whatever user id it is given) are the former ones with the quiz replacing
    the first one of the same id, or added at the end.  Every other quiz
    stays, nothing else appears, the count grows by one exactly when the id
    was new, and distinct ids stay distinct. *)
Theorem saveQuiz_guest_upserts (quiz : Item) (s : State) (uid userId : string) :
  active s = Some uid → isGuestMode s = true → item_userId quiz = uid →
  let before := getLocalUserItems LOCAL_KEYS.QUIZZES uid (localStorage s) in
  ∃ after s1,
    saveQuiz quiz s = (Fulfilled tt, s1) ∧
    fst (exported_getQuizzes userId s1) = Fulfilled (ItemDoc <$> after) ∧
    quiz ∈ after ∧
    (∀ x, x ∈ before → item_id x ≠ item_id quiz → x ∈ after) ∧
    (∀ x, x ∈ after → x = quiz ∨ x ∈ before) ∧
    length after
    = (if decide (item_id quiz ∈ item_id <$> before)
       then length before else S (length before)) ∧
    (NoDup (item_id <$> before) → NoDup (item_id <$> after)).
Proof.
  intros Hu Hg Hq before.
  destruct (saveQuiz_guest quiz s uid Hu Hg Hq) as (s1 & Hrun & Hu1 & Hg1 & Hview).
  exists (upsert_by_id quiz before), s1. split; [done|]. split.
  { unfold exported_getQuizzes, getQuizzes.
    rewrite (loadCollection_guest "quizzes" LOCAL_KEYS.QUIZZES s1 uid); [|compute_done|done..].
    cbn [fst]. by rewrite Hview. }
  destruct (upsert_by_id_cases quiz before)
    as [(i & y & Hi & Hy & -> & _)|(Hall & -> & _)].
  - assert (Hlt : (i < length before)%nat) by by eapply lookup_lt_Some.
    split_and!.
    + apply list_elem_of_lookup. exists i. by apply list_lookup_insert_eq.
    + intros x Hx Hne. apply list_elem_of_lookup in Hx as (j & Hj).
      apply list_elem_of_lookup. exists j. rewrite list_lookup_insert_ne; [done|].
      intros ->. congruence.
    + intros x Hx. apply list_elem_of_lookup in Hx as (j & Hj).
      apply list_lookup_insert_Some in Hj as [(_ & -> & _)|[_ Hj]]; [by left|].
      right. by eapply list_elem_of_lookup_2.
    + rewrite length_insert. destruct (decide _) as [|Hnot]; [done|].
      exfalso. apply Hnot. rewrite <- Hy. apply list_elem_of_fmap_2.
      by eapply list_elem_of_lookup_2.
    + by rewrite (upsert_by_id_ids quiz before i y).
  - split_and!.
    + apply elem_of_app. right. apply list_elem_of_here.
    + intros x Hx _. apply elem_of_app. by left.
    + intros x [Hx|Hx%list_elem_of_singleton]%elem_of_app; [by right|by left].
    + rewrite length_app. cbn. destruct (decide _) as [Hin|]; [|lia].
      exfalso. apply list_elem_of_fmap in Hin as (x & Hid & Hx).
      rewrite Forall_forall in Hall. by apply (Hall x Hx).
    + intros Hnd. rewrite fmap_app. cbn. apply NoDup_app. split; [done|].
      split; [|apply NoDup_singleton].
      intros id Hin Hq'%list_elem_of_singleton. subst id.
      apply list_elem_of_fmap in Hin as (x & Hid & Hx).
      rewrite Forall_forall in Hall. by apply (Hall x Hx).
Qed.

Lemma filter_others_app (uid : string) (all items : list Item) :
  Forall (λ i, item_userId i = uid) items →
  filter (λ i, item_userId i ≠ uid) (filter (λ i, item_userId i ≠ uid) all ++ items)%list
  = filter (λ i, item_userId i ≠ uid) all.
Proof.
  intros Hown. rewrite filter_app.
  replace (filter (λ i, item_userId i ≠ uid) items) with (@nil Item).
  - rewrite app_nil_r. induction all as [|x all IH]; [done|].
    rewrite filter_cons. destruct (decide (item_userId x ≠ uid)); [|done].
    rewrite filter_cons. destruct (decide (item_userId x ≠ uid)); [|done]. by rewrite IH.
  - symmetry. induction Hown as [|x l Hx _ IH]; [done|].
    rewrite filter_cons. by destruct (decide (item_userId x ≠ uid)).
Qed.

Lemma saveLocalUserItems_twice (key uid : string) (items : list Item) (ls : LocalStorage) :
  Forall (λ i, item_userId i = uid) items →
  saveLocalUserItems key uid items (saveLocalUserItems key uid items ls)
  = saveLocalUserItems key uid items ls.
Proof.
  intros Hown.
  assert (Hdb : getLocalDB key (saveLocalUserItems key uid items ls)
                = (filter (λ i, item_userId i ≠ uid) (getLocalDB key ls) ++ items)%list).
  { unfold saveLocalUserItems. apply getLocalDB_saved. }
  unfold saveLocalUserItems at 1. rewrite Hdb, filter_others_app by done.
  unfold saveLocalUserItems, saveLocalDB, set_ls_table. cbn. f_equal.
  apply insert_insert_eq.
Qed.

(** X10. Saving the same quiz twice in guest mode is saving it once: the second
    [saveQuiz] leaves the state exactly as the first one left it. *)
Theorem saveQuiz_guest_idempotent (quiz : Item) (s : State) (uid : string) :
  active s = Some uid → isGuestMode s = true → item_userId quiz = uid →
  saveQuiz quiz (snd (saveQuiz quiz s)) = (Fulfilled tt, snd (saveQuiz quiz s)).
Proof.
  intros Hu Hg Hq.
  destruct (saveQuiz_guest quiz s uid Hu Hg Hq) as (s1 & Hrun & Hu1 & Hg1 & Hview).
  rewrite Hrun. cbn [snd]. unfold saveQuiz. rewrite Hu1, Hg1, Hview.
  rewrite upsert_by_id_idempotent. unfold modify. f_equal.
  unfold saveQuiz in Hrun. rewrite Hu, Hg in Hrun. injection Hrun as <-.
  unfold set_local. cbn. f_equal. apply saveLocalUserItems_twice.
  apply upsert_by_id_owned; [done|]. apply getLocalUserItems_owned.
Qed.

(** X11. [saveQuiz] in authenticated mode is one write to the path of the quiz.
    When the request goes through, that path holds the quiz (so [getQuizzes]
    returns it), every other document and the stats stay as they were, and
    local storage is not touched.  When the request fails the call rejects
    and nothing changes. *)
Theorem saveQuiz_auth_upserts (quiz : Item) (s : State) (uid : string) :
  active s = Some uid → isGuestMode s = false →
  (net (calls s) = true →
     ∃ s1, saveQuiz quiz s = (Fulfilled tt, s1) ∧
       remote_item uid "quizzes" (item_id quiz) (db s1) = Some quiz ∧
       (∀ u c id, (u, c, id) ≠ (uid, "quizzes", item_id quiz) →
          remote_item u c id (db s1) = remote_item u c id (db s)) ∧
       fs_stats (db s1) = fs_stats (db s) ∧ localStorage s1 = localStorage s ∧
       (net (S (calls s)) = true →
          ∃ docs, fst (getQuizzes s1) = Fulfilled docs ∧ ItemDoc quiz ∈ docs)) ∧
  (net (calls s) = false →
     ∃ s1, saveQuiz quiz s = (Rejected, s1) ∧
       db s1 = db s ∧ localStorage s1 = localStorage s).
Proof.
  intros Hu Hg. unfold saveQuiz, bind, request, modify. rewrite Hu, Hg. split.
  - intros Hn. rewrite Hn. eexists. split; [reflexivity|]. cbn [db set_db bump localStorage].
    split; [apply remote_item_put_eq|]. split; [by intros; apply remote_item_put_ne|].
    split; [done|]. split; [done|]. intros Hn2.
    unfold getQuizzes. rewrite (loadCollection_auth "quizzes" "quizzes" _ uid); [|done..].
    eexists. split; [reflexivity|]. apply elem_of_collection_docs; [done|].
    exists (item_id quiz). apply remote_item_put_eq.
  - intros Hn. rewrite Hn. by eexists.
Qed.

(** ** Collections *)

Lemma save_list_guest (key c : string) (items : list Item) (s : State) (uid : string) :
  active s = Some uid → isGuestMode s = true →
  save_list key c items s
  = (Fulfilled tt, set_local (saveLocalUserItems key uid items) s).
Proof. intros Hu Hg. unfold save_list. by rewrite Hu, Hg. Qed.

(** X12. In guest mode the savers and loaders of summaries, of the queue and of
    the tasks form a round trip: what the user reads after a save is the
    saved list, cut down to the records that carry the user's id. *)
Theorem guest_lists_round_trip (s : State) (uid : string) (L : list Item) :
  active s = Some uid → isGuestMode s = true →
  let owned := filter (λ i, item_userId i = uid) L in
  fst (getSummaries (snd (saveSummaries L s))) = Fulfilled (ItemDoc <$> owned) ∧
  fst (getQueue (snd (saveQueue L s))) = Fulfilled (ItemDoc <$> owned) ∧
  fst (getTasks (snd (saveTasks L s))) = Fulfilled (ItemDoc <$> owned).
Proof.
  intros Hu Hg owned.
  assert (H : ∀ c key, (c, key) ∈ recognized →
            fst (loadCollection c (snd (save_list key c L s)))
            = Fulfilled (ItemDoc <$> owned)).
  { intros c key Hc. rewrite (save_list_guest key c L s uid Hu Hg). cbn [snd].
    rewrite (loadCollection_guest c key _ uid); [|done..]. cbn [fst set_local localStorage].
    by rewrite getLocalUserItems_saved. }
  split_and!.
  - apply (H "summaries" LOCAL_KEYS.SUMMARIES). compute_done.
  - apply (H "queue" LOCAL_KEYS.QUEUE). compute_done.
  - apply (H "tasks" LOCAL_KEYS.TASKS). compute_done.
Qed.

Lemma filter_other_of_others (uid other : string) (l : list Item) :
  other ≠ uid →
  filter (λ i, item_userId i = other) (filter (λ i, item_userId i ≠ uid) l)
  = filter (λ i, item_userId i = other) l.
Proof.
  intros Hne. induction l as [|x l IH]; [done|].
  rewrite (filter_cons (λ i, item_userId i ≠ uid)), (filter_cons (λ i, item_userId i = other)).
  destruct (decide (item_userId x ≠ uid)) as [Hx|Hx].
  - rewrite filter_cons. destruct (decide (item_userId x = other)); by rewrite IH.
  - apply dec_stable in Hx. destruct (decide (item_userId x = other)); [congruence|done].
Qed.

(** X13. A guest-mode save of a list (notes, summaries, queue or tasks, each with
    its storage key) never removes a record of another user: what another
    user reads under that key afterwards is what that user read before,
    followed by the records of the saved list that carry that user's id.
    The tables under the other keys, the stats table, the user directory and
    the session pointer are left as they were. *)
Theorem save_list_guest_isolation (key c : string) (L : list Item) (s : State) (uid : string) :
  active s = Some uid → isGuestMode s = true →
  let s1 := snd (save_list key c L s) in
  (∀ other, other ≠ uid →
     getLocalUserItems key other (localStorage s1)
     = (getLocalUserItems key other (localStorage s)
        ++ filter (λ i, item_userId i = other) L)%list) ∧
  (∀ key', key' ≠ key →
     getLocalDB key' (localStorage s1) = getLocalDB key' (localStorage s)) ∧
  ls_stats (localStorage s1) = ls_stats (localStorage s) ∧
  ls_users (localStorage s1) = ls_users (localStorage s) ∧
  ls_session (localStorage s1) = ls_session (localStorage s).
Proof.
  intros Hu Hg s1. subst s1. rewrite (save_list_guest key c L s uid Hu Hg).
  cbn [snd set_local localStorage]. split_and!; try done.
  - intros other Hne. unfold getLocalUserItems, saveLocalUserItems.
    rewrite getLocalDB_saved, filter_app. by rewrite filter_other_of_others.
  - intros key' Hne. unfold getLocalDB, saveLocalUserItems, saveLocalDB, set_ls_table.
    cbn. by rewrite lookup_insert_ne.
Qed.

(** X14. An authenticated-mode save of a list is one batch.  When the commit goes
    through, the path of every listed record holds a listed record with that
    id (the record itself when the listed ids are distinct), whatever user id
    the record carries; every path that is not the path of a listed record,
    the stats and local storage are left as they were.  When the commit
    fails, the call rejects and no document changes. *)
Theorem save_list_auth_batch (key c : string) (L : list Item) (s : State) (uid : string) :
  active s = Some uid → isGuestMode s = false →
  (net (calls s) = true →
     ∃ s1, save_list key c L s = (Fulfilled tt, s1) ∧
       localStorage s1 = localStorage s ∧ fs_stats (db s1) = fs_stats (db s) ∧
       (∀ i, i ∈ L →
          ∃ i', i' ∈ L ∧ item_id i' = item_id i ∧
                remote_item uid c (item_id i) (db s1) = Some i') ∧
       (NoDup (item_id <$> L) →
          ∀ i, i ∈ L → remote_item uid c (item_id i) (db s1) = Some i) ∧
       (∀ u c' id, u ≠ uid ∨ c' ≠ c ∨ id ∉ item_id <$> L →
          remote_item u c' id (db s1) = remote_item u c' id (db s))) ∧
  (net (calls s) = false →
     ∃ s1, save_list key c L s = (Rejected, s1) ∧
       db s1 = db s ∧ localStorage s1 = localStorage s).
Proof.
  intros Hu Hg. split.
  - intros Hn. rewrite (save_list_auth key c L s uid Hu Hg Hn).
    eexists. split; [reflexivity|]. cbn [localStorage db set_db bump].
    split; [done|].
    assert (Hin : ∀ u c' j, SetItem u c' j ∈ SetItem uid c <$> L →
              u = uid ∧ c' = c ∧ j ∈ L).
    { intros u c' j Hj. by apply list_elem_of_fmap in Hj as (j' & [= -> -> ->] & Hj'). }
    assert (Hex : ∀ i, i ∈ L →
              ∃ i', i' ∈ L ∧ item_id i' = item_id i ∧
                    remote_item uid c (item_id i) (apply_batch (SetItem uid c <$> L) (db s))
                    = Some i').
    { intros i Hi.
      destruct (remote_item_apply_batch uid c (item_id i) (SetItem uid c <$> L) (db s))
        as [(j & Hj & Hid & Hr)|[Hno _]].
      - exists j. apply Hin in Hj as (_ & _ & Hj). done.
      - exfalso. apply (Hno i); [|done]. by apply list_elem_of_fmap_2. }
    split_and!.
    + apply fs_stats_apply_items. intros u st Hst.
      by apply list_elem_of_fmap in Hst as (j & [=] & _).
    + done.
    + intros Hnd i Hi. destruct (Hex i Hi) as (i' & Hi' & Hid & ->).
      f_equal. by apply (same_id_same_record L).
    + intros u c' id Hother.
      destruct (remote_item_apply_batch u c' id (SetItem uid c <$> L) (db s))
        as [(j & Hj & Hid & _)|[_ Hr]]; [|done].
      exfalso. apply Hin in Hj as (-> & -> & Hj).
      destruct Hother as [?|[?|Hnot]]; [done..|].
      apply Hnot. rewrite <- Hid. by apply list_elem_of_fmap_2.
  - intros Hn. unfold save_list, bind, request, modify. rewrite Hu, Hg, Hn. by eexists.
Qed.

(** X15. [loadCollection] only reads: neither store, nor the session, nor the
    clock is touched, whatever the name, the mode and the network.  In
    guest mode it sends no request, never rejects, and every document it
    returns is a record that carries the current user's id. *)
Theorem loadCollection_only_reads (name : string) (s : State) :
  let r := loadCollection name s in
  localStorage (snd r) = localStorage s ∧ db (snd r) = db s ∧
  currentUserId (snd r) = currentUserId s ∧ isGuestMode (snd r) = isGuestMode s ∧
  ticks (snd r) = ticks s ∧
  (isGuestMode s = true →
     snd r = s ∧
     ∃ items, fst r = Fulfilled (ItemDoc <$> items) ∧
              ∀ uid, active s = Some uid → Forall (λ i, item_userId i = uid) items).
Proof.
  unfold loadCollection. destruct (active s) as [uid|] eqn:Hu.
  - destruct (isGuestMode s) eqn:Hg.
    + destruct (collection_keys !! name) as [key|]; cbn.
      * split_and!; try done. intros _. split; [done|]. eexists. split; [done|].
        intros ? [= <-]. apply getLocalUserItems_owned.
      * split_and!; try done. intros _. split; [done|]. exists []. split; [done|].
        intros ? _. apply Forall_nil_2.
    + destruct (subcollection name); [|by split_and!].
      unfold bind, request. cbn. destruct (net (calls s)); cbn; by split_and!.
  - cbn. split_and!; try done. intros _. split; [done|]. by exists [].
Qed.

(** ** Stats: what the calls leave alone *)

Lemma stats_step_refl (uid : string) (s : State) : stats_step uid s s.
Proof. unfold stats_step. by split_and!. Qed.

Lemma stats_step_trans (uid : string) (s1 s2 s3 : State) :
  stats_step uid s1 s2 → stats_step uid s2 s3 → stats_step uid s1 s3.
Proof.
  intros (Hc1 & Hg1 & Hse1 & Hus1 & Htb1 & Hit1 & Hot1 & Hgu1 & Hau1 & Hnd1)
         (Hc2 & Hg2 & Hse2 & Hus2 & Htb2 & Hit2 & Hot2 & Hgu2 & Hau2 & Hnd2).
  unfold stats_step. split_and!; try congruence.
  - intros other Hne. destruct (Hot1 other Hne), (Hot2 other Hne). split; congruence.
  - intros Hg. destruct (Hgu1 Hg). destruct Hgu2; [congruence|]. split; congruence.
  - intros Hg. rewrite Hau2, Hau1; [done..|congruence].
  - auto.
Qed.

Lemma stats_step_tick (uid : string) (s : State) : stats_step uid s (tick s).
Proof. unfold stats_step. by split_and!. Qed.

Lemma stats_step_iter_tick (uid : string) (n : nat) (s : State) :
  stats_step uid s (Nat.iter n tick s).
Proof. rewrite iter_tick_frame. unfold stats_step. by split_and!. Qed.

Lemma stats_step_bump (uid : string) (s : State) :
  isGuestMode s = false → stats_step uid s (bump s).
Proof. intros Hg. unfold stats_step. cbn. rewrite Hg. by split_and!. Qed.

Lemma list_find_other_append (uid other : string) (l : list UserStats) (y : UserStats) :
  other ≠ uid → owns_stats uid y →
  list_find (owns_stats other) (l ++ [y])%list = list_find (owns_stats other) l.
Proof.
  intros Hne Hy. induction l as [|x l IH]; csimpl.
  - destruct (decide (owns_stats other y)) as [Ho|]; [|done].
    unfold owns_stats in *. congruence.
  - destruct (decide (owns_stats other x)); [done|]. by rewrite IH.
Qed.

Lemma list_find_other_replace (uid other : string) (l : list UserStats) (i : nat)
    (x y : UserStats) :
  other ≠ uid → l !! i = Some x → owns_stats uid x → owns_stats uid y →
  list_find (owns_stats other) (<[i := y]> l) = list_find (owns_stats other) l.
Proof.
  intros Hne. revert i. induction l as [|z l IH]; intros i Hi Hx Hy; [done|].
  destruct i as [|i]; csimpl in *.
  - injection Hi as ->.
    destruct (decide (owns_stats other y)) as [Ho|]; [unfold owns_stats in *; congruence|].
    destruct (decide (owns_stats other x)) as [Ho|]; [unfold owns_stats in *; congruence|].
    done.
  - destruct (decide (owns_stats other z)); [done|]. by rewrite (IH i).
Qed.

Lemma stats_ids_replace (l : list UserStats) (i : nat) (x y : UserStats) :
  l !! i = Some x → stats_userId y = stats_userId x →
  stats_userId <$> <[i := y]> l = stats_userId <$> l.
Proof.
  intros Hi Hy. rewrite list_fmap_insert. apply list_insert_id.
  by rewrite list_lookup_fmap, Hi, Hy.
Qed.

Lemma stats_ids_append (uid : string) (l : list UserStats) (y : UserStats) :
  list_find (owns_stats uid) l = None → owns_stats uid y →
  NoDup (stats_userId <$> l) → NoDup (stats_userId <$> (l ++ [y])%list).
Proof.
  intros Hf Hy Hnd. rewrite fmap_app. apply NoDup_app. split; [done|].
  split; [|apply NoDup_singleton].
  intros id Hin Hid%list_elem_of_singleton. subst id.
  apply list_elem_of_fmap in Hin as (x & Hx & Hin).
  apply list_find_None in Hf. rewrite Forall_forall in Hf.
  apply (Hf x Hin). unfold owns_stats in *. congruence.
Qed.

(** Writing a stats record of [uid] into the local table. *)
Lemma stats_step_local_write (uid : string) (y : UserStats) (s : State) :
  isGuestMode s = true → owns_stats uid y →
  let all := ls_stats (localStorage s) in
  stats_step uid s
    (set_local (set_ls_stats
                  match list_find (owns_stats uid) all with
                  | Some (idx, _) => <[idx := y]> all
                  | None => (all ++ [y])%list
                  end) s).
Proof.
  intros Hg Hy all. unfold stats_step. cbn. rewrite Hg.
  split_and!; try done.
  - intros other Hne. split; [|done].
    destruct (list_find (owns_stats uid) all) as [[i x]|] eqn:Hf.
    + apply list_find_Some in Hf as (Hi & Hx & _).
      by apply (list_find_other_replace uid other all i x y).
    + by apply (list_find_other_append uid).
  - intros Hnd. destruct (list_find (owns_stats uid) all) as [[i x]|] eqn:Hf.
    + apply list_find_Some in Hf as (Hi & Hx & _).
      rewrite (stats_ids_replace all i x y); [done..|].
      unfold owns_stats in *. congruence.
    + by apply (stats_ids_append uid).
Qed.

Lemma stats_step_remote_write (uid : string) (y : UserStats) (s : State) :
  isGuestMode s = false → stats_step uid s (set_db (put_stats uid y) s).
Proof.
  intros Hg. unfold stats_step. cbn. rewrite Hg. split_and!; try done.
  intros other Hne. split; [done|]. by rewrite lookup_insert_ne.
Qed.

Lemma getStats_step (s : State) (uid : string) :
  active s = Some uid →
  stats_step uid s (snd (getStats s)) ∧
  (∀ st, fst (getStats s) = Fulfilled st → isGuestMode s = true → stats_userId st = uid).
Proof.
  intros Hu. unfold getStats. rewrite Hu. destruct (isGuestMode s) eqn:Hg.
  - destruct (list_find (owns_stats uid) (ls_stats (localStorage s))) as [[i st]|] eqn:Hf.
    + split; [apply stats_step_refl|]. intros st' [= <-] _.
      by apply list_find_Some in Hf as (_ & Hown & _).
    + split; [|by intros st' [= <-] _].
      cbn. eapply stats_step_trans; [apply stats_step_tick|].
      pose proof (stats_step_local_write uid (empty_stats uid (clock (ticks s))) (tick s)
                    Hg eq_refl) as Hw.
      cbn in Hw. by rewrite Hf in Hw.
  - split; [|intros ? _ [=]]. unfold bind, request.
    destruct (net (calls s)); cbn; [|by apply stats_step_bump].
    destruct (fs_stats (db s) !! uid); cbn; [by apply stats_step_bump|].
    destruct (net (S (calls s))); cbn.
    + eapply stats_step_trans; [by apply stats_step_bump|].
      eapply stats_step_trans; [apply stats_step_tick|].
      eapply stats_step_trans; [by apply stats_step_bump|].
      by apply stats_step_remote_write.
    + eapply stats_step_trans; [by apply stats_step_bump|].
      eapply stats_step_trans; [apply stats_step_tick|]. by apply stats_step_bump.
Qed.

Lemma persistStats_step (uid : string) (updated : UserStats) (s : State) :
  (isGuestMode s = true → stats_userId updated = uid) →
  stats_step uid s (snd (persistStats uid updated s)).
Proof.
  intros Hown. unfold persistStats. destruct (isGuestMode s) eqn:Hg.
  - by apply stats_step_local_write; [|apply Hown].
  - unfold bind, request. destruct (net (calls s)); cbn; [|by apply stats_step_bump].
    eapply stats_step_trans; [by apply stats_step_bump|]. by apply stats_step_remote_write.
Qed.

(** An updater that only reads the clock and keeps the [userId]. *)
Lemma updateStats_step (updater : UserStats → Op UserStats) (s : State) (uid : string) :
  (∀ st s1, ∃ upd n, updater st s1 = (Fulfilled upd, Nat.iter n tick s1) ∧
                     stats_userId upd = stats_userId st) →
  active s = Some uid → stats_step uid s (snd (updateStats updater s)).
Proof.
  intros Hupd Hu. unfold updateStats. rewrite Hu.
  destruct (getStats_step s uid Hu) as [Hstep Hown]. unfold bind at 1.
  destruct (getStats s) as [[st|] s1]; cbn [fst snd] in *; [|done].
  destruct (Hupd st s1) as (upd & n & Hrun & Hid).
  rewrite (bind_fulfilled _ _ _ _ _ Hrun).
  assert (Hg1 : isGuestMode (Nat.iter n tick s1) = isGuestMode s).
  { rewrite iter_tick_frame. cbn. apply Hstep. }
  eapply stats_step_trans; [exact Hstep|].
  eapply stats_step_trans; [apply (stats_step_iter_tick uid n)|].
  pose proof (persistStats_step uid upd (Nat.iter n tick s1)) as Hp.
  unfold bind. destruct (persistStats uid upd (Nat.iter n tick s1)) as [[[]|] s2];
    cbn [snd] in *; apply Hp; intros Hg; rewrite Hid; apply (Hown st eq_refl); congruence.
Qed.

Lemma checkLoginStreak_step (s : State) (uid : string) :
  active s = Some uid → stats_step uid s (snd (checkLoginStreak s)).
Proof.
  intros Hu. unfold checkLoginStreak. rewrite Hu.
  destruct (getStats_step s uid Hu) as [Hstep _]. unfold bind at 1.
  destruct (getStats s) as [[st|] s1]; cbn [fst snd] in *; [|done].
  assert (Hu1 : active s1 = Some uid).
  { unfold active in *. destruct Hstep as (-> & _). done. }
  eapply stats_step_trans; [exact Hstep|].
  rewrite (bind_fulfilled newDate _ s1 (tick s1) (clock (ticks s1)) eq_refl).
  eapply stats_step_trans; [apply stats_step_tick|].
  destruct (decide _); [|apply stats_step_refl].
  rewrite (bind_fulfilled newDate _ (tick s1) (tick (tick s1)) (clock (S (ticks s1))) eq_refl).
  eapply stats_step_trans; [apply stats_step_tick|].
  match goal with
  | |- stats_step _ _ (snd (bind (updateStats ?u) _ ?s2)) =>
      pose proof (updateStats_step u s2 uid) as Hupd
  end.
  unfold bind. destruct (updateStats _ _) as [[r|] s3]; cbn [snd] in *; apply Hupd; try done.
  all: intros st' s'; eexists; exists 1%nat; split; reflexivity.
Qed.

Lemma logStudyTime_step (minutes : Z) (s : State) (uid : string) :
  active s = Some uid → stats_step uid s (snd (logStudyTime minutes s)).
Proof.
  intros Hu. unfold logStudyTime. rewrite Hu.
  rewrite (bind_fulfilled newDate _ s (tick s) (clock (ticks s)) eq_refl).
  eapply stats_step_trans; [apply stats_step_tick|].
  match goal with
  | |- stats_step _ _ (snd (bind (updateStats ?u) _ ?s2)) =>
      pose proof (updateStats_step u s2 uid) as Hupd
  end.
  unfold bind. destruct (updateStats _ _) as [[r|] s3]; cbn [snd] in *; apply Hupd; try done.
  all: intros st' s'; eexists; exists 0%nat; split; reflexivity.
Qed.

Lemma after_stats_call_step (s s' : State) (uid : string) :
  active s = Some uid → after_stats_call s s' → stats_step uid s s'.
Proof.
  intros Hu [->|[->|[m ->]]].
  - by apply getStats_step.
  - by apply checkLoginStreak_step.
  - by apply logStudyTime_step.
Qed.

(** X16. A stats call ([getStats], [checkLoginStreak], [logStudyTime]) of an
    active user leaves everything but stats alone: the session, the guest
    pointer, the user directory, the item tables and the remote item
    documents are as before, whatever the network does. *)
Theorem stats_calls_leave_the_rest (s s' : State) (uid : string) :
  active s = Some uid → after_stats_call s s' →
  currentUserId s' = currentUserId s ∧ isGuestMode s' = isGuestMode s ∧
  ls_session (localStorage s') = ls_session (localStorage s) ∧
  ls_users (localStorage s') = ls_users (localStorage s) ∧
  ls_tables (localStorage s') = ls_tables (localStorage s) ∧
  fs_items (db s') = fs_items (db s).
Proof.
  intros Hu Hcall. pose proof (after_stats_call_step s s' uid Hu Hcall) as Hstep.
  unfold stats_step in Hstep. by destruct_and!.
Qed.

(** X17. A stats call of an active user never changes the stats another user has
    in the store of the session's mode, whatever the network does. *)
Theorem stats_of_other_users_untouched (s s' : State) (uid other : string) :
  active s = Some uid → after_stats_call s s' → other ≠ uid →
  stored_stats other s' = stored_stats other s.
Proof.
  intros Hu Hcall Hne. pose proof (after_stats_call_step s s' uid Hu Hcall) as Hstep.
  destruct Hstep as (_ & Hg & _ & _ & _ & _ & Hother & _).
  destruct (Hother other Hne) as [Hl Hr]. unfold stored_stats. by rewrite Hg, Hl, Hr.
Qed.

(** X18. The local stats table keeps at most one record per user: when no two
    records of the table carry the same user id, a stats call of an active
    user leaves the table so. *)
Theorem one_stats_record_per_user_kept (s s' : State) (uid : string) :
  active s = Some uid → after_stats_call s s' →
  NoDup (stats_userId <$> ls_stats (localStorage s)) →
  NoDup (stats_userId <$> ls_stats (localStorage s')).
Proof.
  intros Hu Hcall. pose proof (after_stats_call_step s s' uid Hu Hcall) as Hstep.
  apply Hstep.
Qed.

Lemma after_stats_call_inactive (s s' : State) :
  active s = None → after_stats_call s s' → s' = s ∨ s' = tick s.
Proof.
  intros Hu [->|[->|[m ->]]].
  - right. unfold getStats. by rewrite Hu.
  - left. unfold checkLoginStreak. by rewrite Hu.
  - left. unfold logStudyTime. by rewrite Hu.
Qed.

Lemma same_calls_requests_ok (s s' : State) : calls s' = calls s → requests_ok s s'.
Proof. intros H k Hk. lia. Qed.

(** X19. Guest mode works without the network: every accessor fulfils whatever
    the requests would do, sends none, and leaves the remote store as it
    was. *)
Theorem guest_mode_works_offline (s : State) :
  isGuestMode s = true →
  (∃ st, fst (getStats s) = Fulfilled st) ∧
  fst (checkLoginStreak s) = Fulfilled tt ∧
  (∀ minutes, fst (logStudyTime minutes s) = Fulfilled tt) ∧
  (∀ key c items, fst (save_list key c items s) = Fulfilled tt) ∧
  (∀ quiz, fst (saveQuiz quiz s) = Fulfilled tt) ∧
  (∀ name, ∃ docs, fst (loadCollection name s) = Fulfilled docs) ∧
  (∀ s', after_accessor s s' → db s' = db s ∧ calls s' = calls s).
Proof.
  intros Hg.
  assert (Hstats : ∀ s', after_stats_call s s' → db s' = db s ∧ calls s' = calls s).
  { intros s' Hcall. destruct (active s) as [uid|] eqn:Hu.
    - by apply (after_stats_call_step s s' uid Hu Hcall).
    - by destruct (after_stats_call_inactive s s' Hu Hcall) as [->| ->]. }
  split_and!.
  - destruct (active s) as [uid|] eqn:Hu.
    + destruct (getStats_run s uid Hu) as (s1 & Hrun & _).
      { apply same_calls_requests_ok, Hstats. by left. }
      rewrite Hrun. by eexists.
    + unfold getStats. rewrite Hu. by eexists.
  - destruct (active s) as [uid|] eqn:Hu.
    + destruct (checkLoginStreak_run s uid Hu) as (s1 & Hrun & _).
      { apply same_calls_requests_ok, Hstats. right. by left. }
      by rewrite Hrun.
    + unfold checkLoginStreak. by rewrite Hu.
  - intros m. destruct (active s) as [uid|] eqn:Hu.
    + destruct (logStudyTime_run m s uid Hu) as (s1 & Hrun & _).
      { apply same_calls_requests_ok, Hstats. right. right. by exists m. }
      by rewrite Hrun.
    + unfold logStudyTime. by rewrite Hu.
  - intros key c items. unfold save_list. destruct (active s); by rewrite ?Hg.
  - intros quiz. unfold saveQuiz. destruct (active s); by rewrite ?Hg.
  - intros name. unfold loadCollection. destruct (active s); rewrite ?Hg; [|by eexists].
    destruct (collection_keys !! name); by eexists.
  - intros s' [Hcall|[(key & c & items & ->)|[(quiz & ->)|(name & ->)]]].
    + by apply Hstats.
    + unfold save_list. destruct (active s); by rewrite ?Hg.
    + unfold saveQuiz. destruct (active s); by rewrite ?Hg.
    + unfold loadCollection. destruct (active s); rewrite ?Hg; [|done].
      by destruct (collection_keys !! name).
Qed.

(** X20. In authenticated mode no accessor writes to the device: local storage is
    the same after every stats call, list save, [saveQuiz] and
    [loadCollection], whether the requests go through or not. *)
Theorem authenticated_mode_leaves_local_storage (s s' : State) :
  isGuestMode s = false → after_accessor s s' → localStorage s' = localStorage s.
Proof.
  intros Hg [Hcall|[(key & c & items & ->)|[(quiz & ->)|(name & ->)]]].
  - destruct (active s) as [uid|] eqn:Hu.
    + by apply (after_stats_call_step s s' uid Hu Hcall).
    + by destruct (after_stats_call_inactive s s' Hu Hcall) as [->| ->].
  - unfold save_list, bind, request, modify. destruct (active s); rewrite ?Hg; [|done].
    by destruct (net (calls s)).
  - unfold saveQuiz, bind, request, modify. destruct (active s); rewrite ?Hg; [|done].
    by destruct (net (calls s)).
  - unfold loadCollection, bind, request. destruct (active s); rewrite ?Hg; [|done].
    destruct (subcollection name); [|done]. by destruct (net (calls s)).
Qed.

(** ** Stats: single calls *)

(** X21. [logStudyTime] of a whole number of minutes (the code checks no
    sign): when the requests go through, the stored record is the prior one
    (the lazily created one when there was none) with the minutes added to
    the lifetime total and to the entry of the key of today's UTC date,
    each sum being exact when it lies between [- 2 ^ 53] and [2 ^ 53]; the
    entries of all other days, the ids, the streak, the last login date and
    the counters are the prior ones.  The key is the zero-padded year,
    month and day of the UTC date of the reading, and no instant of another
    UTC day has the same key. *)
Theorem logStudyTime_adds_minutes (minutes : Z) (s : State) (uid : string) :
  active s = Some uid → requests_ok s (snd (logStudyTime minutes s)) →
  let t := clock (ticks s) in
  let todayKey := iso_date t in
  let prior := default (empty_stats uid (clock (S (ticks s)))) (stored_stats uid s) in
  let entry := default 0 (dailyActivity prior !! todayKey) in
  let total := totalTimeStudiedMinutes prior in
  (∃ y m d, todayKey = iso_year y +:+ "-" +:+ digits 2 m +:+ "-" +:+ digits 2 d ∧
            1 ≤ m ≤ 12 ∧ 1 ≤ d ≤ 31 ∧ days_from_civil y m d = utc_day t) ∧
  (∀ t', date_range t → date_range t' → iso_date t' = todayKey → utc_day t' = utc_day t) ∧
  ∃ st1,
    fst (logStudyTime minutes s) = Fulfilled tt ∧
    stored_stats uid (snd (logStudyTime minutes s)) = Some st1 ∧
    (- 2 ^ 53 ≤ total + minutes ≤ 2 ^ 53 →
       totalTimeStudiedMinutes st1 = total + minutes) ∧
    (- 2 ^ 53 ≤ entry + minutes ≤ 2 ^ 53 →
       dailyActivity st1 !! todayKey = Some (entry + minutes)) ∧
    (∀ day, day ≠ todayKey → dailyActivity st1 !! day = dailyActivity prior !! day) ∧
    stats_id st1 = stats_id prior ∧ stats_userId st1 = stats_userId prior ∧
    loginStreak st1 = loginStreak prior ∧ lastLoginDate st1 = lastLoginDate prior ∧
    notesCreated st1 = notesCreated prior ∧ quizzesTaken st1 = quizzesTaken prior ∧
    highScore st1 = highScore prior.
Proof.
  intros Hu Hok t todayKey prior entry total.
  split; [apply iso_date_is_utc_date|].
  split. { intros t' Ht Ht' Heq. by apply iso_date_inj. }
  destruct (logStudyTime_run minutes s uid Hu Hok) as (s1 & Hrun & _ & _ & _ & _ & Hst).
  rewrite Hrun. cbn [fst snd]. eexists. split; [done|]. split; [exact Hst|].
  unfold stats_or_empty. rewrite stored_stats_tick. fold prior. cbn.
  rewrite lookup_insert_eq. split_and!; try done.
  - intros Hb. by apply number_add_exact.
  - intros Hb. f_equal. by apply number_add_exact.
  - intros day Hne. by rewrite lookup_insert_ne.
Qed.

(** X22. [checkLoginStreak] restarts the streak at one whenever the last login
    is dated neither today nor yesterday: two or more days back, but also in
    the future, or not a date at all.  Only the streak and the last login
    date are written. *)
Theorem checkLoginStreak_restarts (s : State) (uid : string) (st : UserStats) (D : Z) :
  active s = Some uid → stored_stats uid s = Some st →
  requests_ok s (snd (checkLoginStreak s)) →
  local_day (clock (ticks s)) = D → local_day (clock (S (ticks s))) = D →
  toDateString (lastLoginDate st) ≠ Some D →
  toDateString (lastLoginDate st) ≠ Some (D - 1) →
  ∃ s1, checkLoginStreak s = (Fulfilled tt, s1) ∧
        stored_stats uid s1 = Some (with_login 1 (clock (S (S (ticks s)))) st).
Proof.
  intros Hu Hst Hok Htoday Hyes Hnot Hnoy.
  destruct (checkLoginStreak_run s uid Hu Hok) as (s1 & Hrun & _ & _ & _ & Hres).
  destruct (stats_or_empty_stored uid s st Hst) as [Hse Hta].
  unfold next_streak in Hres. rewrite Hse, Hta, Htoday, Hyes in Hres.
  destruct (decide _) as [_|Heq] in Hres; [|done].
  destruct (decide _) as [Heq|_] in Hres; [done|].
  exists s1. split; [done|]. apply Hres.
Qed.

(** X23. [updateStats] is a read-modify-write: with an updater that keeps the
    user id and when the requests go through, it returns the updater's
    result on the record [getStats] would return, and that result is what
    the store then holds.  So the updater of App.tsx raises [notesCreated]
    by one when it is at least [- 2 ^ 53] and below [2 ^ 53], leaves it
    at [2 ^ 53] when it is there, and leaves every other field. *)
Theorem updateStats_read_modify_write (s : State) (uid : string) :
  active s = Some uid →
  let current := stats_or_empty uid s in
  (∀ f, (∀ st, stats_userId (f st) = stats_userId st) →
     requests_ok s (snd (updateStats (λ st, ret (f st)) s)) →
     ∃ s1, updateStats (λ st, ret (f st)) s = (Fulfilled (Some (f current)), s1) ∧
           stored_stats uid s1 = Some (f current)) ∧
  (requests_ok s (snd (updateStats (λ st, ret (with_note_created st)) s)) →
     ∃ s1 st1, updateStats (λ st, ret (with_note_created st)) s
               = (Fulfilled (Some st1), s1) ∧
               stored_stats uid s1 = Some st1 ∧
               (- 2 ^ 53 ≤ notesCreated current < 2 ^ 53 →
                  notesCreated st1 = notesCreated current + 1) ∧
               (notesCreated current = 2 ^ 53 → notesCreated st1 = 2 ^ 53) ∧
               stats_id st1 = stats_id current ∧
               stats_userId st1 = stats_userId current ∧
               totalTimeStudiedMinutes st1 = totalTimeStudiedMinutes current ∧
               quizzesTaken st1 = quizzesTaken current ∧
               loginStreak st1 = loginStreak current ∧
               lastLoginDate st1 = lastLoginDate current ∧
               dailyActivity st1 = dailyActivity current ∧
               highScore st1 = highScore current).
Proof.
  intros Hu current.
  assert (Hgen : ∀ f, (∀ st, stats_userId (f st) = stats_userId st) →
            requests_ok s (snd (updateStats (λ st, ret (f st)) s)) →
            ∃ s1, updateStats (λ st, ret (f st)) s = (Fulfilled (Some (f current)), s1) ∧
                  stored_stats uid s1 = Some (f current)).
  { intros f Hid Hok.
    destruct (updateStats_run (λ st, ret (f st)) (λ st _, f st) 0 s uid)
      as (s1 & Hrun & _ & _ & Hst & _); [done..|].
    by exists s1. }
  split; [exact Hgen|]. intros Hok.
  destruct (Hgen with_note_created) as (s1 & Hrun & Hst); [done..|].
  exists s1, (with_note_created current). cbn. split_and!; try done.
  - intros Hb. apply number_add_exact. unfold MAX_EXACT. lia.
  - by intros ->.
Qed.

(** X24. [loadUserData] never rejects: a failing call is caught.  In guest mode
    with an active user it always loads: the notes and the summaries are
    the user's records of the two local tables, and the stats are the
    record the store holds afterwards. *)
Theorem loadUserData_never_rejects (s : State) :
  (∃ loaded, fst (loadUserData s) = Fulfilled loaded) ∧
  (∀ uid, active s = Some uid → isGuestMode s = true →
     ∃ st, fst (loadUserData s)
           = Fulfilled (Some
               (ItemDoc <$> getLocalUserItems LOCAL_KEYS.NOTES uid (localStorage s),
                ItemDoc <$> getLocalUserItems LOCAL_KEYS.SUMMARIES uid (localStorage s),
                st)) ∧
           stored_stats uid (snd (loadUserData s)) = Some st).
Proof.
  split.
  - unfold loadUserData.
    match goal with
    | |- context [match ?m with _ => _ end] => destruct m as [[loaded|] s']
    end; by eexists.
  - intros uid Hu Hg. unfold loadUserData.
    pose proof (checkLoginStreak_step s uid Hu) as Hstep.
    destruct (checkLoginStreak_run s uid Hu) as (s1 & Hrun & Hu1 & Hg1 & _).
    { apply same_calls_requests_ok.
      destruct Hstep as (_ & _ & _ & _ & _ & _ & _ & Hguest & _). by destruct (Hguest Hg). }
    rewrite Hrun in Hstep. cbn [snd] in Hstep.
    rewrite (bind_fulfilled _ _ _ _ _ Hrun).
    rewrite Hg in Hg1.
    unfold getNotes, getSummaries.
    rewrite (bind_fulfilled _ _ _ _ _
               (loadCollection_guest "notes" LOCAL_KEYS.NOTES s1 uid
                  ltac:(compute_done) Hu1 Hg1)).
    rewrite (bind_fulfilled _ _ _ _ _
               (loadCollection_guest "summaries" LOCAL_KEYS.SUMMARIES s1 uid
                  ltac:(compute_done) Hu1 Hg1)).
    pose proof (getStats_step s1 uid Hu1) as [Hstep2 _].
    destruct (getStats_run s1 uid Hu1) as (s2 & Hget & _ & _ & Hst & _).
    { apply same_calls_requests_ok.
      destruct Hstep2 as (_ & _ & _ & _ & _ & _ & _ & Hguest & _). by destruct (Hguest Hg1). }
    rewrite (bind_fulfilled _ _ _ _ _ Hget). cbn.
    exists (stats_or_empty uid s1). split; [|done].
    unfold getLocalUserItems, getLocalDB.
    destruct Hstep as (_ & _ & _ & _ & -> & _). done.
Qed.

(** ** Migration: what stays *)

(** X25. When the commit of [migrateData] goes through, a document of the remote
    store is left as it was unless it sits at the path, under [authId], of a
    record the guest owns in the matching local table; and the stats of
    every user but [authId] stay, as do those of [authId] when the guest has
    no stats record.  Nothing is deleted. *)
Theorem migrateData_keeps_other_documents (s : State) (guestId authId : string) :
  net (calls s) = true →
  let s1 := snd (migrateData guestId authId s) in
  (∀ uid c id,
     (∀ key r, uid = authId → (c, key) ∈ recognized →
               r ∈ getLocalUserItems key guestId (localStorage s) → item_id r ≠ id) →
     remote_item uid c id (db s1) = remote_item uid c id (db s)) ∧
  (∀ uid, uid ≠ authId → fs_stats (db s1) !! uid = fs_stats (db s) !! uid) ∧
  (list_find (owns_stats guestId) (ls_stats (localStorage s)) = None →
     fs_stats (db s1) = fs_stats (db s)).
Proof.
  intros Hn s1. subst s1. unfold migrateData, bind, request, modify. rewrite Hn.
  cbn [snd db set_db bump]. split_and!.
  - intros uid c id Hfree.
    destruct (remote_item_apply_batch uid c id
                (migration_batch guestId authId (localStorage s)) (db s))
      as [(i & Hi & Hid & _)|[_ Hr]]; [|done].
    exfalso. apply migration_batch_inv in Hi as (key & Hc & Hi).
    apply migrate_table_inv in Hi as (-> & _ & r & Hr & Hg & ->).
    apply (Hfree key r); [done..| |done].
    unfold getLocalUserItems. by apply list_elem_of_filter.
  - intros uid Hne. unfold migration_batch.
    rewrite !app_assoc, apply_batch_app.
    set (items := (_ ++ _)%list).
    assert (Hitems : fs_stats (apply_batch items (db s)) = fs_stats (db s)).
    { apply fs_stats_apply_items. intros u st. subst items. rewrite !elem_of_app.
      intros [[[[H|H]|H]|H]|H]; by apply migrate_table_no_stats in H. }
    destruct (snd <$> _) as [st|]; cbn; [|by rewrite Hitems].
    by rewrite lookup_insert_ne, Hitems.
  - intros Hnone. unfold migration_batch. rewrite Hnone. cbn.
    apply fs_stats_apply_items. intros u st. rewrite !elem_of_app.
    intros [H|[H|[H|[H|[H|H]]]]]; try by apply migrate_table_no_stats in H.
    by apply not_elem_of_nil in H.
Qed.

Lemma remote_item_last (uid c id : string) (batch : list BatchWrite) (r : Firestore) :
  remote_item uid c id (apply_batch batch r)
  = match last_item uid c id batch with
    | Some i => Some i
    | None => remote_item uid c id r
    end.
Proof.
  revert r. induction batch as [|w batch IH]; intros r; [done|].
  rewrite apply_batch_cons, IH. cbn [last_item].
  destruct (last_item uid c id batch); [done|].
  destruct w as [u c' i|u st]; cbn [apply_write]; [|done].
  destruct (decide _) as [[= -> -> <-]|Hne].
  - apply remote_item_put_eq.
  - apply remote_item_put_ne. congruence.
Qed.

Lemma fs_stats_last (uid : string) (batch : list BatchWrite) (r : Firestore) :
  fs_stats (apply_batch batch r) !! uid
  = match last_stats uid batch with
    | Some st => Some st
    | None => fs_stats r !! uid
    end.
Proof.
  revert r. induction batch as [|w batch IH]; intros r; [done|].
  rewrite apply_batch_cons, IH. cbn [last_stats].
  destruct (last_stats uid batch); [done|].
  destruct w as [u c' i|u st]; cbn [apply_write]; [done|].
  destruct (decide _) as [->|Hne]; cbn.
  - apply lookup_insert_eq.
  - by apply lookup_insert_ne.
Qed.

(** X26. Migrating twice is migrating once: when both commits go through, every
    path of the remote store holds after the second [migrateData] what it
    held after the first. *)
Theorem migrateData_twice (s : State) (guestId authId : string) :
  net (calls s) = true → net (S (calls s)) = true →
  let s1 := snd (migrateData guestId authId s) in
  let s2 := snd (migrateData guestId authId s1) in
  fst (migrateData guestId authId s) = Fulfilled tt ∧
  fst (migrateData guestId authId s1) = Fulfilled tt ∧
  same_documents (db s2) (db s1).
Proof.
  intros Hn1 Hn2 s1 s2. subst s2 s1.
  unfold migrateData, bind, request, modify. rewrite Hn1. cbn. rewrite Hn2. cbn.
  split; [done|]. split; [done|]. split.
  - intros uid c id. rewrite (remote_item_last uid c id _ (apply_batch _ _)).
    destruct (last_item _ _ _ _) eqn:Hl; [|done].
    by rewrite remote_item_last, Hl.
  - intros uid. rewrite (fs_stats_last uid _ (apply_batch _ _)).
    destruct (last_stats _ _) eqn:Hl; [|done].
    by rewrite fs_stats_last, Hl.
Qed.

(** ** Without a session *)

(** X27. With no active user (a [null] or an empty [currentUserId]) the savers,
    [updateStats], [checkLoginStreak] and [logStudyTime] do nothing at all,
    [loadCollection] returns the empty list, and [getStats] hands back an
    empty record for the user ["unknown"] that it does not store: after
    each of them both stores are as before and no request was sent. *)
Theorem no_session_nothing_stored (s : State) :
  active s = None →
  (∀ key c items, save_list key c items s = (Fulfilled tt, s)) ∧
  (∀ quiz, saveQuiz quiz s = (Fulfilled tt, s)) ∧
  (∀ updater, updateStats updater s = (Fulfilled None, s)) ∧
  checkLoginStreak s = (Fulfilled tt, s) ∧
  (∀ minutes, logStudyTime minutes s = (Fulfilled tt, s)) ∧
  (∀ name, loadCollection name s = (Fulfilled [], s)) ∧
  getStats s = (Fulfilled (empty_stats "unknown" (clock (ticks s))), tick s) ∧
  (∀ uid, stored_stats uid (snd (getStats s)) = stored_stats uid s).
Proof.
  intros Hu.
  unfold save_list, saveQuiz, updateStats, checkLoginStreak, logStudyTime,
    loadCollection, getStats.
  rewrite Hu. by split_and!.
Qed.

End StorageService.

(** ** The model at sample data *)

Example iso_date_epoch : iso_date 0 = "1970-01-01".
Proof. reflexivity. Qed.

Example iso_date_before_epoch : iso_date (-1) = "1969-12-31".
Proof. reflexivity. Qed.

Example iso_date_leap_day : iso_date 951782400000 = "2000-02-29".
Proof. reflexivity. Qed.

Example iso_date_first_reading : iso_date (hourly_clock 0) = "2026-11-02".
Proof. reflexivity. Qed.

Example iso_date_expanded_year : iso_date 8640000000000000 = "+275760-09-13".
Proof. reflexivity. Qed.

(** A record last touched two days ago: the streak restarts at one. *)
Example checkLoginStreak_after_a_gap :
  loginStreak <$>
    stored_stats "u1"
      (snd (checkLoginStreak utc_zone (λ k, hourly_clock (24 + k)) always_up returning_user))
  = Some 1.
Proof. reflexivity. Qed.

(** A [lastLoginDate] that [Date] cannot parse is a date different from
    today's and from yesterday's: the streak restarts at one. *)
Example checkLoginStreak_invalid_date :
  let st := mkStats "stats_u1" "u1" 0 0 0 7 Unparseable ∅ 0 in
  let s := mkState empty_local (mkRemote ∅ {[ "u1" := st ]}) (Some "u1") false 0 0 in
  loginStreak <$> stored_stats "u1" (snd (checkLoginStreak utc_zone hourly_clock always_up s))
  = Some 1.
Proof. reflexivity. Qed.

(** Why the statements on [checkLoginStreak] ask for the two date readings
    of a call to fall on one date: with midnight between them, the record of
    the day before the first reading is no longer "yesterday" for the
    second. *)
Example checkLoginStreak_across_midnight :
  let clock := λ k : nat, match k with
                          | O => 1793577600000 - 1
                          | _ => 1793577600000
                          end in
  let st := mkStats "stats_u1" "u1" 0 0 0 4 (IsoInstant (1793577600000 - 86400000 - 1)) ∅ 0 in
  let s := mkState empty_local (mkRemote ∅ {[ "u1" := st ]}) (Some "u1") false 0 0 in
  loginStreak <$> stored_stats "u1" (snd (checkLoginStreak utc_zone clock always_up s))
  = Some 1.
Proof. reflexivity. Qed.

(** A rejected request stops the call: nothing is written. *)
Example saveSummaries_rejected :
  saveSummaries always_down [summary_a] auth_session = (Rejected, bump auth_session).
Proof. reflexivity. Qed.

(** ** The theorems at sample data *)

Lemma always_up_ok (s s' : State) : requests_ok always_up s s'.
Proof. intros k _. reflexivity. Defined.

(** Full replacement at the returning guest: one own note saved and read back, and two
    notes saved and then replaced by the empty list. *)
Lemma saveNotes_guest_full_replacement_witness :
  active returning_guest = Some "g1" ∧ isGuestMode returning_guest = true ∧
  fst (getNotes always_up (snd (saveNotes always_up [note1] returning_guest)))
  = Fulfilled [ItemDoc note1] ∧
  fst (getNotes always_up
         (snd (saveNotes always_up []
                 (snd (saveNotes always_up [note1; note2] returning_guest)))))
  = Fulfilled [].
Proof.
  assert (Hu : active returning_guest = Some "g1") by reflexivity.
  assert (Hg : isGuestMode returning_guest = true) by reflexivity.
  destruct (saveNotes_guest_full_replacement always_up returning_guest "g1" Hu Hg)
    as (H1 & H2 & H3).
  split; [exact Hu|]. split; [exact Hg|]. split.
  - apply (H2 [note1]). repeat constructor.
  - apply H3.
Defined.

(** Foreign records at a fresh guest session: the note of [g2] saved by [g1] survives a
    later save of [g1] and is what [g2] reads. *)
Lemma saveNotes_guest_stores_foreign_records_witness :
  let s1 := snd (saveNotes always_up [note1; foreign_note] guest_session) in
  let s2 := snd (saveNotes always_up [note2] s1) in
  foreign_note ∈ getLocalDB LOCAL_KEYS.NOTES (localStorage s2) ∧
  ∃ docs, fst (getNotes always_up (setSession other_guest s2)) = Fulfilled docs ∧
          ItemDoc foreign_note ∈ docs.
Proof.
  destruct (saveNotes_guest_stores_foreign_records always_up guest_session "g1"
              other_guest [note1; foreign_note] [note2] foreign_note)
    as (_ & _ & H3 & H4).
  - reflexivity.
  - reflexivity.
  - compute_done.
  - compute_done.
  - reflexivity.
  - reflexivity.
  - compute_done.
  - split; [exact H3|exact H4].
Defined.

(** [loadCollection] at an unknown name in both modes, at the name [data],
    at two names that are not the path of a subcollection, and at a name
    wrapped in slashes. *)
Lemma loadCollection_soft_results_witness :
  loadCollection always_up "archive" returning_guest = (Fulfilled [], returning_guest) ∧
  fst (loadCollection always_up "archive" returning_user) = Fulfilled [] ∧
  fst (loadCollection always_up "data" returning_user) = Fulfilled [StatsDoc returning_stats] ∧
  loadCollection always_up "" returning_user = (Rejected, returning_user) ∧
  loadCollection always_up "notes/n1" returning_user = (Rejected, returning_user) ∧
  loadCollection always_up "/summaries/" stocked_user
  = (Fulfilled [ItemDoc summary_a], bump stocked_user).
Proof.
  split_and!.
  - apply (loadCollection_soft_results always_up "archive" returning_guest);
      [reflexivity|compute_done].
  - destruct (loadCollection_soft_results always_up "archive" returning_user)
      as (_ & _ & H).
    destruct (H "u1") as (_ & _ & _ & _ & Hdocs); [reflexivity..|].
    destruct Hdocs as (_ & _ & Hempty & _); [reflexivity..|].
    apply Hempty; [compute_done|intros id; reflexivity].
  - destruct (loadCollection_soft_results always_up "data" returning_user)
      as (_ & _ & H).
    destruct (H "u1") as (_ & _ & _ & _ & Hdocs); [reflexivity..|].
    destruct Hdocs as (_ & _ & _ & Hdata); [reflexivity..|].
    apply Hdata; reflexivity.
  - destruct (loadCollection_soft_results always_up "" returning_user)
      as (_ & _ & H).
    destruct (H "u1") as (Hthrows & _); [reflexivity..|].
    apply Hthrows. right. reflexivity.
  - destruct (loadCollection_soft_results always_up "notes/n1" returning_user)
      as (_ & _ & H).
    destruct (H "u1") as (Hthrows & _); [reflexivity..|].
    apply Hthrows. right. reflexivity.
  - destruct (loadCollection_soft_results always_up "/summaries/" stocked_user)
      as (_ & _ & H).
    destruct (H "u1") as (_ & _ & _ & _ & Hdocs); [reflexivity..|].
    destruct Hdocs as (_ & Hrun & _); [reflexivity..|].
    exact Hrun.
Defined.

(** The fail-soft reading, in the words of the specification, does not
    hold in authenticated mode: once the user's stats document exists, the
    name [data], which is not one of the five, yields that document. *)
Lemma loadCollection_fails_soft_counterexample :
  ¬ loadCollection_fails_soft always_up "data"
      (snd (getStats hourly_clock always_up auth_session)).
Proof.
  intros [_ H]. assert (Hname : "data" ∉ recognized.*1) by compute_done.
  specialize (H Hname). vm_compute in H. discriminate H.
Qed.


(** Migration of the returning guest: with the commit going through the note [n1]
    and the stats are under [u1], stamped with [u1], and the note of [g2]
    is not; with the commit failing the remote store is as before. *)
Lemma migrateData_all_or_nothing_witness :
  (∃ s1, migrateData always_up "g1" "u1" returning_guest = (Fulfilled tt, s1) ∧
         remote_item "u1" "notes" "n1" (db s1) = Some (mkItem "n1" "u1" "title: Algebra") ∧
         remote_item "u1" "notes" "n3" (db s1) = None ∧
         ∃ st', fs_stats (db s1) !! "u1" = Some st' ∧
                stats_id st' = "stats_u1" ∧ stats_userId st' = "u1" ∧
                totalTimeStudiedMinutes st' = 120 ∧ loginStreak st' = 4 ∧
                dailyActivity st' = {[ "2026-11-02" := 20 ]}) ∧
  (∃ s1, migrateData always_down "g1" "u1" returning_guest = (Rejected, s1) ∧
         db s1 = db returning_guest).
Proof.
  split.
  - destruct (migrateData_all_or_nothing always_up returning_guest "g1" "u1")
      as (_ & _ & Hok & _).
    destruct (Hok eq_refl) as (s1 & Hrun & Hdb & _ & Hitems & Hstats).
    exists s1. split; [exact Hrun|]. split; [|split].
    + destruct (Hitems "notes" LOCAL_KEYS.NOTES note1) as [_ Huniq];
        [compute_done..|].
      apply Huniq. compute_done.
    + rewrite Hdb. compute_done.
    + destruct (Hstats returning_stats eq_refl)
        as (st' & Hst' & Hu & Hid & Htot & _ & _ & Hstreak & _ & Hdaily & _).
      exists st'. split; [exact Hst'|]. split; [exact Hid|]. split; [exact Hu|].
      split; [exact Htot|]. split; [exact Hstreak|exact Hdaily].
  - destruct (migrateData_all_or_nothing always_down returning_guest "g1" "u1")
      as (_ & _ & _ & Hfail).
    destruct (Hfail eq_refl) as (s1 & Hrun & Hdb & _).
    exists s1. split; [exact Hrun|exact Hdb].
Defined.

(** Lazy creation at a fresh authenticated session. *)
Lemma getStats_lazy_creation_witness :
  ∃ st, fst (getStats hourly_clock always_up auth_session) = Fulfilled st ∧
        loginStreak st = 0 ∧ totalTimeStudiedMinutes st = 0 ∧
        lastLoginDate st = IsoInstant 1793577600000 ∧
        fst (getStats hourly_clock always_up
               (snd (getStats hourly_clock always_up auth_session))) = Fulfilled st.
Proof.
  destruct (getStats_lazy_creation hourly_clock always_up auth_session "u1")
    as (st & H1 & Htot & _ & _ & Hstreak & _ & Hlast & _ & H2 & _).
  - reflexivity.
  - reflexivity.
  - apply always_up_ok.
  - exists st. split; [exact H1|]. split; [exact Hstreak|]. split; [exact Htot|].
    split; [exact Hlast|exact H2].
Defined.

(** The streak of the returning guest: last login yesterday at 23:00, streak 4. *)
Lemma checkLoginStreak_advances_witness :
  ∃ s1 st1,
    checkLoginStreak utc_zone hourly_clock always_up returning_guest = (Fulfilled tt, s1) ∧
    stored_stats "g1" s1 = Some st1 ∧
    loginStreak st1 = 5 ∧ lastLoginDate st1 = IsoInstant 1793584800000 ∧
    totalTimeStudiedMinutes st1 = 120.
Proof.
  destruct (checkLoginStreak_advances utc_zone hourly_clock always_up returning_guest "g1"
              returning_stats 20759 20758)
    as (s1 & st1 & Hrun & Hst & Hinc & _ & _ & Hlast & _ & _ & Htot & _).
  - reflexivity.
  - reflexivity.
  - apply always_up_ok.
  - reflexivity.
  - reflexivity.
  - reflexivity.
  - lia.
  - exists s1, st1. split; [exact Hrun|]. split; [exact Hst|].
    split; [|split; [exact Hlast|exact Htot]].
    apply Hinc; [reflexivity|]. cbn. lia.
Defined.

(** At a streak of [2 ^ 53] the next number is not a double: the call
    leaves the streak where it was, whereas the specification has it grow
    by one for every streak. *)
Lemma checkLoginStreak_adds_one_counterexample :
  ¬ checkLoginStreak_adds_one utc_zone hourly_clock always_up veteran_guest "g1".
Proof.
  intros H. specialize (H veteran_stats eq_refl eq_refl).
  vm_compute in H. discriminate H.
Qed.

(** Two checks of the returning user, authenticated, four readings in one day. *)
Lemma checkLoginStreak_twice_same_date_witness :
  let s1 := snd (checkLoginStreak utc_zone hourly_clock always_up returning_user) in
  let s2 := snd (checkLoginStreak utc_zone hourly_clock always_up s1) in
  ∃ st1 st2, stored_stats "u1" s1 = Some st1 ∧ stored_stats "u1" s2 = Some st2 ∧
             loginStreak st2 = loginStreak st1.
Proof.
  destruct (checkLoginStreak_twice_same_date utc_zone hourly_clock always_up
              returning_user "u1" 20759)
    as (_ & _ & st1 & st2 & H1 & H2 & Hsame & _).
  - reflexivity.
  - apply always_up_ok.
  - intros k Hk. vm_compute in Hk.
    destruct k as [|[|[|[|k]]]]; [reflexivity..|lia].
  - exists st1, st2. split; [exact H1|]. split; [exact H2|exact Hsame].
Defined.

(** The first day of a fresh guest session. *)
Lemma checkLoginStreak_first_day_witness :
  let s1 := snd (getStats hourly_clock always_up guest_session) in
  let s2 := snd (checkLoginStreak utc_zone hourly_clock always_up s1) in
  ∃ st, fst (getStats hourly_clock always_up guest_session) = Fulfilled st ∧
        loginStreak st = 0 ∧ stored_stats "g1" s2 = Some st.
Proof.
  destruct (checkLoginStreak_first_day utc_zone hourly_clock always_up
              guest_session "g1" 20759) as [_ H].
  - reflexivity.
  - destruct H as (st & Hget & Hzero & _ & _ & Hst).
    + reflexivity.
    + apply always_up_ok.
    + intros k Hk. vm_compute in Hk.
      destruct k as [|[|k]]; [reflexivity..|lia].
    + exists st. split; [exact Hget|]. split; [exact Hzero|exact Hst].
Defined.

(** Study time of the returning guest: twenty minutes were logged for the day. *)
Lemma logStudyTime_30_then_15_witness :
  let s1 := snd (logStudyTime hourly_clock always_up 30 returning_guest) in
  let s2 := snd (logStudyTime hourly_clock always_up 15 s1) in
  ∃ st2, stored_stats "g1" s2 = Some st2 ∧
         dailyActivity st2 !! "2026-11-02" = Some 65 ∧
         totalTimeStudiedMinutes st2 = 165 ∧
         dailyActivity st2 !! "2026-11-01" = None ∧
         loginStreak st2 = 4.
Proof.
  destruct (logStudyTime_30_then_15 hourly_clock always_up returning_guest "g1")
    as (_ & _ & _ & _ & st2 & Hst & Hprior & _).
  - reflexivity.
  - apply always_up_ok.
  - reflexivity.
  - destruct (Hprior returning_stats eq_refl)
      as (Hentry & Htotal & Hothers & _ & _ & _ & _ & Hstreak & _).
    exists st2. split; [exact Hst|]. split_and!.
    + apply Hentry; compute_done.
    + apply Htotal; compute_done.
    + rewrite (Hothers "2026-11-01"); [reflexivity|compute_done].
    + exact Hstreak.
Defined.

(** The two calls under different keys, and at a total of [2 ^ 53].  In a
    zone two hours east of UTC, half past one and half past three in the
    morning of one calendar day are instants of two UTC dates: the first
    call writes 30 under the key of the earlier one, the second 15 under
    the key of the later one, and no entry is at 45.  On one UTC day, a
    lifetime total of [2 ^ 53] grows by 44, the sum with 45 not being a
    double. *)
Lemma logStudyTime_adds_45_counterexample :
  ¬ logStudyTime_adds_45 east_zone late_clock always_up guest_session "g1" ∧
  ¬ logStudyTime_adds_45 utc_zone hourly_clock always_up veteran_guest "g1".
Proof.
  split.
  - intros H. destruct H as (st2 & Hst & _ & key & Hkey).
    { intros k Hk. vm_compute in Hk.
      destruct k as [|[|[|k]]]; [reflexivity..|lia]. }
    vm_compute in Hst. injection Hst as <-.
    cbn [dailyActivity] in Hkey.
    change (default 0 (stored_stats "g1" guest_session ≫= _)) with 0 in Hkey.
    apply elem_of_map_to_list in Hkey.
    apply (list_elem_of_fmap_2 snd) in Hkey. vm_compute in Hkey.
    by repeat (apply elem_of_cons in Hkey as [Hkey|Hkey]; [discriminate Hkey|]);
      apply not_elem_of_nil in Hkey.
  - intros H. destruct H as (st2 & Hst & Htotal & _).
    { intros k Hk. vm_compute in Hk.
      destruct k as [|[|k]]; [reflexivity..|lia]. }
    vm_compute in Hst. injection Hst as <-. vm_compute in Htotal. discriminate Htotal.
Qed.

(** ** The further theorems at sample data *)

(** The guest [g2] is found again after its session was set; a guest with
    the id [__proto__] is not, and nothing is stored for it. *)
Lemma guest_session_round_trip_witness :
  getGuestSession (setSession other_guest returning_guest) = Some (Profile other_guest) ∧
  getGuestSession (setSession proto_guest returning_guest) = Some (Inherited "__proto__") ∧
  ls_users (localStorage (setSession proto_guest returning_guest)) = ∅ ∧
  getGuestSession (setSession ada_profile returning_guest) = None.
Proof.
  destruct (guest_session_round_trip other_guest returning_guest) as (Hfound & _).
  destruct (guest_session_round_trip proto_guest returning_guest) as (_ & Hproto & _).
  destruct (guest_session_round_trip ada_profile returning_guest) as (_ & _ & _ & Hnone & _).
  destruct Hproto as [Hmember Hdir]; [reflexivity..|].
  split_and!.
  - apply Hfound; [reflexivity|compute_done..].
  - exact Hmember.
  - exact Hdir.
  - apply Hnone; reflexivity.
Defined.

(** The guest entry on a device that already has a guest. *)
Lemma guest_access_establishes_session_witness :
  ∃ guest s1 w2,
    createGuestUser hourly_clock "k3j9x0abc" shared_device = (Fulfilled guest, s1) ∧
    saveUserProfile always_down guest (mkWorld s1 ∅) = (Fulfilled tt, w2) ∧
    user_id guest = "guest_1793577600000_k3j9x0abc" ∧
    user_name guest = "Guest #0000" ∧
    getGuestSession (setSession guest (service w2)) = Some (Profile guest).
Proof.
  destruct (guest_access_establishes_session hourly_clock always_down "k3j9x0abc"
              (mkWorld shared_device ∅))
    as (guest & s1 & w2 & Hmake & Hsave & _ & _ & _ & Hfound & _).
  exists guest, s1, w2. split; [exact Hmake|]. split; [exact Hsave|].
  injection Hmake as <- <-. split; [reflexivity|]. split; [reflexivity|exact Hfound].
Defined.

(** A fetch that fails reads as "no profile". *)
Lemma getUserProfile_never_rejects_witness :
  fst (getUserProfile always_down "u1" signed_in_world) = Fulfilled None ∧
  fst (getUserProfile always_up "u1" signed_in_world) = Fulfilled (Some ada_profile).
Proof.
  split.
  - destruct (getUserProfile_never_rejects always_down "u1" signed_in_world)
      as (found & w1 & Hrun & _ & _ & _ & Hdown).
    rewrite Hrun. cbn [fst]. f_equal. apply Hdown. reflexivity.
  - destruct (getUserProfile_never_rejects always_up "u1" signed_in_world)
      as (found & w1 & Hrun & _ & _ & Hup & _).
    rewrite Hrun. cbn [fst]. f_equal. rewrite Hup by reflexivity. reflexivity.
Defined.

(** A profile saved remotely is read back; a guest's goes to the directory,
    unless its id is [__proto__]. *)
Lemma saveUserProfile_round_trip_witness :
  (∃ w1 w2, saveUserProfile always_up ada_profile (mkWorld auth_session ∅)
            = (Fulfilled tt, w1) ∧
            getUserProfile always_up "u1" w1 = (Fulfilled (Some ada_profile), w2)) ∧
  (∃ w1, saveUserProfile always_down other_guest (mkWorld auth_session ∅)
         = (Fulfilled tt, w1) ∧
         ls_users (localStorage (service w1)) !! "g2" = Some other_guest) ∧
  (∃ w1, saveUserProfile always_down proto_guest (mkWorld auth_session ∅)
         = (Fulfilled tt, w1) ∧
         ls_users (localStorage (service w1)) = ∅).
Proof.
  split_and!.
  - destruct (saveUserProfile_round_trip always_up ada_profile (mkWorld auth_session ∅))
      as (Hremote & _ & _).
    destruct Hremote as (w1 & w2 & Hsave & Hget & _); [reflexivity..|].
    by exists w1, w2.
  - destruct (saveUserProfile_round_trip always_down other_guest (mkWorld auth_session ∅))
      as (_ & _ & Hlocal).
    destruct Hlocal as (w1 & Hsave & Hdir & _); [reflexivity|].
    exists w1. split; [exact Hsave|]. apply Hdir. compute_done.
  - destruct (saveUserProfile_round_trip always_down proto_guest (mkWorld auth_session ∅))
      as (_ & _ & Hlocal).
    destruct Hlocal as (w1 & Hsave & _ & Hproto & _); [reflexivity|].
    exists w1. split; [exact Hsave|]. apply Hproto; reflexivity.
Defined.

(** Sign-in of [u1], with the profile stored and without. *)
Lemma authListener_signed_in_witness :
  fst (authListener always_up (Some ("u1", Some "ada@example.org")) signed_in_world)
  = Fulfilled (Some (Profile ada_profile)) ∧
  fst (authListener always_up (Some ("u1", Some "ada@example.org"))
         (mkWorld returning_guest ∅))
  = Fulfilled (Some (Profile (mkUser "u1" false "ada" None 2 morning "Productivity" medium))).
Proof.
  split.
  - destruct (authListener_signed_in always_up "u1" (Some "ada@example.org") signed_in_world)
      as (Hfound & _); [reflexivity|].
    rewrite (Hfound ada_profile) by reflexivity. reflexivity.
  - destruct (authListener_signed_in always_up "u1" (Some "ada@example.org")
                (mkWorld returning_guest ∅)) as (_ & Hfresh & _); [reflexivity|].
    rewrite Hfresh by reflexivity. reflexivity.
Defined.

(** The stored profile of [u1] is replaced when only the fetch fails. *)
Lemma authListener_failed_fetch_replaces_profile_witness :
  ∃ w1, authListener fails_first (Some ("u1", Some "ada@example.org")) signed_in_world
        = (Fulfilled (Some (Profile (fresh_profile "u1" (Some "ada@example.org")))), w1) ∧
        user_docs w1 !! "u1"
        = Some (mkUser "u1" false "ada" None 2 morning "Productivity" medium).
Proof.
  destruct (authListener_failed_fetch_replaces_profile fails_first "u1"
              (Some "ada@example.org") signed_in_world ada_profile)
    as (w1 & Hrun & Hdoc & _); [reflexivity..|].
  exists w1. split; [exact Hrun|exact Hdoc].
Defined.

(** After a reload the listener finds the guest [g2] again, and finds an
    inherited member in place of the guest with the id [__proto__]. *)
Lemma authListener_signed_out_witness :
  let reloaded :=
    mkState (localStorage (setSession other_guest shared_device)) empty_remote None true 0 0 in
  let reloaded' :=
    mkState (localStorage (setSession proto_guest shared_device)) empty_remote None true 0 0 in
  (∃ w1, authListener always_down None (mkWorld reloaded ∅)
         = (Fulfilled (Some (Profile other_guest)), w1) ∧
         active (service w1) = Some "g2") ∧
  (∃ w1, authListener always_down None (mkWorld reloaded' ∅)
         = (Fulfilled (Some (Inherited "__proto__")), w1) ∧
         active (service w1) = None).
Proof.
  intros reloaded reloaded'. split.
  - destruct (authListener_signed_out always_down (mkWorld reloaded ∅)) as (Hguest & _).
    destruct (Hguest shared_device other_guest) as (w1 & Hrun & Hactive & _);
      [reflexivity|compute_done|compute_done|reflexivity|].
    exists w1. split; [exact Hrun|exact Hactive].
  - destruct (authListener_signed_out always_down (mkWorld reloaded' ∅)) as (_ & Hproto & _).
    destruct (Hproto shared_device proto_guest) as (w1 & Hrun & Hactive & _);
      [reflexivity..|].
    exists w1. split; [exact Hrun|exact Hactive].
Defined.

(** The local part of an address. *)
Lemma deriveName_is_local_part_witness :
  ∃ rest, "ada@example.org" = deriveName (Some "ada@example.org") +:+ rest ∧
          deriveName (Some "ada@example.org") = "ada".
Proof.
  destruct deriveName_is_local_part as (_ & _ & H).
  destruct (H "ada@example.org") as ((rest & Heq & _) & _); [compute_done|].
  exists rest. split; [exact Heq|reflexivity].
Defined.

(** A replayed quiz replaces its former version. *)
Lemma saveQuiz_guest_upserts_witness :
  ∃ after s1,
    saveQuiz always_down quiz1_replayed shared_device = (Fulfilled tt, s1) ∧
    fst (exported_getQuizzes always_down "someone" s1) = Fulfilled (ItemDoc <$> after) ∧
    quiz1_replayed ∈ after ∧ quiz2 ∈ after ∧ length after = 2%nat.
Proof.
  destruct (saveQuiz_guest_upserts always_down quiz1_replayed shared_device "g1" "someone")
    as (after & s1 & Hrun & Hget & Hin & Hkeep & _ & Hlen & _); [reflexivity..|].
  exists after, s1. split; [exact Hrun|]. split; [exact Hget|]. split; [exact Hin|].
  split; [apply Hkeep; compute_done|exact Hlen].
Defined.

Lemma saveQuiz_guest_idempotent_witness :
  saveQuiz always_down quiz1_replayed (snd (saveQuiz always_down quiz1_replayed shared_device))
  = (Fulfilled tt, snd (saveQuiz always_down quiz1_replayed shared_device)).
Proof.
  apply (saveQuiz_guest_idempotent always_down quiz1_replayed shared_device "g1");
    reflexivity.
Defined.

Lemma saveQuiz_auth_upserts_witness :
  (∃ s1, saveQuiz always_up quiz1 stocked_user = (Fulfilled tt, s1) ∧
         remote_item "u1" "quizzes" "q1" (db s1) = Some quiz1 ∧
         remote_item "u1" "summaries" "a" (db s1) = Some summary_a) ∧
  (∃ s1, saveQuiz always_down quiz1 stocked_user = (Rejected, s1) ∧
         db s1 = db stocked_user).
Proof.
  split.
  - destruct (saveQuiz_auth_upserts always_up quiz1 stocked_user "u1") as (Hok & _);
      [reflexivity..|].
    destruct (Hok eq_refl) as (s1 & Hrun & Hq & Hkeep & _).
    exists s1. split; [exact Hrun|]. split; [exact Hq|].
    rewrite Hkeep by compute_done. reflexivity.
  - destruct (saveQuiz_auth_upserts always_down quiz1 stocked_user "u1") as (_ & Hfail);
      [reflexivity..|].
    destruct (Hfail eq_refl) as (s1 & Hrun & Hdb & _). by exists s1.
Defined.

Lemma guest_lists_round_trip_witness :
  fst (getQueue always_down (snd (saveQueue always_down [note1; foreign_note] shared_device)))
  = Fulfilled [ItemDoc note1] ∧
  fst (getTasks always_down (snd (saveTasks always_down [] shared_device)))
  = Fulfilled [].
Proof.
  split.
  - apply (guest_lists_round_trip always_down shared_device "g1" [note1; foreign_note]);
      reflexivity.
  - apply (guest_lists_round_trip always_down shared_device "g1" []); reflexivity.
Defined.

(** The note of [g2] survives a save of [g1], and a note stamped [g2] in the
    saved list lands in the view of [g2]. *)
Lemma save_list_guest_isolation_witness :
  let s1 := snd (saveNotes always_down [note2; foreign_note] shared_device) in
  getLocalUserItems LOCAL_KEYS.NOTES "g2" (localStorage s1) = [foreign_note; foreign_note] ∧
  getLocalDB LOCAL_KEYS.QUIZZES (localStorage s1) = [quiz1; quiz2].
Proof.
  intros s1.
  destruct (save_list_guest_isolation always_down LOCAL_KEYS.NOTES "notes"
              [note2; foreign_note] shared_device "g1") as (Hother & Hkeys & _);
    [reflexivity..|].
  split.
  - subst s1. unfold saveNotes. rewrite (Hother "g2") by compute_done. reflexivity.
  - subst s1. unfold saveNotes. rewrite (Hkeys LOCAL_KEYS.QUIZZES) by compute_done.
    reflexivity.
Defined.

Lemma save_list_auth_batch_witness :
  (∃ s1, saveTasks always_up [note1; note2] stocked_user = (Fulfilled tt, s1) ∧
         remote_item "u1" "tasks" "n2" (db s1) = Some note2 ∧
         remote_item "u2" "notes" "n9" (db s1)
         = Some (mkItem "n9" "u2" "title: Maps")) ∧
  (∃ s1, saveTasks always_down [note1; note2] stocked_user = (Rejected, s1) ∧
         db s1 = db stocked_user).
Proof.
  split.
  - destruct (save_list_auth_batch always_up LOCAL_KEYS.TASKS "tasks" [note1; note2]
                stocked_user "u1") as (Hok & _); [reflexivity..|].
    destruct (Hok eq_refl) as (s1 & Hrun & _ & _ & _ & Huniq & Hkeep).
    exists s1. split; [exact Hrun|]. split.
    + apply (Huniq ltac:(compute_done) note2). compute_done.
    + rewrite Hkeep; [reflexivity|]. left. compute_done.
  - destruct (save_list_auth_batch always_down LOCAL_KEYS.TASKS "tasks" [note1; note2]
                stocked_user "u1") as (_ & Hfail); [reflexivity..|].
    destruct (Hfail eq_refl) as (s1 & Hrun & Hdb & _). by exists s1.
Defined.

Lemma loadCollection_only_reads_witness :
  snd (loadCollection always_down "notes" shared_device) = shared_device ∧
  localStorage (snd (loadCollection always_down "notes" stocked_user))
  = localStorage stocked_user.
Proof.
  split.
  - apply (loadCollection_only_reads always_down "notes" shared_device). reflexivity.
  - apply (loadCollection_only_reads always_down "notes" stocked_user).
Defined.

(** A login check of [g1] on the shared device. *)
Lemma stats_calls_leave_the_rest_witness :
  let s' := snd (checkLoginStreak utc_zone hourly_clock always_down shared_device) in
  ls_tables (localStorage s') = ls_tables (localStorage shared_device) ∧
  currentUserId s' = Some "g1".
Proof.
  intros s'.
  destruct (stats_calls_leave_the_rest utc_zone hourly_clock always_down shared_device s' "g1")
    as (Hcur & _ & _ & _ & Htab & _).
  - reflexivity.
  - right. left. reflexivity.
  - split; [exact Htab|exact Hcur].
Defined.

Lemma stats_of_other_users_untouched_witness :
  let s' := snd (logStudyTime hourly_clock always_down 25 shared_device) in
  stored_stats "g2" s' = stored_stats "g2" shared_device ∧
  totalTimeStudiedMinutes <$> stored_stats "g1" s' = Some 145.
Proof.
  intros s'. split; [|reflexivity].
  apply (stats_of_other_users_untouched utc_zone hourly_clock always_down
           shared_device s' "g1" "g2").
  - reflexivity.
  - right. right. exists 25. reflexivity.
  - compute_done.
Defined.

Lemma one_stats_record_per_user_kept_witness :
  NoDup (stats_userId <$>
           ls_stats (localStorage
                       (snd (getStats hourly_clock always_down
                               (setSession other_guest returning_guest))))).
Proof.
  apply (one_stats_record_per_user_kept utc_zone hourly_clock always_down
           (setSession other_guest returning_guest) _ "g2").
  - reflexivity.
  - left. reflexivity.
  - compute_done.
Defined.

Lemma guest_mode_works_offline_witness :
  fst (checkLoginStreak utc_zone hourly_clock always_down shared_device) = Fulfilled tt ∧
  calls (snd (saveNotes always_down [note1] shared_device)) = 0%nat.
Proof.
  destruct (guest_mode_works_offline utc_zone hourly_clock always_down shared_device)
    as (_ & Hcheck & _ & _ & _ & _ & Hframe); [reflexivity|].
  split; [exact Hcheck|].
  destruct (Hframe (snd (saveNotes always_down [note1] shared_device))) as [_ Hcalls].
  - right. left. by exists LOCAL_KEYS.NOTES, "notes", [note1].
  - exact Hcalls.
Defined.

Lemma authenticated_mode_leaves_local_storage_witness :
  localStorage (snd (logStudyTime hourly_clock fails_first 25 stocked_user))
  = localStorage stocked_user.
Proof.
  apply (authenticated_mode_leaves_local_storage utc_zone hourly_clock fails_first).
  - reflexivity.
  - left. right. right. by exists 25.
Defined.

(** Twenty-five minutes, and ten taken back, on the day that has twenty. *)
Lemma logStudyTime_adds_minutes_witness :
  (∃ st1, stored_stats "g1" (snd (logStudyTime hourly_clock always_down 25 shared_device))
          = Some st1 ∧
          dailyActivity st1 !! "2026-11-02" = Some 45 ∧
          totalTimeStudiedMinutes st1 = 145 ∧ loginStreak st1 = 4) ∧
  (∃ st1, stored_stats "g1" (snd (logStudyTime hourly_clock always_down (-10) shared_device))
          = Some st1 ∧
          dailyActivity st1 !! "2026-11-02" = Some 10).
Proof.
  split.
  - destruct (logStudyTime_adds_minutes hourly_clock always_down 25 shared_device "g1")
      as (_ & _ & st1 & _ & Hst & Htot & Hday & _ & _ & _ & Hstreak & _);
      [reflexivity|intros k Hk; vm_compute in Hk; lia|].
    exists st1. split; [exact Hst|]. split_and!.
    + apply Hday. compute_done.
    + apply Htot. compute_done.
    + exact Hstreak.
  - destruct (logStudyTime_adds_minutes hourly_clock always_down (-10) shared_device "g1")
      as (_ & _ & st1 & _ & Hst & _ & Hday & _);
      [reflexivity|intros k Hk; vm_compute in Hk; lia|].
    exists st1. split; [exact Hst|]. apply Hday. compute_done.
Defined.

(** A last login dated in the future, and one that is no date. *)
Lemma checkLoginStreak_restarts_witness :
  let st := mkStats "stats_u1" "u1" 0 0 0 7 (IsoInstant 1793750400000) ∅ 0 in
  let s := mkState empty_local (mkRemote ∅ {[ "u1" := st ]}) (Some "u1") false 0 0 in
  ∃ s1, checkLoginStreak utc_zone hourly_clock always_up s = (Fulfilled tt, s1) ∧
        loginStreak <$> stored_stats "u1" s1 = Some 1.
Proof.
  intros st s.
  destruct (checkLoginStreak_restarts utc_zone hourly_clock always_up s "u1" st 20759)
    as (s1 & Hrun & Hst); [reflexivity|reflexivity|apply always_up_ok|reflexivity|
                           reflexivity|compute_done|compute_done|].
  exists s1. split; [exact Hrun|]. rewrite Hst. reflexivity.
Defined.

Lemma updateStats_read_modify_write_witness :
  ∃ s1 st1,
    updateStats hourly_clock always_down (λ st, ret (with_note_created st)) shared_device
    = (Fulfilled (Some st1), s1) ∧
    stored_stats "g1" s1 = Some st1 ∧ notesCreated st1 = 4 ∧ quizzesTaken st1 = 1.
Proof.
  destruct (updateStats_read_modify_write hourly_clock always_down shared_device "g1")
    as (_ & Hnote); [reflexivity|].
  destruct Hnote as (s1 & st1 & Hrun & Hst & Hnotes & _ & _ & _ & _ & Hquiz & _).
  - intros k Hk. vm_compute in Hk. lia.
  - exists s1, st1. split; [exact Hrun|]. split; [exact Hst|].
    split; [|exact Hquiz]. apply Hnotes. compute_done.
Defined.

Lemma loadUserData_never_rejects_witness :
  (∃ st, fst (loadUserData utc_zone hourly_clock always_down shared_device)
         = Fulfilled (Some ([ItemDoc note1; ItemDoc note2], [], st)) ∧
         loginStreak st = 5) ∧
  fst (loadUserData utc_zone hourly_clock always_down stocked_user) = Fulfilled None.
Proof.
  split.
  - destruct (loadUserData_never_rejects utc_zone hourly_clock always_down shared_device)
      as (_ & Hguest).
    destruct (Hguest "g1") as (st & Hrun & Hst); [reflexivity..|].
    exists st. split; [exact Hrun|].
    vm_compute in Hst. injection Hst as <-. reflexivity.
  - destruct (loadUserData_never_rejects utc_zone hourly_clock always_down stocked_user)
      as ((loaded & Hrun) & _).
    reflexivity.
Defined.

(** The guest [g1] moves to [u1], who already has a summary. *)
Lemma migrateData_keeps_other_documents_witness :
  let s1 := snd (migrateData always_up "g1" "u1"
                   (mkState (localStorage shared_device) (db stocked_user)
                            (Some "u1") false 0 0)) in
  remote_item "u1" "summaries" "a" (db s1) = Some summary_a ∧
  remote_item "u2" "notes" "n9" (db s1) = Some (mkItem "n9" "u2" "title: Maps") ∧
  fs_stats (db s1) !! "u2" = Some returning_stats.
Proof.
  intros s1.
  destruct (migrateData_keeps_other_documents always_up
              (mkState (localStorage shared_device) (db stocked_user) (Some "u1") false 0 0)
              "g1" "u1") as (Hitems & Hstats & _); [reflexivity|].
  fold s1 in Hitems, Hstats. split; [|split].
  - rewrite Hitems; [reflexivity|]. intros key r _ Hc Hr.
    assert (Hkey : key = LOCAL_KEYS.SUMMARIES)
      by (apply (recognized_key_unique "summaries"); [exact Hc|compute_done]).
    subst key. vm_compute in Hr. by apply not_elem_of_nil in Hr.
  - rewrite Hitems; [reflexivity|]. intros key r Hu. discriminate Hu.
  - rewrite Hstats by compute_done. reflexivity.
Defined.

Lemma migrateData_twice_witness :
  let s1 := snd (migrateData always_up "g1" "u1" shared_device) in
  let s2 := snd (migrateData always_up "g1" "u1" s1) in
  same_documents (db s2) (db s1) ∧
  remote_item "u1" "notes" "n1" (db s2) = Some (mkItem "n1" "u1" "title: Algebra").
Proof.
  intros s1 s2.
  destruct (migrateData_twice always_up shared_device "g1" "u1") as (_ & _ & Hsame);
    [reflexivity..|].
  split; [exact Hsame|]. reflexivity.
Defined.

Lemma no_session_nothing_stored_witness :
  saveNotes always_up [note1] no_session = (Fulfilled tt, no_session) ∧
  checkLoginStreak utc_zone hourly_clock always_up no_session = (Fulfilled tt, no_session) ∧
  fst (getStats hourly_clock always_up no_session)
  = Fulfilled (empty_stats "unknown" 1793577600000).
Proof.
  destruct (no_session_nothing_stored utc_zone hourly_clock always_up no_session)
    as (Hsave & _ & _ & Hcheck & _ & _ & Hget & _); [reflexivity|].
  split; [apply Hsave|]. split; [exact Hcheck|]. by rewrite Hget.
Defined.
